(** * Player_Performance: scoring, recommendation, match orchestration and
      subscription bookkeeping, embedded from the JavaScript sources.

    Sources embedded here:
    - [performanceCalculator.js]  (the score calculator),
    - [utils/validators.js]       (structural and per-sport validation),
    - [suggestionEngine.js]       (rest recommendation, training and trend
                                   suggestions),
    - [models/matchData.js]       (record constructors),
    - [services/matchService.js]  (submission, deletion, aggregate statistics),
    - [services/realtimeService.js] (subscription registry).

    Numbers.  Two embeddings of the JavaScript number are used.  Where a
    statement does not depend on rounding (ranges, bands, validation, what
    is stored where), a number is an [option Q] of module [Js]: [Some q] is
    the finite value [q], [None] is [NaN] (which is also what [undefined]
    turns into in arithmetic and comparisons), and arithmetic is exact.
    The infinities are not represented there (a division by zero gives
    [NaN]; the divisions of the embedded code sit behind guards on their
    divisors), and a score of the calculator can differ by one from the
    machine's where a weighted sum is within rounding error of a half.
    Where the last bits of a quotient decide (the two-decimal average of a
    player's statistics, the thresholds of the trend analysis), a number is
    an IEEE 754 double of module [Binary64], with the operations of the
    machine.

    Strings.  A string is a sequence of ASCII characters.  [toLowerCase]
    and [trim] are embedded for these; what they do to other characters
    (other capitals, other white space) is not, and the statements that
    depend on it are about strings that are [ascii_only].

    The store.  Firestore is an external collaborator.  The time stamps
    [createdAt] and [updatedAt] that it puts on a document at every create
    and update are not among the fields of the embedded documents.

    Time and chance.  What the code reads from the wall clock ([new Date()],
    [Date.now()]) and from [Math.random()] is passed in as the arguments
    [now] and [random].

    Errors.  A thrown error is its message; asynchronous functions are
    functions from the state of the store to a result and a new state. *)

From Stdlib Require Import QArith Qround Qminmax ZArith Lia Ascii Lqa Floats.
From stdpp Require Import gmap strings list pretty infinite sorting.

Local Open Scope Q_scope.

(** ** JavaScript numbers *)

Module Js.

Definition number := option Q.

Definition NaN : number := None.
Definition num (q : Q) : number := Some q.
Definition int (z : Z) : number := Some (inject_Z z).

Definition lift2 (f : Q -> Q -> Q) (a b : number) : number :=
  match a, b with
  | Some x, Some y => Some (f x y)
  | _, _ => None
  end.

Definition add : number -> number -> number := lift2 Qplus.
Definition sub : number -> number -> number := lift2 Qminus.
Definition mul : number -> number -> number := lift2 Qmult.

Definition div (a b : number) : number :=
  match a, b with
  | Some x, Some y => if Qeq_bool y 0 then None else Some (x / y)
  | _, _ => None
  end.

(** [Math.min], [Math.max]: [NaN] as soon as one argument is. *)
Definition Math_min : number -> number -> number := lift2 Qmin.
Definition Math_max : number -> number -> number := lift2 Qmax.

(** [Math.round]: half-way cases go up.  ([Math.floor] is [Qfloor].) *)
Definition Math_round (a : number) : number :=
  match a with
  | Some x => Some (inject_Z (Qfloor (x + (1 # 2))))
  | None => None
  end.

(** Comparisons: every comparison with [NaN] is false. *)
Definition cmp (f : Q -> Q -> bool) (a b : number) : bool :=
  match a, b with
  | Some x, Some y => f x y
  | _, _ => false
  end.

Definition Qlt_bool (x y : Q) : bool := negb (Qle_bool y x).

Definition lt : number -> number -> bool := cmp Qlt_bool.
Definition le : number -> number -> bool := cmp Qle_bool.
Definition gt (a b : number) : bool := lt b a.
Definition ge (a b : number) : bool := le b a.
(** [===] on numbers. *)
Definition strict_eq : number -> number -> bool := cmp Qeq_bool.

(** [x || 0] on a number: [NaN], [undefined] and [0] all give [0]. *)
Definition or_zero (a : number) : number :=
  match a with
  | Some x => Some x
  | None => Some 0
  end.

(** [isNaN]. *)
Definition isNaN (a : number) : bool :=
  match a with Some _ => false | None => true end.

(** [String.prototype.toLowerCase] on an ASCII string: the letters A-Z go to
    a-z and nothing else changes.  (On other strings the function of the
    language also maps capitals outside ASCII.) *)
Definition lower_ascii (c : ascii) : ascii :=
  let n := nat_of_ascii c in
  if (Nat.leb 65 n && Nat.leb n 90)%bool then ascii_of_nat (n + 32) else c.

Fixpoint toLowerCase (s : string) : string :=
  match s with
  | EmptyString => EmptyString
  | String c s' => String (lower_ascii c) (toLowerCase s')
  end.

(** [String.prototype.trim] on an ASCII string: the white space and line
    terminators of ASCII are tab, line feed, vertical tab, form feed,
    carriage return and space.  (On other strings the function of the
    language also strips the white space outside ASCII, such as U+00A0.) *)
Definition is_space (c : ascii) : bool :=
  let n := nat_of_ascii c in
  ((Nat.leb 9 n && Nat.leb n 13) || Nat.eqb n 32)%bool.

Fixpoint trim_start (s : string) : string :=
  match s with
  | String c s' => if is_space c then trim_start s' else s
  | EmptyString => EmptyString
  end.

Fixpoint trim_end (s : string) : string :=
  match s with
  | EmptyString => EmptyString
  | String c s' =>
      match trim_end s' with
      | EmptyString => if is_space c then EmptyString else String c EmptyString
      | t => String c t
      end
  end.

Definition trim (s : string) : string := trim_end (trim_start s).

(** [Array.prototype.join]. *)
Fixpoint join (sep : string) (l : list string) : string :=
  match l with
  | [] => EmptyString
  | [x] => x
  | x :: l' => x +:+ sep +:+ join sep l'
  end.

(** [Array.prototype.sort] with a comparator: the sort is stable, and [a]
    comes before [b] when [cmp a b] is negative. *)
Section Sort.
Context {A : Type} (compare : A -> A -> Z).

Fixpoint sort_insert (x : A) (l : list A) : list A :=
  match l with
  | [] => [x]
  | y :: l' =>
      if (compare x y <=? 0)%Z then x :: y :: l' else y :: sort_insert x l'
  end.

Fixpoint sort (l : list A) : list A :=
  match l with
  | [] => []
  | x :: l' => sort_insert x (sort l')
  end.
End Sort.

(** [Array.prototype.slice(start, end)] with possibly negative indices. *)
Definition slice_index (len : nat) (i : Z) : nat :=
  if (i <? 0)%Z then Z.to_nat (Z.max 0 (Z.of_nat len + i))
  else Nat.min len (Z.to_nat i).

Definition slice {A} (l : list A) (start : Z) (stop : option Z) : list A :=
  let len := length l in
  let s := slice_index len start in
  let e := match stop with Some e => slice_index len e | None => len end in
  take (e - s) (drop s l).

End Js.

(** ** Thrown errors *)

Inductive result (A : Type) : Type :=
| Ok (a : A)
| Throw (message : string).
Arguments Ok {A} a.
Arguments Throw {A} message.

(** A parameter bag: the object of named numeric fields a match carries.
    Reading a field the object does not have gives [undefined], which
    arithmetic and comparisons treat as [NaN]. *)
Abbreviation SportParameters := (gmap string Q).

(** ** performanceCalculator.js *)

Module PerformanceCalculator.
Import Js.

Definition calculateCricketScore (params : SportParameters) : number :=
  let runsScored : number := params !! "runsScored"%string in
  let ballsFaced : number := params !! "ballsFaced"%string in
  let wicketsTaken : number := params !! "wicketsTaken"%string in
  let catches : number := params !! "catches"%string in
  let oversBowled : number := params !! "oversBowled"%string in
  (* Batting score calculation (strike rate based) *)
  let battingScore :=
    if gt ballsFaced (int 0) then
      let strikeRate := mul (div runsScored ballsFaced) (int 100) in
      Math_min (int 100) strikeRate
    else if gt runsScored (int 0) then
      Math_min (int 100) (mul runsScored (int 10))
    else int 0 in
  (* Bowling score calculation (wickets per over) *)
  let bowlingScore :=
    if gt oversBowled (int 0) then
      let wicketsPerOver := div wicketsTaken oversBowled in
      Math_min (int 100) (mul wicketsPerOver (int 100))
    else if gt wicketsTaken (int 0) then
      Math_min (int 100) (mul wicketsTaken (int 25))
    else int 0 in
  (* Fielding score calculation *)
  let fieldingScore := Math_min (int 100) (mul catches (int 20)) in
  (* Weighted combination: Batting 50%, Bowling 30%, Fielding 20% *)
  let totalScore :=
    add (add (mul battingScore (num (5 # 10))) (mul bowlingScore (num (3 # 10))))
        (mul fieldingScore (num (2 # 10))) in
  Math_round (Math_min (int 100) (Math_max (int 0) totalScore)).

Definition calculateFootballScore (params : SportParameters) : number :=
  let goalsScored : number := params !! "goalsScored"%string in
  let assists : number := params !! "assists"%string in
  let passesCompleted : number := params !! "passesCompleted"%string in
  let tacklesMade : number := params !! "tacklesMade"%string in
  let minutesPlayed : number := params !! "minutesPlayed"%string in
  (* Prevent division by zero *)
  let safeMinutesPlayed := Math_max minutesPlayed (int 1) in
  let goalScore := mul (mul (div goalsScored safeMinutesPlayed) (int 90)) (int 20) in
  let assistScore := mul (mul (div assists safeMinutesPlayed) (int 90)) (int 15) in
  let passAccuracy :=
    Math_min (int 30) (mul (div passesCompleted safeMinutesPlayed) (int 30)) in
  let defenseScore :=
    Math_min (int 20)
      (mul (mul (div tacklesMade safeMinutesPlayed) (int 90)) (num (22 # 100))) in
  let totalScore := add (add (add goalScore assistScore) passAccuracy) defenseScore in
  Math_round (Math_min (int 100) (Math_max (int 0) totalScore)).

Definition calculateBasketballScore (params : SportParameters) : number :=
  let pointsScored : number := params !! "pointsScored"%string in
  let rebounds : number := params !! "rebounds"%string in
  let assists : number := params !! "assists"%string in
  let steals : number := params !! "steals"%string in
  let minutesPlayed : number := params !! "minutesPlayed"%string in
  (* Prevent division by zero *)
  let safeMinutesPlayed := Math_max minutesPlayed (int 1) in
  let pointsPerMinute := mul (div pointsScored safeMinutesPlayed) (int 48) in
  let pointScore := Math_min (int 40) (mul pointsPerMinute (num (83 # 100))) in
  let reboundScore :=
    Math_min (int 25) (mul (mul (div rebounds safeMinutesPlayed) (int 48)) (num (25 # 10))) in
  let assistScore :=
    Math_min (int 25) (mul (mul (div assists safeMinutesPlayed) (int 48)) (num (3125 # 1000))) in
  let stealScore :=
    Math_min (int 10) (mul (mul (div steals safeMinutesPlayed) (int 48)) (int 5)) in
  let totalScore := add (add (add pointScore reboundScore) assistScore) stealScore in
  Math_round (Math_min (int 100) (Math_max (int 0) totalScore)).

(** [sport] and [parameters] are [None] when the caller passes [null] or
    [undefined]; the empty string is falsy as well. *)
Definition calculatePerformanceScore
    (sport : option string) (parameters : option SportParameters) : result number :=
  match sport, parameters with
  | Some sport, Some parameters =>
      if String.eqb sport "" then Throw "Sport and parameters are required"
      else
        let tag := toLowerCase sport in
        if String.eqb tag "cricket" then Ok (calculateCricketScore parameters)
        else if String.eqb tag "football" then Ok (calculateFootballScore parameters)
        else if String.eqb tag "basketball" then Ok (calculateBasketballScore parameters)
        else Throw ("Unsupported sport: " +:+ sport)
  | _, _ => Throw "Sport and parameters are required"
  end.

End PerformanceCalculator.

(** ** utils/validators.js *)

(** The values that end up inside an [errors] object. *)
Inductive jsvalue : Type :=
| VUndefined
| VString (s : string)
| VNumber (q : Q)
| VObject (fields : list (string * string)).

(** The result of a validator: [isValid] is the truthiness of the
    property the callers test, [errors] the property they copy. *)
Record Validation : Type := mkValidation {
  isValid : bool;
  errors : jsvalue
}.

(** A date as a caller hands it over, after [new Date(...)]: a point in
    time in milliseconds, or an invalid date. *)
Inductive JsDate : Type :=
| DateAt (millis : Z)
| InvalidDate.

(** The object handed to [submitMatchData] and [validateMatchData].  A field
    is [None] when it is missing, [null] or [undefined]; [date] is also
    [None] for the other falsy values. *)
Record MatchInput : Type := mkMatchInput {
  playerId : option string;
  coachId : option string;
  sport : option string;
  parameters : option SportParameters;
  date : option JsDate;
  calculatedScore : option Js.number
}.

Module Validators.
Import Js.

Definition validateRequired (value : option string) : bool :=
  match value with
  | Some s => negb (String.eqb (trim s) "")
  | None => false
  end.

(** [parseFloat] of a number is that number; [NaN] fails the test. *)
Definition validateNumeric (value : number) (min max : Q) : bool :=
  (negb (isNaN value) && ge value (num min) && le value (num max))%bool.

(** [if (!validateNumeric(params[field], min, max)) errors[field] = message] *)
Definition check_field (params : SportParameters) (field : string) (min max : Q)
    (message : string) : list (string * string) :=
  if negb (validateNumeric (params !! field) min max) then [(field, message)] else [].

(** [{ isValid: Object.keys(errors).length === 0, errors }] *)
Definition validation_of (errs : list (string * string)) : Validation :=
  {| isValid := Nat.eqb (length errs) 0; errors := VObject errs |}.

Definition validateCricketParams (params : SportParameters) : Validation :=
  validation_of
    (check_field params "runsScored" 0 500 "Runs scored must be between 0 and 500"
     ++ check_field params "ballsFaced" 0 600 "Balls faced must be between 0 and 600"
     ++ check_field params "wicketsTaken" 0 10 "Wickets taken must be between 0 and 10"
     ++ check_field params "catches" 0 20 "Catches must be between 0 and 20"
     ++ check_field params "oversBowled" 0 50 "Overs bowled must be between 0 and 50").

Definition validateFootballParams (params : SportParameters) : Validation :=
  validation_of
    (check_field params "goalsScored" 0 20 "Goals scored must be between 0 and 20"
     ++ check_field params "assists" 0 20 "Assists must be between 0 and 20"
     ++ check_field params "passesCompleted" 0 200
          "Passes completed must be between 0 and 200"
     ++ check_field params "tacklesMade" 0 50 "Tackles made must be between 0 and 50"
     ++ check_field params "minutesPlayed" 0 120
          "Minutes played must be between 0 and 120").

Definition validateBasketballParams (params : SportParameters) : Validation :=
  validation_of
    (check_field params "pointsScored" 0 100 "Points scored must be between 0 and 100"
     ++ check_field params "rebounds" 0 50 "Rebounds must be between 0 and 50"
     ++ check_field params "assists" 0 30 "Assists must be between 0 and 30"
     ++ check_field params "steals" 0 20 "Steals must be between 0 and 20"
     ++ check_field params "minutesPlayed" 0 48
          "Minutes played must be between 0 and 48").

(** [validators[sport]] is a property read on an object literal, so besides
    the three own keys it also finds what the literal inherits from
    [Object.prototype].  The inherited members are truthy, so they pass the
    [if (!validator)] test, and [validator(parameters)] then calls them as a
    plain function (with [this] undefined, the file being a module). *)
Inductive inherited_member : Type :=
| NotCallable     (* [__proto__]: the prototype object, calling it is a TypeError *)
| NeedsThis       (* converts [this] to an object first: a TypeError *)
| ChecksThis      (* [toLocaleString]: refuses a [this] that is undefined *)
| ReturnsString   (* [toString]: gives "[object Undefined]" *)
| ReturnsArgument (* [constructor]: [Object(parameters)] is [parameters] *).

Definition Object_prototype : list (string * inherited_member) :=
  [ ("__proto__"%string, NotCallable);
    ("hasOwnProperty"%string, NeedsThis);
    ("isPrototypeOf"%string, NeedsThis);
    ("propertyIsEnumerable"%string, NeedsThis);
    ("valueOf"%string, NeedsThis);
    ("toLocaleString"%string, ChecksThis);
    ("__defineGetter__"%string, NeedsThis);
    ("__defineSetter__"%string, NeedsThis);
    ("__lookupGetter__"%string, NeedsThis);
    ("__lookupSetter__"%string, NeedsThis);
    ("toString"%string, ReturnsString);
    ("constructor"%string, ReturnsArgument) ].

Fixpoint assoc {A} (key : string) (l : list (string * A)) : option A :=
  match l with
  | [] => None
  | (k, v) :: l' => if String.eqb key k then Some v else assoc key l'
  end.

(** Truthiness of a property that is a number or missing. *)
Definition truthy (a : number) : bool :=
  match a with
  | Some q => negb (Qeq_bool q 0)
  | None => false
  end.

Definition property_value (a : number) : jsvalue :=
  match a with
  | Some q => VNumber q
  | None => VUndefined
  end.

(** [validator(parameters)] for an inherited member.  The messages of the
    TypeErrors are those of V8, after the name of the error. *)
Definition call_inherited (m : inherited_member) (parameters : SportParameters)
    : result Validation :=
  match m with
  | NotCallable => Throw "TypeError: validator is not a function"
  | NeedsThis => Throw "TypeError: Cannot convert undefined or null to object"
  | ChecksThis =>
      Throw "TypeError: Object.prototype.toLocaleString called on null or undefined"
  | ReturnsString => Ok {| isValid := false; errors := VUndefined |}
  | ReturnsArgument =>
      Ok {| isValid := truthy (parameters !! "isValid"%string);
            errors := property_value (parameters !! "errors"%string) |}
  end.

Definition validateSportParameters (sport : option string) (parameters : SportParameters)
    : result Validation :=
  let invalid :=
    Ok {| isValid := false; errors := VObject [("sport"%string, "Invalid sport type"%string)] |} in
  match sport with
  | None => invalid
  | Some sport =>
      if String.eqb sport "cricket" then Ok (validateCricketParams parameters)
      else if String.eqb sport "football" then Ok (validateFootballParams parameters)
      else if String.eqb sport "basketball" then Ok (validateBasketballParams parameters)
      else match assoc sport Object_prototype with
           | Some m => call_inherited m parameters
           | None => invalid
           end
  end.

Definition supported_sports : list string :=
  ["cricket"%string; "football"%string; "basketball"%string].

Definition includes (l : list string) (s : string) : bool :=
  existsb (String.eqb s) l.

(** The [errors] object of [validateMatchData], key by key in the order the
    function assigns them; [now] is what [new Date()] reads. *)
Definition playerId_errors (m : MatchInput) : list (string * jsvalue) :=
  if negb (validateRequired (playerId m))
  then [("playerId"%string, VString "Player ID is required")] else [].

Definition coachId_errors (m : MatchInput) : list (string * jsvalue) :=
  if negb (validateRequired (coachId m))
  then [("coachId"%string, VString "Coach ID is required")] else [].

Definition sport_errors (m : MatchInput) : list (string * jsvalue) :=
  match sport m with
  | Some s =>
      if negb (validateRequired (Some s))
      then [("sport"%string, VString "Sport is required")]
      else if negb (includes supported_sports s)
      then [("sport"%string, VString "Invalid sport type")] else []
  | None => [("sport"%string, VString "Sport is required")]
  end.

Definition parameters_errors (m : MatchInput) : result (list (string * jsvalue)) :=
  match parameters m with
  | None => Ok [("parameters"%string, VString "Parameters are required")]
  | Some ps =>
      match validateSportParameters (sport m) ps with
      | Throw e => Throw e
      | Ok paramValidation =>
          if negb (isValid paramValidation)
          then Ok [("parameters"%string, errors paramValidation)] else Ok []
      end
  end.

Definition date_errors (now : Z) (m : MatchInput) : list (string * jsvalue) :=
  match date m with
  | None => [("date"%string, VString "Match date is required")]
  | Some InvalidDate => [("date"%string, VString "Invalid date format")]
  | Some (DateAt matchDate) =>
      if (now <? matchDate)%Z
      then [("date"%string, VString "Match date cannot be in the future")] else []
  end.

Definition calculatedScore_errors (m : MatchInput) : list (string * jsvalue) :=
  match calculatedScore m with
  | None => []
  | Some score =>
      if negb (validateNumeric score 0 100)
      then [("calculatedScore"%string,
             VString "Calculated score must be between 0 and 100")] else []
  end.

(** What [validateMatchData] returns: [errors] keeps its keys apart here,
    since the callers enumerate them ([Object.keys], [Object.values]). *)
Record MatchValidation : Type := mkMatchValidation {
  mv_isValid : bool;
  mv_errors : list (string * jsvalue)
}.

Definition validateMatchData (now : Z) (matchData : MatchInput)
    : result MatchValidation :=
  match parameters_errors matchData with
  | Throw e => Throw e
  | Ok perrs =>
      let errs :=
        playerId_errors matchData ++ coachId_errors matchData
        ++ sport_errors matchData ++ perrs
        ++ date_errors now matchData ++ calculatedScore_errors matchData in
      Ok {| mv_isValid := Nat.eqb (length errs) 0; mv_errors := errs |}
  end.

End Validators.

(** ** models/matchData.js

    The [createdAt] / [updatedAt] / [generatedAt] stamps that the
    constructors take from the wall clock are left out of the records. *)

Record RestRecommendation : Type := createRestRecommendation {
  hours : Z;
  description : string
}.

Record Suggestion : Type := createSuggestion {
  type : string;
  message : string;
  priority : string
}.

(** ** suggestionEngine.js *)

Module SuggestionEngine.
Import Js.

(** [random] is what [Math.random()] returns, a number in [0, 1). *)
Definition generateRestRecommendation (random : Q) (score : number)
    : RestRecommendation :=
  if lt score (int 60) then
    (* Below 60% - Extended rest period *)
    let hours := (Qfloor (random * 24) + 48)%Z in
    createRestRecommendation hours
      ("Your performance indicates fatigue. Take " +:+ pretty hours +:+
       " hours of complete rest to recover properly. Focus on sleep, hydration, and light stretching.")
  else if (ge score (int 60) && lt score (int 80))%bool then
    (* 60-80% - Moderate rest period *)
    let hours := (Qfloor (random * 24) + 24)%Z in
    createRestRecommendation hours
      ("Good performance but room for improvement. Take " +:+ pretty hours +:+
       " hours of moderate rest. Light activities like walking or yoga are beneficial.")
  else
    (* Above 80% - Light rest period *)
    let hours := (Qfloor (random * 12) + 12)%Z in
    createRestRecommendation hours
      ("Excellent performance! Take " +:+ pretty hours +:+
       " hours of light rest. You can engage in light training or active recovery activities.").

Definition generateCricketSuggestions (parameters : SportParameters) (score : number)
    : list Suggestion :=
  let runsScored : number := parameters !! "runsScored"%string in
  let ballsFaced : number := parameters !! "ballsFaced"%string in
  let wicketsTaken : number := parameters !! "wicketsTaken"%string in
  let catches : number := parameters !! "catches"%string in
  let oversBowled : number := parameters !! "oversBowled"%string in
  (* Batting suggestions *)
  (if gt ballsFaced (int 0) then
     let strikeRate := mul (div runsScored ballsFaced) (int 100) in
     if lt strikeRate (int 80) then
       [createSuggestion "technique"
          "Work on batting technique and shot selection. Practice in the nets to improve strike rate."
          "high"]
     else if gt strikeRate (int 150) then
       [createSuggestion "technique"
          "Excellent strike rate! Focus on maintaining consistency and playing according to match situation."
          "low"]
     else []
   else [])
  ++
  (* Bowling suggestions *)
  (if gt oversBowled (int 0) then
     let wicketsPerOver := div wicketsTaken oversBowled in
     if lt wicketsPerOver (num (2 # 10)) then
       [createSuggestion "technique"
          "Focus on bowling accuracy and variation. Practice different deliveries and work on line and length."
          "high"]
     else if gt wicketsPerOver (num (5 # 10)) then
       [createSuggestion "technique"
          "Great bowling performance! Continue working on consistency and developing new variations."
          "low"]
     else []
   else [])
  ++
  (* Fielding suggestions *)
  (if (strict_eq catches (int 0) && lt score (int 70))%bool then
     [createSuggestion "technique"
        "Work on fielding skills. Practice catching drills and improve positioning."
        "medium"]
   else if ge catches (int 2) then
     [createSuggestion "technique"
        "Excellent fielding! Your catching ability is a valuable asset to the team."
        "low"]
   else []).

Definition generateFootballSuggestions (parameters : SportParameters) (score : number)
    : list Suggestion :=
  let goalsScored : number := parameters !! "goalsScored"%string in
  let assists : number := parameters !! "assists"%string in
  let passesCompleted : number := parameters !! "passesCompleted"%string in
  let tacklesMade : number := parameters !! "tacklesMade"%string in
  let minutesPlayed : number := parameters !! "minutesPlayed"%string in
  let safeMinutesPlayed := Math_max minutesPlayed (int 1) in
  (* Attacking suggestions *)
  (if (strict_eq goalsScored (int 0) && lt score (int 70))%bool then
     [createSuggestion "technique"
        "Work on finishing skills. Practice shooting from different angles and distances."
        "high"]
   else if ge goalsScored (int 2) then
     [createSuggestion "technique"
        "Great goal-scoring performance! Continue working on movement in the box."
        "low"]
   else [])
  ++
  (* Passing suggestions *)
  (let passesPerMinute := div passesCompleted safeMinutesPlayed in
   if lt passesPerMinute (num (5 # 10)) then
     [createSuggestion "technique"
        "Improve passing accuracy and frequency. Work on short and long passing drills."
        "medium"]
   else if gt passesPerMinute (num 1) then
     [createSuggestion "technique"
        "Excellent passing game! Focus on creating more scoring opportunities."
        "low"]
   else [])
  ++
  (* Defensive suggestions *)
  (let tacklesPerMinute := div tacklesMade safeMinutesPlayed in
   if (lt tacklesPerMinute (num (5 # 100)) && lt score (int 70))%bool then
     [createSuggestion "technique"
        "Work on defensive positioning and tackling technique. Practice 1v1 defending."
        "medium"]
   else if gt tacklesPerMinute (num (1 # 10)) then
     [createSuggestion "technique"
        "Strong defensive performance! Continue working on reading the game."
        "low"]
   else [])
  ++
  (* Assist suggestions *)
  (if (strict_eq assists (int 0) && strict_eq goalsScored (int 0) && lt score (int 60))%bool then
     [createSuggestion "technique"
        "Focus on creating chances for teammates. Work on vision and through balls."
        "high"]
   else []).

Definition generateBasketballSuggestions (parameters : SportParameters) (score : number)
    : list Suggestion :=
  let pointsScored : number := parameters !! "pointsScored"%string in
  let rebounds : number := parameters !! "rebounds"%string in
  let assists : number := parameters !! "assists"%string in
  let steals : number := parameters !! "steals"%string in
  let minutesPlayed : number := parameters !! "minutesPlayed"%string in
  let safeMinutesPlayed := Math_max minutesPlayed (int 1) in
  (* Scoring suggestions *)
  (let pointsPerMinute := div pointsScored safeMinutesPlayed in
   if lt pointsPerMinute (num (5 # 10)) then
     [createSuggestion "technique"
        "Work on shooting technique and shot selection. Practice free throws and mid-range shots."
        "high"]
   else if gt pointsPerMinute (num 1) then
     [createSuggestion "technique"
        "Excellent scoring efficiency! Focus on creating shots for teammates as well."
        "low"]
   else [])
  ++
  (* Rebounding suggestions *)
  (let reboundsPerMinute := div rebounds safeMinutesPlayed in
   if lt reboundsPerMinute (num (2 # 10)) then
     [createSuggestion "technique"
        "Improve rebounding by working on positioning and boxing out. Practice timing jumps."
        "medium"]
   else if gt reboundsPerMinute (num (4 # 10)) then
     [createSuggestion "technique"
        "Great rebounding! Your presence in the paint is valuable to the team."
        "low"]
   else [])
  ++
  (* Playmaking suggestions *)
  (let assistsPerMinute := div assists safeMinutesPlayed in
   if (lt assistsPerMinute (num (1 # 10)) && lt score (int 70))%bool then
     [createSuggestion "technique"
        "Work on court vision and passing skills. Practice different types of passes."
        "medium"]
   else if gt assistsPerMinute (num (25 # 100)) then
     [createSuggestion "technique"
        "Excellent playmaking! Continue developing leadership on the court."
        "low"]
   else [])
  ++
  (* Defensive suggestions *)
  (let stealsPerMinute := div steals safeMinutesPlayed in
   if (lt stealsPerMinute (num (2 # 100)) && lt score (int 70))%bool then
     [createSuggestion "technique"
        "Focus on defensive anticipation and active hands. Work on reading passing lanes."
        "medium"]
   else if gt stealsPerMinute (num (8 # 100)) then
     [createSuggestion "technique"
        "Great defensive instincts! Balance aggression with smart positioning."
        "low"]
   else []).

Definition generateTrainingSuggestions (score : number) (sport : string)
    (parameters : SportParameters) : list Suggestion :=
  (* General performance-based suggestions *)
  [ if ge score (int 90) then
      createSuggestion "general"
        "Outstanding performance! Maintain your current training routine and focus on consistency."
        "low"
    else if ge score (int 80) then
      createSuggestion "general"
        "Very good performance! Fine-tune specific skills to reach the next level."
        "medium"
    else if ge score (int 70) then
      createSuggestion "general"
        "Good performance with room for improvement. Focus on consistent practice."
        "medium"
    else if ge score (int 60) then
      createSuggestion "general"
        "Average performance. Identify weak areas and dedicate extra practice time."
        "high"
    else
      createSuggestion "general"
        "Performance needs improvement. Consider working with a coach on fundamentals."
        "high" ]
  ++
  (* Sport-specific suggestions *)
  (let tag := toLowerCase sport in
   if String.eqb tag "cricket" then generateCricketSuggestions parameters score
   else if String.eqb tag "football" then generateFootballSuggestions parameters score
   else if String.eqb tag "basketball" then generateBasketballSuggestions parameters score
   else []).

(** [array.reduce((sum, score) => sum + score, 0)] *)
Definition sum_scores (scores : list number) : number :=
  fold_left add scores (int 0).

(** The suggestion for the difference the trend analysis classifies (in
    exact arithmetic; [Binary64.trend_suggestion] and
    [Binary64.generateTrendBasedSuggestions] are the same computations on
    doubles). *)
Definition trend_suggestion (difference : number) : Suggestion :=
  if gt difference (int 10) then
    (* Significant improvement *)
    createSuggestion "general"
      "Excellent improvement trend! Your hard work is paying off. Maintain this momentum."
      "low"
  else if gt difference (int 5) then
    (* Moderate improvement *)
    createSuggestion "general"
      "Good improvement trend! Continue your current training approach."
      "low"
  else if lt difference (int (-10)) then
    (* Significant decline *)
    createSuggestion "general"
      "Performance has declined recently. Consider reviewing your training routine and getting adequate rest."
      "high"
  else if lt difference (int (-5)) then
    (* Moderate decline *)
    createSuggestion "general"
      "Slight decline in performance. Focus on fundamentals and ensure proper recovery."
      "medium"
  else
    (* Stable performance *)
    createSuggestion "general"
      "Consistent performance! Consider adding new challenges to break through plateaus."
      "medium".

Definition generateTrendBasedSuggestions (recentScores : list number)
    : list Suggestion :=
  if (length recentScores <? 2)%nat then []
  else
    (* Calculate trend *)
    let recent := slice recentScores (-3) None in
    let older := slice recentScores (-6) (Some (-3)%Z) in
    if Nat.eqb (length older) 0 then []
    else
      let recentAvg := div (sum_scores recent) (int (Z.of_nat (length recent))) in
      let olderAvg := div (sum_scores older) (int (Z.of_nat (length older))) in
      let difference := sub recentAvg olderAvg in
      [trend_suggestion difference].

Record SuggestionPackage : Type := mkSuggestionPackage {
  sp_restRecommendation : RestRecommendation;
  sp_suggestions : list Suggestion;
  sp_score : number;
  sp_sport : string
}.

Definition generateComprehensiveSuggestions (random : Q) (score : number)
    (sport : string) (parameters : SportParameters) (recentScores : list number)
    : SuggestionPackage :=
  let restRecommendation := generateRestRecommendation random score in
  let trainingSuggestions := generateTrainingSuggestions score sport parameters in
  let trendSuggestions := generateTrendBasedSuggestions recentScores in
  {| sp_restRecommendation := restRecommendation;
     sp_suggestions := trainingSuggestions ++ trendSuggestions;
     sp_score := score;
     sp_sport := sport |}.

End SuggestionEngine.

(** ** The document store

    Firestore itself is an external collaborator; it is modelled as three
    collections of typed documents and a log of the operations the service
    issued.  Documents come back from a query in the order of the
    collection's key enumeration. *)

Record UserDoc : Type := mkUserDoc {
  u_name : string;
  u_email : option string
}.

(** The fields [updatePlayerStats] writes, besides the time stamp
    [updatedAt] that the store renews at every update.  A statistic is
    [None] when the document does not have it; a date is in milliseconds,
    [None] for [null]. *)
Record PlayerStats : Type := mkPlayerStats {
  currentScore : Js.number;
  matchCount : Js.number;
  totalScore : Js.number;
  averageScore : Js.number;
  lastMatchDate : option Z
}.

Record PlayerDoc : Type := mkPlayerDoc {
  p_name : string;
  p_coachId : option string;
  p_stats : PlayerStats
}.

(** A stored match.  [m_date] is the [toMillis()] of the stored time stamp,
    [None] when there is none; [m_calculatedScore] is [None] for [null]. *)
Record MatchDoc : Type := mkMatchDoc {
  m_playerId : option string;
  m_playerEmail : option string;
  m_coachId : option string;
  m_sport : option string;
  m_parameters : option SportParameters;
  m_date : option Z;
  m_calculatedScore : option Js.number;
  m_suggestions : list string;
  m_restRecommendation : option RestRecommendation
}.

Inductive StoreOp : Type :=
| OpRead (collection id : string)
| OpQuery (collection : string)
| OpCreate (collection id : string)
| OpUpdate (collection id : string)
| OpDelete (collection id : string).

Record World : Type := mkWorld {
  users : gmap string UserDoc;
  players : gmap string PlayerDoc;
  matches : gmap string MatchDoc;
  oplog : list StoreOp
}.

(** Asynchronous service code: a computation reads and writes the store
    and either returns or throws. *)
Definition M (A : Type) : Type := World -> result A * World.

Definition ret {A} (a : A) : M A := fun w => (Ok a, w).

Definition bind {A B} (c : M A) (f : A -> M B) : M B := fun w =>
  match c w with
  | (Ok a, w') => f a w'
  | (Throw e, w') => (Throw e, w')
  end.

Notation "'let!' x ':=' c 'in' k" := (bind c (fun x => k))
  (at level 10, x name, c at level 100, k at level 200).

Definition throw {A} (message : string) : M A := fun w => (Throw message, w).

Definition lift_result {A} (r : result A) : M A := fun w => (r, w).

Definition record_op (op : StoreOp) : M unit := fun w =>
  (Ok tt, {| users := users w; players := players w; matches := matches w;
             oplog := oplog w ++ [op] |}).

(** ** firestoreService.js, the operations matchService.js uses *)

Module FirestoreService.

Definition read_users (docId : string) : M (option UserDoc) :=
  let! _ := record_op (OpRead "users" docId) in
  fun w => (Ok (users w !! docId), w).

Definition read_players (docId : string) : M (option PlayerDoc) :=
  let! _ := record_op (OpRead "players" docId) in
  fun w => (Ok (players w !! docId), w).

Definition read_matches (docId : string) : M (option MatchDoc) :=
  let! _ := record_op (OpRead "matches" docId) in
  fun w => (Ok (matches w !! docId), w).

Definition getUserProfile (userId : string) : M (option UserDoc) :=
  read_users userId.

(** [addDoc]: the store picks an identifier that is not in use. *)
Definition create_matches (data : MatchDoc) : M string := fun w =>
  let docId := fresh (dom (matches w)) in
  (Ok docId,
   {| users := users w; players := players w;
      matches := <[docId := data]> (matches w);
      oplog := oplog w ++ [OpCreate "matches" docId] |}).

(** [deleteDoc] succeeds whether or not the document exists. *)
Definition delete_matches (docId : string) : M unit := fun w =>
  (Ok tt,
   {| users := users w; players := players w;
      matches := delete docId (matches w);
      oplog := oplog w ++ [OpDelete "matches" docId] |}).

(** [updateDoc] replaces the given fields of an existing document and fails
    with code [not-found] otherwise; [handleFirestoreError] turns that code
    into the message below.  [update] also sets [updatedAt] to the time of
    the server, a field the embedded documents do not have. *)
Definition updatePlayerStats (playerId : string) (stats : PlayerStats) : M unit :=
  let! _ := record_op (OpUpdate "players" playerId) in
  fun w =>
    match players w !! playerId with
    | Some p =>
        (Ok tt,
         {| users := users w;
            players := <[playerId := {| p_name := p_name p; p_coachId := p_coachId p;
                                        p_stats := stats |}]> (players w);
            matches := matches w; oplog := oplog w |})
    | None => (Throw "The requested data was not found.", w)
    end.

(** The filters matchService.js puts on the [matches] collection. *)
Inductive Filter : Type :=
| ByPlayerEmail (value : string)
| ByPlayerId (value : string)
| BySport (value : string).

Definition matches_filter (f : Filter) (d : MatchDoc) : bool :=
  match f with
  | ByPlayerEmail v => bool_decide (m_playerEmail d = Some v)
  | ByPlayerId v => bool_decide (m_playerId d = Some v)
  | BySport v => bool_decide (m_sport d = Some v)
  end.

Definition query_matches (filters : list Filter) : M (list (string * MatchDoc)) :=
  let! _ := record_op (OpQuery "matches") in
  fun w =>
    (Ok (filter (fun kd => forallb (fun f => matches_filter f kd.2) filters)
           (map_to_list (matches w))), w).

End FirestoreService.

(** ** services/matchService.js *)

Module MatchService.
Import Js.

(** [createMatchData], for the fields the store keeps.  A missing [date]
    defaults to the current time; an invalid one has no [toMillis()]. *)
Definition createMatchData (now : Z) (matchData : MatchInput)
    (calculatedScore : option number) (suggestions : list string)
    (restRecommendation : option RestRecommendation) : MatchDoc :=
  {| m_playerId := playerId matchData;
     m_playerEmail := None;
     m_coachId := coachId matchData;
     m_sport := sport matchData;
     m_parameters := parameters matchData;
     m_date := match date matchData with
               | None => Some now
               | Some (DateAt t) => Some t
               | Some InvalidDate => None
               end;
     m_calculatedScore := calculatedScore;
     m_suggestions := suggestions;
     m_restRecommendation := restRecommendation |}.

(** [a.date?.toMillis?.() || 0] *)
Definition time_of (m : string * MatchDoc) : Z := default 0%Z (m_date m.2).

(** [(a, b) => bTime - aTime]: newest first. *)
Definition by_date_desc (a b : string * MatchDoc) : Z := (time_of b - time_of a)%Z.

(** [!userProfile || !userProfile.email] *)
Definition profile_email (userProfile : option UserDoc) : option string :=
  match userProfile with
  | Some u =>
      match u_email u with
      | Some e => if String.eqb e "" then None else Some e
      | None => None
      end
  | None => None
  end.

Definition getPlayerRecentMatches (playerId : string) (limit : nat)
    : M (list (string * MatchDoc)) :=
  (* Get player's email from their user profile *)
  let! userProfile := FirestoreService.getUserProfile playerId in
  match profile_email userProfile with
  | None => ret []
  | Some playerEmail =>
      (* Query matches using email (more reliable than ID) *)
      let! byEmail :=
        FirestoreService.query_matches [FirestoreService.ByPlayerEmail playerEmail] in
      (* Fallback: also try with playerId for older matches *)
      let! matches :=
        if Nat.eqb (length byEmail) 0
        then FirestoreService.query_matches [FirestoreService.ByPlayerId playerId]
        else ret byEmail in
      (* Sort by date in memory (newest first) and apply limit *)
      ret (take limit (sort by_date_desc matches))
  end.

Definition getPlayerMatches (playerId : string) (sport : option string)
    : M (list (string * MatchDoc)) :=
  let sportFilter :=
    match sport with
    | Some s => if String.eqb s "" then [] else [FirestoreService.BySport s]
    | None => []
    end in
  let! userProfile := FirestoreService.getUserProfile playerId in
  match profile_email userProfile with
  | None => ret []
  | Some playerEmail =>
      let! byEmail :=
        FirestoreService.query_matches
          (FirestoreService.ByPlayerEmail playerEmail :: sportFilter) in
      let! matches :=
        if Nat.eqb (length byEmail) 0
        then FirestoreService.query_matches
               (FirestoreService.ByPlayerId playerId :: sportFilter)
        else ret byEmail in
      (* Sort by date in memory (newest first) *)
      ret (sort by_date_desc matches)
  end.

Definition getMatchById (matchId : string) : M (option MatchDoc) :=
  FirestoreService.read_matches matchId.

(** The statistics [updatePlayerStatistics] computes from the player's
    document and the new score; [now] is what [new Date()] reads.  The
    arithmetic is exact here: [Binary64.updatedStatistics] is the same
    computation on doubles, for what depends on the rounding. *)
Definition updatedStatistics (now : Z) (player : PlayerDoc) (newScore : number)
    : PlayerStats :=
  let currentMatchCount := or_zero (matchCount (p_stats player)) in
  let currentTotalScore := or_zero (totalScore (p_stats player)) in
  let newMatchCount := add currentMatchCount (int 1) in
  let newTotalScore := add currentTotalScore newScore in
  let newAverageScore := div newTotalScore newMatchCount in
  {| currentScore := newScore;
     matchCount := newMatchCount;
     totalScore := newTotalScore;
     averageScore := div (Math_round (mul newAverageScore (int 100))) (int 100);
     lastMatchDate := Some now |}.

Definition updatePlayerStatistics (now : Z) (playerId : string) (newScore : number)
    : M unit :=
  (* Get current player stats *)
  let! player := FirestoreService.read_players playerId in
  match player with
  | None => throw "Player not found"
  | Some player =>
      FirestoreService.updatePlayerStats playerId (updatedStatistics now player newScore)
  end.

(** [matches.map(m => m.calculatedScore).filter(score => score !== null)] *)
Definition valid_scores (matches : list (string * MatchDoc)) : list number :=
  omap (fun m => m_calculatedScore m.2) matches.

(** [lastMatch.calculatedScore || 0] *)
Definition score_or_zero (s : option number) : number :=
  match s with
  | Some n => or_zero n
  | None => int 0
  end.

(** The statistics [recalculatePlayerStatistics] computes from the player's
    matches, newest first (in exact arithmetic;
    [Binary64.recalculatedStatistics] is the same computation on
    doubles). *)
Definition recalculatedStatistics (matches : list (string * MatchDoc)) : PlayerStats :=
  match matches with
  | [] =>
      (* No matches, reset stats *)
      {| currentScore := int 0; matchCount := int 0; totalScore := int 0;
         averageScore := int 0; lastMatchDate := None |}
  | lastMatch :: _ =>
      (* Calculate statistics from all matches *)
      let validScores := valid_scores matches in
      let totalScore := SuggestionEngine.sum_scores validScores in
      let averageScore :=
        if (0 <? length validScores)%nat
        then div totalScore (int (Z.of_nat (length validScores)))
        else int 0 in
      {| currentScore := score_or_zero (m_calculatedScore lastMatch.2);
         matchCount := int (Z.of_nat (length matches));
         totalScore := totalScore;
         averageScore := div (Math_round (mul averageScore (int 100))) (int 100);
         lastMatchDate := m_date lastMatch.2 |}
  end.

Definition recalculatePlayerStatistics (playerId : string) : M unit :=
  (* Get all matches for the player *)
  let! matches := getPlayerMatches playerId None in
  FirestoreService.updatePlayerStats playerId (recalculatedStatistics matches).

(** A document reference cannot be built from a missing identifier. *)
Definition require_id (id : option string) : M string :=
  match id with
  | Some s => ret s
  | None => throw "Invalid document reference"
  end.

Definition deleteMatch (matchId : string) : M unit :=
  (* Get match data before deletion *)
  let! match_ := getMatchById matchId in
  match match_ with
  | None => throw "Match not found"
  | Some match_ =>
      (* Delete the match *)
      let! _ := FirestoreService.delete_matches matchId in
      (* Recalculate player statistics *)
      let! playerId := require_id (m_playerId match_) in
      recalculatePlayerStatistics playerId
  end.

(** How [Array.prototype.join] prints one value of an [errors] object.
    A number that is not an integer is printed as a fraction, which is not
    what JavaScript prints; no statement below depends on it. *)
Definition String_of (v : jsvalue) : string :=
  match v with
  | VUndefined => ""
  | VString s => s
  | VNumber q =>
      let r := Qred q in
      if Pos.eqb (Qden r) 1 then pretty (Qnum r)
      else pretty (Qnum r) +:+ "/" +:+ pretty (Zpos (Qden r))
  | VObject _ => "[object Object]"
  end.

(** [Object.values(v.errors).join(', ')] for what a validator returned. *)
Definition error_values (v : jsvalue) : list string :=
  match v with
  | VObject fields => map snd fields
  | _ => []
  end.

(** What [submitMatchData] returns.  [sm_id] is the [id] of the returned
    object, [None] for [null]; [sm_match] stands for the other fields of
    [completeMatchData]. *)
Record SubmittedMatch : Type := mkSubmittedMatch {
  sm_id : option string;
  sm_match : MatchDoc;
  sm_suggestionPackage : SuggestionEngine.SuggestionPackage
}.

(** [now] is the wall clock, [random] the draw of [Math.random()]. *)
Definition submitMatchData (now : Z) (random : Q) (matchData : MatchInput)
    : M SubmittedMatch :=
  (* Validate match data structure *)
  let! matchValidation := lift_result (Validators.validateMatchData now matchData) in
  if negb (Validators.mv_isValid matchValidation) then
    throw ("Invalid match data: " +:+
           join ", " (map (fun kv => String_of kv.2) (Validators.mv_errors matchValidation)))
  else
  (* Validate sport-specific parameters *)
  let! parameters_ :=
    match parameters matchData with
    | Some ps => ret ps
    | None => throw "TypeError: Cannot read properties of undefined"
    end in
  let! paramValidation :=
    lift_result (Validators.validateSportParameters (sport matchData) parameters_) in
  if negb (isValid paramValidation) then
    throw ("Invalid sport parameters: " +:+
           join ", " (error_values (errors paramValidation)))
  else
  (* Calculate performance score *)
  let! calculatedScore :=
    lift_result (PerformanceCalculator.calculatePerformanceScore
                   (sport matchData) (parameters matchData)) in
  (* Get recent scores for trend analysis *)
  let! playerId_ := require_id (playerId matchData) in
  let! recentMatches := getPlayerRecentMatches playerId_ 10 in
  let recentScores := valid_scores recentMatches in
  (* Generate comprehensive suggestions *)
  let! sport_ :=
    match sport matchData with
    | Some s => ret s
    | None => throw "TypeError: Cannot read properties of undefined"
    end in
  let suggestionPackage :=
    SuggestionEngine.generateComprehensiveSuggestions
      random calculatedScore sport_ parameters_ recentScores in
  (* Create complete match data object *)
  let completeMatchData :=
    createMatchData now matchData (Some calculatedScore)
      (map message (SuggestionEngine.sp_suggestions suggestionPackage))
      (Some (SuggestionEngine.sp_restRecommendation suggestionPackage)) in
  (* Save match data to Firestore *)
  let! matchId := FirestoreService.create_matches completeMatchData in
  (* Update player statistics *)
  let! _ := updatePlayerStatistics now playerId_ calculatedScore in
  (* Return complete match data with ID:
     [{ id: matchId, ...completeMatchData, suggestionPackage }], where the
     spread comes after [id: matchId] and [completeMatchData] carries the
     [id: null] that [createMatchData] gave it *)
  ret {| sm_id := None; sm_match := completeMatchData;
         sm_suggestionPackage := suggestionPackage |}.

End MatchService.

(** ** services/realtimeService.js

    The service keeps a [Map] from subscription identifiers to the
    unsubscribe functions of the store watches it set up.  A watch is a
    handle in the set of watches the store currently serves; the
    unsubscribe function of a watch takes its handle out of that set; it
    does not throw, and calling it again changes nothing. *)

Module RealtimeService.

Record State : Type := mkState {
  subscriptions : gmap string (list nat);
  watches : gset nat;
  next_watch : nat
}.

(** [new RealtimeService()] *)
Definition constructor : State :=
  {| subscriptions := ∅; watches := ∅; next_watch := 0 |}.

(** [onSnapshot]: the store starts a watch and returns its unsubscribe
    function. *)
Definition onSnapshot (st : State) : nat * State :=
  (next_watch st,
   {| subscriptions := subscriptions st;
      watches := {[next_watch st]} ∪ watches st;
      next_watch := S (next_watch st) |}).

(** Calling the unsubscribe function of watch [h]. *)
Definition unsubscribeFn (st : State) (h : nat) : State :=
  {| subscriptions := subscriptions st;
     watches := watches st ∖ {[h]};
     next_watch := next_watch st |}.

(** [this.subscriptions.set(subscriptionId, fns)] *)
Definition set_subscription (subscriptionId : string) (fns : list nat) (st : State)
    : State :=
  {| subscriptions := <[subscriptionId := fns]> (subscriptions st);
     watches := watches st;
     next_watch := next_watch st |}.

(** [now] is what [Date.now()] reads. *)
Definition subscribeToPlayerUpdates (now : Z) (playerId : string) (st : State)
    : string * State :=
  let subscriptionId := ("player-" +:+ playerId +:+ "-" +:+ pretty now)%string in
  let '(matchesUnsubscribe, st1) := onSnapshot st in
  let '(playerUnsubscribe, st2) := onSnapshot st1 in
  (subscriptionId,
   set_subscription subscriptionId [matchesUnsubscribe; playerUnsubscribe] st2).

Definition subscribeToCoachUpdates (now : Z) (coachId : string) (st : State)
    : string * State :=
  let subscriptionId := ("coach-" +:+ coachId +:+ "-" +:+ pretty now)%string in
  let '(playersUnsubscribe, st1) := onSnapshot st in
  let '(matchesUnsubscribe, st2) := onSnapshot st1 in
  (subscriptionId,
   set_subscription subscriptionId [playersUnsubscribe; matchesUnsubscribe] st2).

Definition subscribeToMatchUpdates (now : Z) (matchId : string) (st : State)
    : string * State :=
  let subscriptionId := ("match-" +:+ matchId +:+ "-" +:+ pretty now)%string in
  let '(unsubscribe, st1) := onSnapshot st in
  (subscriptionId, set_subscription subscriptionId [unsubscribe] st1).

Definition unsubscribe (subscriptionId : string) (st : State) : State :=
  match subscriptions st !! subscriptionId with
  | Some subscription =>
      (* Call all unsubscribe functions *)
      let st' := foldl unsubscribeFn st subscription in
      {| subscriptions := delete subscriptionId (subscriptions st');
         watches := watches st';
         next_watch := next_watch st' |}
  | None => st
  end.

(** [Map.prototype.forEach] visits every entry that is present when the
    loop starts and still present when its turn comes; the body only deletes
    the entry being visited. *)
Definition unsubscribeAll (st : State) : State :=
  let st' :=
    foldl (fun s subscriptionId => unsubscribe subscriptionId s) st
          (map fst (map_to_list (subscriptions st))) in
  {| subscriptions := ∅; watches := watches st'; next_watch := next_watch st' |}.

Definition getActiveSubscriptionCount (st : State) : nat :=
  size (subscriptions st).

Definition isSubscriptionActive (subscriptionId : string) (st : State) : bool :=
  bool_decide (is_Some (subscriptions st !! subscriptionId)).

End RealtimeService.

(** ** JavaScript numbers as IEEE 754 doubles

    The statistics of a player and the trend of a score history are decided
    by the last bits of a quotient: [Math.round(x * 100) / 100] and the
    comparisons with 5 and 10 see the rounding error of the divisions that
    come before them.  For these functions a number is a binary64 float,
    [+], [-], [*], [/] and the comparisons are the operations of the
    machine (rounding to nearest, ties to even), and [NaN], the infinities
    and the two zeros are values like the others. *)

Module Binary64.

Abbreviation number := float.

Definition add : number -> number -> number := PrimFloat.add.
Definition sub : number -> number -> number := PrimFloat.sub.
Definition mul : number -> number -> number := PrimFloat.mul.
Definition div : number -> number -> number := PrimFloat.div.

(** [a < b], [a > b] and [a === b]: false as soon as one side is [NaN]. *)
Definition lt (a b : number) : bool := PrimFloat.ltb a b.
Definition gt (a b : number) : bool := PrimFloat.ltb b a.
Definition strict_eq (a b : number) : bool := PrimFloat.eqb a b.

Definition isNaN (a : number) : bool := negb (PrimFloat.eqb a a).

(** [x || 0]: the falsy numbers are [0], [-0] and [NaN].  A field that is
    missing reads as [undefined], which is falsy too and is [NaN] in
    arithmetic; it is represented by [NaN]. *)
Definition or_zero (a : number) : number :=
  if isNaN a || PrimFloat.eqb a 0%float then 0%float else a.

(** [array.length] as a number (exact: a length is below 2^32). *)
Definition length_of {A} (l : list A) : number :=
  PrimFloat.of_uint63 (Uint63.of_Z (Z.of_nat (length l))).

(** [Math.round]: the integer nearest to [x], the one towards +∞ of the two
    when [x] is half-way; [NaN], the infinities, the zeros and the numbers
    that are integers already are returned as they are, and a result that
    is zero keeps the sign of [x].  The float [x] is [±m * 2^e]. *)
Definition Math_round (x : number) : number :=
  match Prim2SF x with
  | S754_finite s m e =>
      if (0 <=? e)%Z then x
      else
        let v := if s then Zneg m else Zpos m in
        match ((2 * v + 2 ^ (- e)) / 2 ^ (1 - e))%Z with
        | Z0 => if s then (-0)%float else 0%float
        | Zpos n => PrimFloat.of_uint63 (Uint63.of_Z (Zpos n))
        | Zneg n => PrimFloat.opp (PrimFloat.of_uint63 (Uint63.of_Z (Zpos n)))
        end
  | _ => x
  end.

(** *** services/matchService.js: the aggregate statistics *)

(** The statistics fields of a player's document. *)
Record PlayerStats : Type := mkPlayerStats {
  currentScore : number;
  matchCount : number;
  totalScore : number;
  averageScore : number;
  lastMatchDate : option Z
}.

(** The fields of a match document that the statistics read.  A
    [calculatedScore] that is [null] is [None]; one that is missing reads
    as [undefined], which passes the filter [score !== null] and is [NaN]
    in a sum, and is represented by [Some nan]. *)
Record MatchDoc : Type := mkMatchDoc {
  m_calculatedScore : option number;
  m_date : option Z
}.

(** The statistics [updatePlayerStatistics] hands to the store for the
    player document [player] and the new score; [now] is what [new Date()]
    reads. *)
Definition updatedStatistics (now : Z) (player : PlayerStats) (newScore : number)
    : PlayerStats :=
  let currentMatchCount := or_zero (matchCount player) in
  let currentTotalScore := or_zero (totalScore player) in
  let newMatchCount := add currentMatchCount 1%float in
  let newTotalScore := add currentTotalScore newScore in
  let newAverageScore := div newTotalScore newMatchCount in
  {| currentScore := newScore;
     matchCount := newMatchCount;
     totalScore := newTotalScore;
     averageScore := div (Math_round (mul newAverageScore 100%float)) 100%float;
     lastMatchDate := Some now |}.

(** [matches.map(m => m.calculatedScore).filter(score => score !== null)] *)
Definition valid_scores (matches : list MatchDoc) : list number :=
  omap m_calculatedScore matches.

(** [array.reduce((sum, score) => sum + score, 0)] *)
Definition sum_scores (scores : list number) : number :=
  fold_left add scores 0%float.

(** The statistics [recalculatePlayerStatistics] hands to the store for the
    player's matches, newest first. *)
Definition recalculatedStatistics (matches : list MatchDoc) : PlayerStats :=
  match matches with
  | [] =>
      (* No matches, reset stats *)
      {| currentScore := 0%float; matchCount := 0%float; totalScore := 0%float;
         averageScore := 0%float; lastMatchDate := None |}
  | lastMatch :: _ =>
      (* Calculate statistics from all matches *)
      let validScores := valid_scores matches in
      let totalScore := sum_scores validScores in
      let averageScore :=
        if (0 <? length validScores)%nat
        then div totalScore (length_of validScores)
        else 0%float in
      {| currentScore :=
           match m_calculatedScore lastMatch with
           | Some score => or_zero score
           | None => 0%float
           end;
         matchCount := length_of matches;
         totalScore := totalScore;
         averageScore := div (Math_round (mul averageScore 100%float)) 100%float;
         lastMatchDate := m_date lastMatch |}
  end.

(** *** suggestionEngine.js: the trend of a score history *)

Definition trend_suggestion (difference : number) : Suggestion :=
  if gt difference 10%float then
    (* Significant improvement *)
    createSuggestion "general"
      "Excellent improvement trend! Your hard work is paying off. Maintain this momentum."
      "low"
  else if gt difference 5%float then
    (* Moderate improvement *)
    createSuggestion "general"
      "Good improvement trend! Continue your current training approach."
      "low"
  else if lt difference (-10)%float then
    (* Significant decline *)
    createSuggestion "general"
      "Performance has declined recently. Consider reviewing your training routine and getting adequate rest."
      "high"
  else if lt difference (-5)%float then
    (* Moderate decline *)
    createSuggestion "general"
      "Slight decline in performance. Focus on fundamentals and ensure proper recovery."
      "medium"
  else
    (* Stable performance *)
    createSuggestion "general"
      "Consistent performance! Consider adding new challenges to break through plateaus."
      "medium".

Definition generateTrendBasedSuggestions (recentScores : list number)
    : list Suggestion :=
  if (length recentScores <? 2)%nat then []
  else
    (* Calculate trend *)
    let recent := Js.slice recentScores (-3) None in
    let older := Js.slice recentScores (-6) (Some (-3)%Z) in
    if Nat.eqb (length older) 0 then []
    else
      let recentAvg := div (sum_scores recent) (length_of recent) in
      let olderAvg := div (sum_scores older) (length_of older) in
      let difference := sub recentAvg olderAvg in
      [trend_suggestion difference].

End Binary64.

(** * Specification-side definitions *)

(** A validator result that lets the input through. *)
Definition passes (r : result Validation) : bool :=
  match r with
  | Ok v => isValid v
  | Throw _ => false
  end.

(** The cricket fixture of the calculator's test-suite:
    [{runsScored: 100, ballsFaced: 60, wicketsTaken: 0, catches: 0,
      oversBowled: 0}]. *)
Definition cricket_fixture : SportParameters :=
  {[ "runsScored"%string := 100; "ballsFaced"%string := 60;
     "wicketsTaken"%string := 0; "catches"%string := 0;
     "oversBowled"%string := 0 ]}.

(** The three rest messages, for a given number of hours. *)
Definition extended_rest (h : Z) : string :=
  "Your performance indicates fatigue. Take " +:+ pretty h +:+
  " hours of complete rest to recover properly. Focus on sleep, hydration, and light stretching.".

Definition moderate_rest (h : Z) : string :=
  "Good performance but room for improvement. Take " +:+ pretty h +:+
  " hours of moderate rest. Light activities like walking or yoga are beneficial.".

Definition light_rest (h : Z) : string :=
  "Excellent performance! Take " +:+ pretty h +:+
  " hours of light rest. You can engage in light training or active recovery activities.".



(** The two windows of the trend analysis: the last three scores of the
    list, and the (up to three) scores just before them. *)
Definition last_three {A} (l : list A) : list A := drop (length l - 3) l.

Definition before_last_three {A} (l : list A) : list A :=
  drop (length l - 6) (take (length l - 3) l).

(** The five trend suggestions. *)
Definition excellent_improvement : Suggestion :=
  createSuggestion "general"
    "Excellent improvement trend! Your hard work is paying off. Maintain this momentum."
    "low".

Definition good_improvement : Suggestion :=
  createSuggestion "general"
    "Good improvement trend! Continue your current training approach."
    "low".

Definition significant_decline : Suggestion :=
  createSuggestion "general"
    "Performance has declined recently. Consider reviewing your training routine and getting adequate rest."
    "high".

Definition slight_decline : Suggestion :=
  createSuggestion "general"
    "Slight decline in performance. Focus on fundamentals and ensure proper recovery."
    "medium".

Definition consistent_performance : Suggestion :=
  createSuggestion "general"
    "Consistent performance! Consider adding new challenges to break through plateaus."
    "medium".

(** Structural validation lets the input through. *)
Definition structurally_valid (now : Z) (m : MatchInput) : bool :=
  match Validators.validateMatchData now m with
  | Ok v => Validators.mv_isValid v
  | Throw _ => false
  end.

(** Sport-parameter validation lets the input through. *)
Definition sport_parameters_valid (m : MatchInput) : bool :=
  match parameters m with
  | Some ps => passes (Validators.validateSportParameters (sport m) ps)
  | None => false
  end.

(** A sport outside the three supported tags. *)
Definition unsupported_sport (m : MatchInput) : Prop :=
  forall s, sport m = Some s -> s ∉ Validators.supported_sports.

(** An empty player identifier. *)
Definition empty_playerId (m : MatchInput) : Prop :=
  playerId m = None \/ playerId m = Some ""%string.

(** A date in the future. *)
Definition future_date (now : Z) (m : MatchInput) : Prop :=
  exists t, date m = Some (DateAt t) /\ (now < t)%Z.

(** The error message [submitMatchData] throws for a structural
    validation that found [errs]. *)
Definition invalid_match_data (errs : list (string * jsvalue)) : string :=
  "Invalid match data: " +:+
  Js.join ", " (map (fun kv => MatchService.String_of kv.2) errs).





(** The sum of a list of scores, added from left to right starting from 0,
    and their mean, in double arithmetic. *)
Definition float_sum (l : list float) : float := fold_left PrimFloat.add l 0%float.

Definition float_mean (l : list float) : float :=
  PrimFloat.div (float_sum l) (Binary64.length_of l).

(** The difference that the trend analysis classifies: the mean of the
    last three scores minus the mean of the (up to three) scores before
    them. *)
Definition window_difference (scores : list float) : float :=
  PrimFloat.sub (float_mean (last_three scores)) (float_mean (before_last_three scores)).

(** Every stored match has a score that is a number. *)
Definition all_scored (ms : list (string * MatchDoc)) : Prop :=
  Forall (fun m => exists q, m_calculatedScore m.2 = Some (Some q)) ms.

(** Reads and queries leave the three collections alone. *)
Definition same_documents (w w' : World) : Prop :=
  users w' = users w /\ players w' = players w /\ matches w' = matches w.

(** ** Fixtures *)

Module Fixtures.

Definition match_of (pid : string) (time : Z) (score : option Js.number) : MatchDoc :=
  {| m_playerId := Some pid; m_playerEmail := None; m_coachId := Some "coach-1"%string;
     m_sport := Some "cricket"%string; m_parameters := Some cricket_fixture;
     m_date := Some time; m_calculatedScore := score; m_suggestions := [];
     m_restRecommendation := None |}.

Definition player_1 : PlayerDoc :=
  mkPlayerDoc "Asha" (Some "coach-1"%string)
    (mkPlayerStats (Js.int 80) (Js.int 1) (Js.int 80) (Js.int 80) (Some 200%Z)).

(** One player with two stored matches, the older one without a score. *)
Definition world : World :=
  {| users := {[ "player-1"%string := mkUserDoc "Asha" (Some "asha@example.com"%string) ]};
     players := {[ "player-1"%string := player_1 ]};
     matches :=
       {[ "match-1"%string := match_of "player-1" 200 (Some (Js.int 80));
          "match-2"%string := match_of "player-1" 100 None ]};
     oplog := [] |}.

(** A well-formed submission. *)
Definition good_input : MatchInput :=
  {| playerId := Some "player-1"%string; coachId := Some "coach-1"%string;
     sport := Some "cricket"%string; parameters := Some cricket_fixture;
     date := Some (DateAt 900); calculatedScore := None |}.

(** Future date, unknown sport, empty player identifier. *)
Definition bad_input : MatchInput :=
  {| playerId := Some ""%string; coachId := Some "coach-1"%string;
     sport := Some "tennis"%string; parameters := Some cricket_fixture;
     date := Some (DateAt 2000); calculatedScore := None |}.

(** The same, with a sport that names a member of [Object.prototype]. *)
Definition inherited_key_input : MatchInput :=
  {| playerId := Some ""%string; coachId := Some "coach-1"%string;
     sport := Some "__proto__"%string; parameters := Some cricket_fixture;
     date := Some (DateAt 2000); calculatedScore := None |}.

End Fixtures.

(** * Further embedded code *)

(** ** performanceCalculator.js: categories and changes *)

Module ScoreReports.
Import Js.

Record PerformanceCategory : Type := mkPerformanceCategory {
  category : string;
  category_description : string;
  color : string
}.

Definition getPerformanceCategory (score : number) : PerformanceCategory :=
  if ge score (int 90) then
    mkPerformanceCategory "excellent" "Outstanding performance" "green"
  else if ge score (int 80) then
    mkPerformanceCategory "very-good" "Very good performance" "blue"
  else if ge score (int 70) then
    mkPerformanceCategory "good" "Good performance" "yellow"
  else if ge score (int 60) then
    mkPerformanceCategory "average" "Average performance" "orange"
  else
    mkPerformanceCategory "below-average" "Below average performance" "red".

Record PerformanceChange : Type := mkPerformanceChange {
  change : number;
  percentage : number;
  change_trend : string
}.

(** [!previousScore || previousScore === 0]: a missing, [NaN] or zero
    previous score. *)
Definition calculatePerformanceChange (currentScore previousScore : number)
    : PerformanceChange :=
  if negb (Validators.truthy previousScore) then
    mkPerformanceChange (int 0) (int 0) "stable"
  else
    let change := sub currentScore previousScore in
    let percentage := Math_round (mul (div change previousScore) (int 100)) in
    let trend :=
      if gt change (int 2) then "improving"%string
      else if lt change (int (-2)) then "declining"%string
      else "stable"%string in
    mkPerformanceChange change percentage trend.

End ScoreReports.

(** ** suggestionEngine.js: the motivational message *)

Module Motivation.
Import Js.

Definition getMotivationalMessage (score : number) : string :=
  if ge score (int 90) then
    "Outstanding performance! You're at the top of your game!"
  else if ge score (int 80) then
    "Great job! You're performing at a high level!"
  else if ge score (int 70) then
    "Good work! Keep pushing to reach the next level!"
  else if ge score (int 60) then
    "Solid effort! Focus on improvement areas to boost your performance!"
  else
    "Every champion was once a beginner. Keep working hard!".

End Motivation.

(** ** utils/validators.js: the validators of derived records *)

Module RecordValidators.
Import Js Validators.

(** [if (!validateRequired(value)) errors[field] = message] *)
Definition require_field (value : option string) (field message : string)
    : list (string * string) :=
  if negb (validateRequired value) then [(field, message)] else [].

(** [required, else if (!allowed.includes(value))] *)
Definition require_one_of (value : string) (allowed : list string)
    (field missing invalid : string) : list (string * string) :=
  if negb (validateRequired (Some value)) then [(field, missing)]
  else if negb (includes allowed value) then [(field, invalid)]
  else [].

Definition validateRestRecommendation (restRecommendation : RestRecommendation)
    : Validation :=
  validation_of
    ((if negb (validateNumeric (int (hours restRecommendation)) 0 168)
      then [("hours"%string, "Rest hours must be between 0 and 168"%string)] else [])
     ++ require_field (Some (description restRecommendation)) "description"
          "Rest description is required").

Definition validateSuggestion (suggestion : Suggestion) : Validation :=
  validation_of
    (require_one_of (type suggestion) ["rest"; "training"; "technique"; "general"]%string
       "type" "Suggestion type is required" "Invalid suggestion type"
     ++ require_field (Some (message suggestion)) "message"
          "Suggestion message is required"
     ++ require_one_of (priority suggestion) ["high"; "medium"; "low"]%string
          "priority" "Suggestion priority is required" "Invalid priority level").

Record BatchValidation : Type := mkBatchValidation {
  batch_isValid : bool;
  results : list (nat * MatchValidation)
}.

(** The [forEach] loop of [validateMatchDataBatch], from index [index] on:
    [results] and [hasErrors] are its two accumulators. *)
Fixpoint validate_from (now : Z) (index : nat) (matchDataArray : list MatchInput)
    (results : list (nat * MatchValidation)) (hasErrors : bool)
    : result (list (nat * MatchValidation) * bool) :=
  match matchDataArray with
  | [] => Ok (results, hasErrors)
  | matchData :: rest =>
      match validateMatchData now matchData with
      | Throw e => Throw e
      | Ok validation =>
          validate_from now (S index) rest
            (results ++ [(index, validation)])
            (if negb (mv_isValid validation) then true else hasErrors)
      end
  end.

Definition validateMatchDataBatch (now : Z) (matchDataArray : list MatchInput)
    : result BatchValidation :=
  match validate_from now 0 matchDataArray [] false with
  | Throw e => Throw e
  | Ok (results, hasErrors) =>
      Ok {| batch_isValid := negb hasErrors; results := results |}
  end.

End RecordValidators.

(** ** models/matchData.js: the trend helper *)

Module MatchDataModel.
Import Js.

Definition calculatePerformanceTrend (recentScores : list number) : string :=
  if (length recentScores <? 2)%nat then "stable"
  else
    let recent := slice recentScores (-3) None in
    let older := slice recentScores (-6) (Some (-3)%Z) in
    if Nat.eqb (length older) 0 then "stable"
    else
      let recentAvg :=
        div (SuggestionEngine.sum_scores recent) (int (Z.of_nat (length recent))) in
      let olderAvg :=
        div (SuggestionEngine.sum_scores older) (int (Z.of_nat (length older))) in
      let difference := sub recentAvg olderAvg in
      if gt difference (int 5) then "improving"
      else if lt difference (int (-5)) then "declining"
      else "stable".

End MatchDataModel.

(** ** hooks/usePerformance.js: the statistics of a list of matches *)

Module PerformanceStats.
Import Js.

(** [match.calculatedScore || 0] *)
Definition score_of (m : MatchDoc) : number :=
  MatchService.score_or_zero (m_calculatedScore m).

(** [Math.max(...values)] and [Math.min(...values)]: the identities are the
    two infinities, which a non-empty list never returns. *)
Definition Math_max_of (first : number) (rest : list number) : number :=
  fold_left Math_max rest first.

Definition Math_min_of (first : number) (rest : list number) : number :=
  fold_left Math_min rest first.

Record Stats : Type := mkStats {
  totalMatches : nat;
  stats_averageScore : number;
  highestScore : number;
  lowestScore : number;
  recentTrend : string
}.

(** [array.reduce((sum, match) => sum + (match.calculatedScore || 0), 0)] *)
Definition sum_of (matches : list MatchDoc) : number :=
  fold_left (fun sum m => add sum (score_of m)) matches (int 0).

Definition usePerformanceStats (matches : list MatchDoc) : Stats :=
  {| totalMatches := length matches;
     stats_averageScore :=
       if (0 <? length matches)%nat
       then div (Math_round
                   (mul (div (sum_of matches) (int (Z.of_nat (length matches))))
                        (int 100)))
                (int 100)
       else int 0;
     highestScore :=
       match map score_of matches with
       | first :: rest => Math_max_of first rest
       | [] => int 0
       end;
     lowestScore :=
       match map score_of matches with
       | first :: rest => Math_min_of first rest
       | [] => int 0
       end;
     recentTrend :=
       if (3 <=? length matches)%nat then
         let recent3 := slice matches 0 (Some 3%Z) in
         let older3 := slice matches 3 (Some 6%Z) in
         if Nat.eqb (length older3) 0 then "insufficient_data"
         else
           let recentAvg := div (sum_of recent3) (int (Z.of_nat (length recent3))) in
           let olderAvg := div (sum_of older3) (int (Z.of_nat (length older3))) in
           let difference := sub recentAvg olderAvg in
           if gt difference (int 5) then "improving"
           else if lt difference (int (-5)) then "declining"
           else "stable"
       else "insufficient_data" |}.

End PerformanceStats.

(** ** services/matchService.js: the read side *)

Module MatchReports.
Import Js FirestoreService MatchService.

(** [firestoreService.query('matches', [{field: 'coachId', ...}])] *)
Definition query_matches_by_coach (coachId : string) : M (list (string * MatchDoc)) :=
  let! _ := record_op (OpQuery "matches") in
  fun w =>
    (Ok (filter (fun kd => bool_decide (m_coachId kd.2 = Some coachId))
           (map_to_list (matches w))), w).

(** [limit] is [None] when the caller leaves it out; [limit ? ... : ...]
    treats 0 like that. *)
Definition getCoachMatches (coachId : string) (limit : option nat)
    : M (list (string * MatchDoc)) :=
  let! matches := query_matches_by_coach coachId in
  (* Sort by date in memory (newest first) *)
  let sortedMatches := sort by_date_desc matches in
  (* Apply limit if specified *)
  ret (match limit with
       | Some (S n) => take (S n) sortedMatches
       | _ => sortedMatches
       end).

(** The trend [getPlayerPerformanceSummary] reads off the recent scores,
    newest first. *)
Definition summary_trend (recentScores : list number) : string :=
  if (4 <=? length recentScores)%nat then
    let recent3 := slice recentScores 0 (Some 3%Z) in
    let older3 := slice recentScores 3 (Some 6%Z) in
    if (0 <? length older3)%nat then
      let recentAvg :=
        div (SuggestionEngine.sum_scores recent3) (int (Z.of_nat (length recent3))) in
      let olderAvg :=
        div (SuggestionEngine.sum_scores older3) (int (Z.of_nat (length older3))) in
      let difference := sub recentAvg olderAvg in
      if gt difference (int 5) then "improving"
      else if lt difference (int (-5)) then "declining"
      else "stable"
    else "stable"
  else "stable".

(** What [getPlayerPerformanceSummary] returns, for the statistics and the
    history; the fields that identify the player (name, e-mail, sport,
    coach) are copied from the player's document or the user profile and
    are left out. *)
Record PerformanceSummary : Type := mkPerformanceSummary {
  summary_stats : PlayerStats;
  recentScores : list number;
  summary_trend_of : string;
  performanceHistory : list (option Z * option number * option string)
}.

(** [player] after the "update calculated values" step. *)
Definition summary_statistics (player : PlayerStats)
    (recentMatches : list (string * MatchDoc)) (recentScores : list number)
    : PlayerStats :=
  match recentScores with
  | [] => player
  | first :: _ =>
      {| currentScore := or_zero first;
         averageScore :=
           div (SuggestionEngine.sum_scores recentScores)
               (int (Z.of_nat (length recentScores)));
         matchCount := int (Z.of_nat (length recentMatches));
         totalScore := totalScore player;
         lastMatchDate := lastMatchDate player |}
  end.

Definition getPlayerPerformanceSummary (playerId : string) : M PerformanceSummary :=
  (* Get user profile first (contains email) *)
  let! userProfile := read_users playerId in
  match userProfile with
  | None => throw "Player not found"
  | Some userProfile =>
      (* Try to get player stats from players collection *)
      let! player := read_players playerId in
      (* If not found in players collection, create basic player object *)
      let player :=
        match player with
        | Some p => p_stats p
        | None =>
            {| currentScore := int 0; matchCount := int 0; averageScore := int 0;
               totalScore := int 0; lastMatchDate := None |}
        end in
      (* Get recent matches using email-based query *)
      let! recentMatches := getPlayerRecentMatches playerId 10 in
      let recentScores := valid_scores recentMatches in
      ret {| summary_stats := summary_statistics player recentMatches recentScores;
             recentScores := take 5 recentScores;
             summary_trend_of := summary_trend recentScores;
             performanceHistory :=
               map (fun m => (m_date m.2, m_calculatedScore m.2, m_sport m.2))
                   (take 5 recentMatches) |}
  end.

(** The two reductions of [getTeamPerformanceOverview] over the coach's
    players (the function returns zero and [null] for them when there is no
    player). *)
Definition player_average (player : string * PlayerDoc) : number :=
  or_zero (averageScore (p_stats player.2)).

Definition averageTeamScore (players : list (string * PlayerDoc)) : number :=
  match players with
  | [] => int 0
  | _ =>
      let totalScore := fold_left (fun sum p => add sum (player_average p)) players (int 0) in
      div (Math_round (mul (div totalScore (int (Z.of_nat (length players)))) (int 100)))
          (int 100)
  end.

(** [(player.averageScore || 0) > (top?.averageScore || 0) ? player : top] *)
Definition better (top : option (string * PlayerDoc)) (player : string * PlayerDoc)
    : option (string * PlayerDoc) :=
  let topAverage :=
    match top with Some t => player_average t | None => int 0 end in
  if gt (player_average player) topAverage then Some player else top.

Definition topPerformer (players : list (string * PlayerDoc))
    : option (string * PlayerDoc) :=
  fold_left better players None.

End MatchReports.

(** ** services/realtimeService.js: cross-component synchronisation

    [setupCrossComponentSync] starts two watches of its own and keeps them
    and its list of callbacks in the closure it returns; nothing is entered
    in the service's table of subscriptions.  A callback is identified by a
    number. *)

Module CrossComponentSync.
Import RealtimeService.

Record Sync : Type := mkSync {
  syncId : string;
  callbacks : list nat;
  matchListener : nat;
  playerListener : nat
}.

Definition setupCrossComponentSync (now : Z) (playerId coachId : string) (st : State)
    : Sync * State :=
  let syncId :=
    ("sync-" +:+ playerId +:+ "-" +:+ coachId +:+ "-" +:+ pretty now)%string in
  let '(matchListener, st1) := onSnapshot st in
  let '(playerListener, st2) := onSnapshot st1 in
  ({| syncId := syncId; callbacks := []; matchListener := matchListener;
      playerListener := playerListener |}, st2).

(** [callbacks.push(callback)] *)
Definition addCallback (callback : nat) (s : Sync) : Sync :=
  {| syncId := syncId s; callbacks := callbacks s ++ [callback];
     matchListener := matchListener s; playerListener := playerListener s |}.

(** [callbacks.indexOf(callback)], then [callbacks.splice(index, 1)]: the
    first occurrence goes. *)
Fixpoint remove_first (callback : nat) (l : list nat) : list nat :=
  match l with
  | [] => []
  | c :: l' => if Nat.eqb c callback then l' else c :: remove_first callback l'
  end.

Definition removeCallback (callback : nat) (s : Sync) : Sync :=
  {| syncId := syncId s; callbacks := remove_first callback (callbacks s);
     matchListener := matchListener s; playerListener := playerListener s |}.

(** [matchListener(); playerListener(); callbacks.length = 0] *)
Definition destroy (s : Sync) (st : State) : Sync * State :=
  ({| syncId := syncId s; callbacks := [];
      matchListener := matchListener s; playerListener := playerListener s |},
   unsubscribeFn (unsubscribeFn st (matchListener s)) (playerListener s)).

(** The callbacks that run, in order, when the store reports a change on
    watch [h]: those registered at that time, if [h] is one of the two
    watches and is still served. *)
Definition notified (s : Sync) (st : State) (h : nat) : list nat :=
  if bool_decide (h ∈ watches st)
     && (Nat.eqb h (matchListener s) || Nat.eqb h (playerListener s))
  then callbacks s else [].

End CrossComponentSync.

(** ** Specification-side definitions for the further code *)

(** A field that is present and lies between two bounds. *)
Definition within (params : SportParameters) (field : string) (lo hi : Q) : Prop :=
  exists q, params !! field = Some q /\ lo <= q /\ q <= hi.

(** A string of ASCII characters: every code is below 128. *)
Definition ascii_only (s : string) : bool :=
  forallb (fun c => Nat.ltb (nat_of_ascii c) 128) (String.list_ascii_of_string s).

(** A string with a character that is not white space. *)
Definition visible (s : string) : bool :=
  existsb (fun c => negb (Js.is_space c)) (String.list_ascii_of_string s).

(** Newest first: [a] may stand before [b]. *)
Definition newest_first (a b : string * MatchDoc) : Prop :=
  (MatchService.time_of b <= MatchService.time_of a)%Z.


(** A player's document with new statistics. *)
Definition with_stats (p : PlayerDoc) (stats : PlayerStats) : PlayerDoc :=
  {| p_name := p_name p; p_coachId := p_coachId p; p_stats := stats |}.

(** The statistics of a player without matches. *)
Definition reset_stats : PlayerStats :=
  {| currentScore := Js.int 0; matchCount := Js.int 0; totalScore := Js.int 0;
     averageScore := Js.int 0; lastMatchDate := None |}.

(** The average a team overview reads off a player: [averageScore || 0]. *)
Definition average_of (p : string * PlayerDoc) : Q :=
  match averageScore (p_stats p.2) with
  | Some q => q
  | None => 0
  end.

(** The watches in use and the registered unsubscribe functions were all
    handed out by the store. *)
Definition handles_allocated (st : RealtimeService.State) : Prop :=
  (forall h, h ∈ RealtimeService.watches st -> (h < RealtimeService.next_watch st)%nat)
  /\ (forall id fns h,
        RealtimeService.subscriptions st !! id = Some fns -> h ∈ fns ->
        (h < RealtimeService.next_watch st)%nat).

(** The watches that the registered subscriptions hold. *)
Definition registered_watches (st : RealtimeService.State) : gset nat :=
  ⋃ (map (fun kv => list_to_set kv.2) (map_to_list (RealtimeService.subscriptions st))).

(** The store after the operations [ops] have been logged. *)
Definition logged (ops : list StoreOp) (w : World) : World :=
  {| users := users w; players := players w; matches := matches w;
     oplog := oplog w ++ ops |}.

(** The stored matches that pass the filters of a query, in the order of
    the collection. *)
Definition stored_matches (filters : list FirestoreService.Filter) (w : World)
    : list (string * MatchDoc) :=
  filter (fun kd => forallb (fun f => FirestoreService.matches_filter f kd.2) filters)
    (map_to_list (matches w)).

(** The matches of a player as the service finds them: by the e-mail
    address of the profile, by the player identifier when no match carries
    that address, none without an address; newest first. *)
Definition player_matches (playerId : string) (w : World) : list (string * MatchDoc) :=
  match MatchService.profile_email (users w !! playerId) with
  | None => []
  | Some email =>
      match stored_matches [FirestoreService.ByPlayerEmail email] w with
      | [] =>
          Js.sort MatchService.by_date_desc
            (stored_matches [FirestoreService.ByPlayerId playerId] w)
      | byEmail => Js.sort MatchService.by_date_desc byEmail
      end
  end.

(** The score a list of matches is summarised with: [calculatedScore || 0]
    as a rational. *)
Definition score_value (m : MatchDoc) : Q :=
  match m_calculatedScore m with
  | Some (Some q) => q
  | _ => 0
  end.

(** ** More fixtures *)

Module MoreFixtures.

(** The fixture world, with a profile that has no e-mail address. *)
Definition world_without_email : World :=
  {| users := {[ "player-1"%string := mkUserDoc "Asha" None ]};
     players := players Fixtures.world;
     matches := matches Fixtures.world;
     oplog := [] |}.

(** The fixture world, with other statistics in the player's document. *)
Definition world_with_other_statistics : World :=
  {| users := users Fixtures.world;
     players :=
       {[ "player-1"%string :=
            mkPlayerDoc "Asha" (Some "coach-1"%string)
              (mkPlayerStats (Js.int 10) (Js.int 7) (Js.int 500) (Js.int 12) None) ]};
     matches := matches Fixtures.world;
     oplog := [] |}.

(** A football player with a hundredth of a goal to the name, so that no
    share of the score is capped. *)
Definition football_fixture : SportParameters :=
  {[ "goalsScored"%string := 1 # 100; "assists"%string := 0;
     "passesCompleted"%string := 0; "tacklesMade"%string := 0;
     "minutesPlayed"%string := 90 ]}.

(** The fixture world, without the document of player statistics. *)
Definition world_without_player : World :=
  {| users := users Fixtures.world;
     players := ∅;
     matches := matches Fixtures.world;
     oplog := [] |}.

End MoreFixtures.

(** * Facts about the number model *)

Section NumberFacts.
Import Js.

Lemma is_Some_lift2 f (a b : number) : is_Some a -> is_Some b -> is_Some (lift2 f a b).
Proof. intros [x ->] [y ->]. simpl. eauto. Qed.

Lemma is_Some_int z : is_Some (int z).
Proof. unfold int. eauto. Qed.

Lemma is_Some_num q : is_Some (num q).
Proof. unfold num. eauto. Qed.

Lemma Qlt_bool_iff (x y : Q) : Qlt_bool x y = true <-> x < y.
Proof.
  unfold Qlt_bool. rewrite negb_true_iff. split.
  - intros H. apply Qnot_le_lt. intros Hle. apply Qle_bool_iff in Hle. congruence.
  - intros H. destruct (Qle_bool y x) eqn:E; [|reflexivity].
    apply Qle_bool_iff in E. exfalso. exact (Qlt_not_le _ _ H E).
Qed.

Lemma Qlt_bool_false (x y : Q) : Qlt_bool x y = false <-> y <= x.
Proof.
  unfold Qlt_bool. rewrite negb_false_iff. apply Qle_bool_iff.
Qed.

(** A divisor that passed [> 0] divides. *)
Lemma is_Some_div_gt (a b : number) :
  is_Some a -> gt b (int 0) = true -> is_Some (div a b).
Proof.
  intros [x ->] H. destruct b as [y|]; [|discriminate].
  unfold gt, lt, cmp, int in H. apply Qlt_bool_iff in H. unfold div.
  destruct (Qeq_bool y 0) eqn:E; [|eauto].
  apply Qeq_bool_iff in E. rewrite E in H. exfalso. exact (Qlt_irrefl _ H).
Qed.

(** [Math.max(minutes, 1)] divides. *)
Lemma is_Some_div_safe (a b : number) :
  is_Some a -> is_Some b -> is_Some (div a (Math_max b (int 1))).
Proof.
  intros [x ->] [y ->]. unfold Math_max, lift2, int, div.
  destruct (Qeq_bool (Qmax y (inject_Z 1)) 0) eqn:E; [|eauto].
  apply Qeq_bool_iff in E.
  pose proof (Q.le_max_r y (inject_Z 1)) as H. rewrite E in H.
  exfalso. apply H. reflexivity.
Qed.

(** Clamping to [0, 100] and rounding gives an integer of that range. *)
Lemma clamp_round (x : Q) :
  exists n : Z,
    Math_round (Math_min (int 100) (Math_max (int 0) (Some x))) = int n
    /\ (0 <= n <= 100)%Z.
Proof.
  unfold Math_round, Math_min, Math_max, lift2, int.
  eexists. split; [reflexivity|].
  set (c := Qmin (inject_Z 100) (Qmax (inject_Z 0) x)).
  assert (H0 : 0 <= c).
  { unfold c. apply Q.min_glb; [discriminate | apply Q.le_max_l]. }
  assert (H1 : c <= 100) by (unfold c; apply Q.le_min_l).
  split.
  - change 0%Z with (Qfloor 0). apply Qfloor_resp_le.
    apply Qle_trans with c; [exact H0|]. rewrite <- (Qplus_0_r c) at 1.
    apply Qplus_le_r. discriminate.
  - change 100%Z with (Qfloor (100 + (1 # 2))). apply Qfloor_resp_le.
    apply Qplus_le_l. exact H1.
Qed.

Lemma clamp_round_is_Some (t : number) :
  is_Some t ->
  exists n : Z,
    Math_round (Math_min (int 100) (Math_max (int 0) t)) = int n
    /\ (0 <= n <= 100)%Z.
Proof. intros [x ->]. apply clamp_round. Qed.

(** The floor of a scaled draw from [0, 1). *)
Lemma floor_draw (random : Q) (k : Z) :
  (0 < k)%Z -> 0 <= random -> random < 1 ->
  (0 <= Qfloor (random * inject_Z k) < k)%Z.
Proof.
  intros Hk H0 H1. split.
  - change 0%Z with (Qfloor 0). apply Qfloor_resp_le.
    apply Qmult_le_0_compat; [exact H0|].
    change 0 with (inject_Z 0). rewrite <- Zle_Qle. lia.
  - rewrite Zlt_Qlt. eapply Qle_lt_trans; [apply Qfloor_le|].
    rewrite <- (Qmult_1_l (inject_Z k)) at 2.
    apply Qmult_lt_compat_r; [|exact H1].
    change 0 with (inject_Z 0). rewrite <- Zlt_Qlt. exact Hk.
Qed.

End NumberFacts.

(** * The score calculator *)

Section CalculatorFacts.
Import Js Validators.

Lemma check_field_nil params f lo hi msg :
  check_field params f lo hi msg = [] -> is_Some (params !! f).
Proof.
  unfold check_field, validateNumeric.
  destruct (params !! f); [eauto|]. simpl. discriminate.
Qed.

Lemma validation_of_valid errs : isValid (validation_of errs) = true -> errs = [].
Proof. destruct errs; [reflexivity | discriminate]. Qed.

Ltac validated_fields H :=
  apply validation_of_valid in H;
  repeat (apply app_eq_nil in H; let F := fresh "F" in destruct H as [F H];
          apply check_field_nil in F);
  apply check_field_nil in H.

Ltac finite :=
  repeat first
    [ assumption
    | apply is_Some_int | apply is_Some_num
    | apply is_Some_div_safe
    | apply is_Some_lift2
    | match goal with
      | |- is_Some (if ?c then _ else _) => let E := fresh "E" in destruct c eqn:E
      | H : gt ?b (int 0) = true |- is_Some (div ?a ?b) =>
          apply (is_Some_div_gt a b); [|exact H]
      end ].

Ltac clamp_total :=
  match goal with
  | |- context [Math_round (Math_min _ (Math_max _ ?t))] =>
      let n := fresh "n" in let Hn := fresh "Hn" in
      destruct (clamp_round_is_Some t) as (n & -> & Hn);
      [unfold add, mul, Math_min; finite | eauto]
  end.

(** C3: the calculator gives 50 for the cricket fixture
    [{runsScored: 100, ballsFaced: 60, wicketsTaken: 0, catches: 0,
    oversBowled: 0}], which is not above the 80 that the spec and the
    repository's own test expect: the batting score is capped at 100 and
    weighs one half. *)
Theorem cricket_fixture_scores_50 :
  PerformanceCalculator.calculatePerformanceScore (Some "cricket"%string) (Some cricket_fixture)
  = Ok (int 50)
  /\ ~ (80 < 50).
Proof.
  split.
  - vm_compute. reflexivity.
  - intros H. discriminate H.
Qed.

(** C4: for each of the three sport tags and every parameter bag that
    passes the sport's range validation, the score function returns an
    integer between 0 and 100. *)
Theorem score_is_integer_in_range (sport : string) (params : SportParameters) :
  sport ∈ supported_sports ->
  passes (validateSportParameters (Some sport) params) = true ->
  exists n : Z,
    PerformanceCalculator.calculatePerformanceScore (Some sport) (Some params) = Ok (int n)
    /\ (0 <= n <= 100)%Z.
Proof.
  intros Hs Hv. unfold supported_sports in Hs.
  repeat (apply elem_of_cons in Hs as [-> | Hs]); [| | | by apply elem_of_nil in Hs].
  - cbn in Hv. validated_fields Hv.
    change (PerformanceCalculator.calculatePerformanceScore
              (Some "cricket"%string) (Some params))
      with (Ok (A:=number) (PerformanceCalculator.calculateCricketScore params)).
    unfold PerformanceCalculator.calculateCricketScore. clamp_total.
  - cbn in Hv. validated_fields Hv.
    change (PerformanceCalculator.calculatePerformanceScore
              (Some "football"%string) (Some params))
      with (Ok (A:=number) (PerformanceCalculator.calculateFootballScore params)).
    unfold PerformanceCalculator.calculateFootballScore. clamp_total.
  - cbn in Hv. validated_fields Hv.
    change (PerformanceCalculator.calculatePerformanceScore
              (Some "basketball"%string) (Some params))
      with (Ok (A:=number) (PerformanceCalculator.calculateBasketballScore params)).
    unfold PerformanceCalculator.calculateBasketballScore. clamp_total.
Qed.

Lemma score_is_integer_in_range_witness :
  exists n : Z,
    PerformanceCalculator.calculatePerformanceScore
      (Some "cricket"%string) (Some cricket_fixture) = Ok (int n)
    /\ (0 <= n <= 100)%Z.
Proof.
  apply (score_is_integer_in_range "cricket" cricket_fixture).
  - apply elem_of_cons. left. reflexivity.
  - vm_compute. reflexivity.
Defined.

End CalculatorFacts.

(** * The rest recommendation *)

Section RestFacts.
Import Js SuggestionEngine.

Lemma lt_num (x y : Q) : lt (num x) (num y) = true <-> x < y.
Proof. apply Qlt_bool_iff. Qed.

Lemma lt_num_false (x y : Q) : lt (num x) (num y) = false <-> y <= x.
Proof. apply Qlt_bool_false. Qed.

Lemma ge_num (x y : Q) : ge (num x) (num y) = true <-> y <= x.
Proof. apply Qle_bool_iff. Qed.

(** The three branches of [generateRestRecommendation]. *)
Lemma rest_below_60 (random score : Q) :
  score < 60 ->
  generateRestRecommendation random (num score)
  = createRestRecommendation (Qfloor (random * 24) + 48)
      (extended_rest (Qfloor (random * 24) + 48)).
Proof.
  intros H. unfold generateRestRecommendation.
  change (int 60) with (num 60).
  apply lt_num in H. rewrite H. reflexivity.
Qed.

Lemma rest_60_to_80 (random score : Q) :
  60 <= score -> score < 80 ->
  generateRestRecommendation random (num score)
  = createRestRecommendation (Qfloor (random * 24) + 24)
      (moderate_rest (Qfloor (random * 24) + 24)).
Proof.
  intros H1 H2. unfold generateRestRecommendation.
  change (int 60) with (num 60). change (int 80) with (num 80).
  apply lt_num_false in H1. rewrite H1.
  apply lt_num_false, ge_num in H1. apply lt_num in H2. rewrite H1, H2.
  reflexivity.
Qed.

Lemma rest_from_80 (random score : Q) :
  80 <= score ->
  generateRestRecommendation random (num score)
  = createRestRecommendation (Qfloor (random * 12) + 12)
      (light_rest (Qfloor (random * 12) + 12)).
Proof.
  intros H. unfold generateRestRecommendation.
  change (int 60) with (num 60). change (int 80) with (num 80).
  assert (H60 : 60 <= score) by (eapply Qle_trans; [|exact H]; discriminate).
  apply lt_num_false in H60. rewrite H60.
  apply lt_num_false in H. rewrite H. rewrite andb_false_r.
  reflexivity.
Qed.

(** C5: whatever the random draw, the hours lie in the band of the score
    and the description is the one of that band: below 60, 48 to 72 hours
    and the extended-rest text; from 60 up to 80, 24 to 48 hours and the
    moderate-rest text; from 80, 12 to 24 hours and the light-rest text. *)
Theorem rest_recommendation_band (random score : Q) :
  0 <= random -> random < 1 ->
  let r := generateRestRecommendation random (num score) in
  (score < 60 ->
     (48 <= hours r <= 72)%Z /\ description r = extended_rest (hours r))
  /\ (60 <= score -> score < 80 ->
     (24 <= hours r <= 48)%Z /\ description r = moderate_rest (hours r))
  /\ (80 <= score ->
     (12 <= hours r <= 24)%Z /\ description r = light_rest (hours r)).
Proof.
  intros H0 H1 r. subst r.
  pose proof (floor_draw random 24 eq_refl H0 H1) as B24.
  pose proof (floor_draw random 12 eq_refl H0 H1) as B12.
  change (inject_Z 24) with 24 in B24. change (inject_Z 12) with 12 in B12.
  split; [|split].
  - intros H. rewrite (rest_below_60 _ _ H). cbn [hours description]. split; [lia | reflexivity].
  - intros Ha Hb. rewrite (rest_60_to_80 _ _ Ha Hb). cbn [hours description].
    split; [lia | reflexivity].
  - intros H. rewrite (rest_from_80 _ _ H). cbn [hours description]. split; [lia | reflexivity].
Qed.

Lemma rest_recommendation_band_witness :
  let r := generateRestRecommendation (1 # 2) (num 45) in
  (45 < 60 ->
     (48 <= hours r <= 72)%Z /\ description r = extended_rest (hours r))
  /\ (60 <= 45 -> 45 < 80 ->
     (24 <= hours r <= 48)%Z /\ description r = moderate_rest (hours r))
  /\ (80 <= 45 ->
     (12 <= hours r <= 24)%Z /\ description r = light_rest (hours r)).
Proof.
  apply (rest_recommendation_band (1 # 2) 45).
  - discriminate.
  - reflexivity.
Defined.

(** C9: the hours are an integer strictly below the upper end of the band:
    48 to 71 below a score of 60, 24 to 47 from 60 up to 80, 12 to 23 from
    80. *)
Theorem rest_hours_below_upper_end (random score : Q) :
  0 <= random -> random < 1 ->
  let h := hours (generateRestRecommendation random (num score)) in
  (score < 60 -> (48 <= h < 72)%Z)
  /\ (60 <= score -> score < 80 -> (24 <= h < 48)%Z)
  /\ (80 <= score -> (12 <= h < 24)%Z).
Proof.
  intros H0 H1 h. subst h.
  pose proof (floor_draw random 24 eq_refl H0 H1) as B24.
  pose proof (floor_draw random 12 eq_refl H0 H1) as B12.
  change (inject_Z 24) with 24 in B24. change (inject_Z 12) with 12 in B12.
  split; [|split].
  - intros H. rewrite (rest_below_60 _ _ H). cbn [hours]. lia.
  - intros Ha Hb. rewrite (rest_60_to_80 _ _ Ha Hb). cbn [hours]. lia.
  - intros H. rewrite (rest_from_80 _ _ H). cbn [hours]. lia.
Qed.

Lemma rest_hours_below_upper_end_witness :
  let h := hours (generateRestRecommendation (999 # 1000) (num 85)) in
  (85 < 60 -> (48 <= h < 72)%Z)
  /\ (60 <= 85 -> 85 < 80 -> (24 <= h < 48)%Z)
  /\ (80 <= 85 -> (12 <= h < 24)%Z).
Proof.
  apply (rest_hours_below_upper_end (999 # 1000) 85).
  - discriminate.
  - reflexivity.
Defined.

End RestFacts.

(** * The trend suggestion *)

Section TrendFacts.
Import Js SuggestionEngine.





Lemma slice_last_three {A} (l : list A) :
  slice l (-3) None = drop (length l - 3) l.
Proof.
  unfold slice, slice_index. cbn [Z.ltb Z.compare].
  replace (Z.to_nat (Z.max 0 (Z.of_nat (length l) + -3))) with (length l - 3)%nat by lia.
  apply take_ge. rewrite length_drop. lia.
Qed.

Lemma slice_before_last_three {A} (l : list A) :
  slice l (-6) (Some (-3)%Z) = drop (length l - 6) (take (length l - 3) l).
Proof.
  unfold slice, slice_index. cbn [Z.ltb Z.compare].
  replace (Z.to_nat (Z.max 0 (Z.of_nat (length l) + -3))) with (length l - 3)%nat by lia.
  replace (Z.to_nat (Z.max 0 (Z.of_nat (length l) + -6))) with (length l - 6)%nat by lia.
  rewrite take_drop_commute. f_equal. f_equal. lia.
Qed.

End TrendFacts.

(** * Doubles: the length of a list and the order of the thresholds *)

Section DoubleFacts.
Import Binary64.







(** The order of the thresholds -10 < -5 < 5 < 10, read off the sign, the
    exponent and the mantissa of the difference. *)
Lemma thresholds_ordered (d : float) :
  (gt d 10%float = true -> gt d 5%float = true)
  /\ (lt d (-10)%float = true -> lt d (-5)%float = true)
  /\ (lt d (-5)%float = true -> gt d 5%float = false).
Proof.
  unfold gt, lt. rewrite !FloatAxioms.ltb_spec.
  replace (Prim2SF 10%float) with (S754_finite false 5629499534213120 (-49))
    by (vm_compute; reflexivity).
  replace (Prim2SF 5%float) with (S754_finite false 5629499534213120 (-50))
    by (vm_compute; reflexivity).
  replace (Prim2SF (-10)%float) with (S754_finite true 5629499534213120 (-49))
    by (vm_compute; reflexivity).
  replace (Prim2SF (-5)%float) with (S754_finite true 5629499534213120 (-50))
    by (vm_compute; reflexivity).
  destruct (Prim2SF d) as [s|s| |s m e]; unfold SFltb, SFcompare.
  - destruct s; repeat split; discriminate.
  - destruct s; repeat split; first [reflexivity | discriminate].
  - repeat split; discriminate.
  - destruct s.
    + split; [discriminate|]. split; [|reflexivity].
      destruct (Z.compare_spec e (-49)) as [->|L|L]; try discriminate.
      * intros _. reflexivity.
      * destruct (Z.compare_spec e (-50)) as [E|L'|L']; first [lia | reflexivity].
    + split; [|split; discriminate].
      destruct (Z.compare_spec (-49) e) as [<-|L|L]; try discriminate.
      * intros _. reflexivity.
      * destruct (Z.compare_spec (-50) e) as [E|L'|L']; first [lia | reflexivity].
Qed.

(** The classification of a difference. *)
Lemma trend_suggestion_cases (d : float) :
  (gt d 10%float = true -> trend_suggestion d = excellent_improvement)
  /\ (gt d 5%float = true -> gt d 10%float = false ->
      trend_suggestion d = good_improvement)
  /\ (lt d (-10)%float = true -> trend_suggestion d = significant_decline)
  /\ (lt d (-5)%float = true -> lt d (-10)%float = false ->
      trend_suggestion d = slight_decline)
  /\ (gt d 5%float = false -> lt d (-5)%float = false ->
      trend_suggestion d = consistent_performance).
Proof.
  destruct (thresholds_ordered d) as (U & D & N). unfold trend_suggestion.
  repeat split.
  - intros ->. reflexivity.
  - intros H5 H10. rewrite H10, H5. reflexivity.
  - intros H. pose proof (N (D H)) as N5.
    destruct (gt d 10%float) eqn:G10; [rewrite (U eq_refl) in N5; discriminate N5|].
    rewrite N5, H. reflexivity.
  - intros H5 H10. pose proof (N H5) as N5.
    destruct (gt d 10%float) eqn:G10; [rewrite (U eq_refl) in N5; discriminate N5|].
    rewrite N5, H10, H5. reflexivity.
  - intros G5 L5.
    destruct (gt d 10%float) eqn:G10; [rewrite (U eq_refl) in G5; discriminate G5|].
    destruct (lt d (-10)%float) eqn:L10; [rewrite (D eq_refl) in L5; discriminate L5|].
    rewrite G5, L5. reflexivity.
Qed.

End DoubleFacts.

(** * The trend suggestion, on doubles *)

Section DoubleTrend.
Import Binary64.

(** What [generateTrendBasedSuggestions] computes. *)
Lemma trend_of_scores (scores : list number) :
  generateTrendBasedSuggestions scores
  = if (length scores <? 4)%nat then []
    else [trend_suggestion (window_difference scores)].
Proof.
  unfold generateTrendBasedSuggestions, window_difference, float_mean. cbv zeta.
  rewrite slice_last_three, slice_before_last_three.
  unfold last_three, before_last_three.
  assert (Hb : length (drop (length scores - 6) (take (length scores - 3) scores))
               = (length scores - 3 - (length scores - 6))%nat).
  { rewrite length_drop, length_take. lia. }
  rewrite Hb.
  destruct (Nat.ltb_spec (length scores) 2) as [H2|H2].
  { replace (length scores <? 4)%nat with true by (symmetry; apply Nat.ltb_lt; lia).
    reflexivity. }
  destruct (Nat.eqb_spec (length scores - 3 - (length scores - 6)) 0) as [H0|H0].
  - replace (length scores <? 4)%nat with true by (symmetry; apply Nat.ltb_lt; lia).
    reflexivity.
  - replace (length scores <? 4)%nat with false by (symmetry; apply Nat.ltb_ge; lia).
    reflexivity.
Qed.

(** C2, as stated, fails on a list of four scores: it is shorter than six,
    and the generator still emits a trend suggestion for it. *)
Lemma four_scores_get_a_trend_suggestion :
  ~ ((length [50; 50; 50; 50]%float < 6)%nat ->
     generateTrendBasedSuggestions [50; 50; 50; 50]%float = []).
Proof.
  intros H. assert (L : (length [50; 50; 50; 50]%float < 6)%nat) by (cbn; lia).
  specialize (H L). vm_compute in H. discriminate H.
Qed.

(** C2, amended: the generator emits no trend suggestion for fewer than
    four scores; from four scores on it emits exactly one, chosen by the
    difference [d], in double arithmetic, between the mean of the last
    three scores of the list and the mean of the (up to three) scores just
    before them: above 10 the excellent-improvement suggestion (low), above
    5 the good-improvement one (low), below -10 the significant-decline one
    (high), below -5 the slight-decline one (medium), and the consistent
    one (medium) otherwise, which includes a [d] that is [NaN]. *)
Theorem trend_suggestion_by_windows (scores : list float) :
  let d := window_difference scores in
  let out := generateTrendBasedSuggestions scores in
  ((length scores < 4)%nat -> out = [])
  /\ ((4 <= length scores)%nat ->
      (gt d 10%float = true -> out = [excellent_improvement])
      /\ (gt d 5%float = true -> gt d 10%float = false -> out = [good_improvement])
      /\ (lt d (-10)%float = true -> out = [significant_decline])
      /\ (lt d (-5)%float = true -> lt d (-10)%float = false -> out = [slight_decline])
      /\ (gt d 5%float = false -> lt d (-5)%float = false ->
          out = [consistent_performance])).
Proof.
  intros d out. subst d out. rewrite trend_of_scores. split.
  - intros H. apply Nat.ltb_lt in H. rewrite H. reflexivity.
  - intros H. apply Nat.ltb_ge in H. rewrite H.
    destruct (trend_suggestion_cases (window_difference scores))
      as (C1 & C2 & C3 & C4 & C5).
    repeat split; intros; f_equal; auto.
Qed.

Lemma trend_suggestion_by_windows_witness :
  let scores := [60; 65; 70; 75; 80; 85]%float in
  let d := window_difference scores in
  (4 <= length scores)%nat /\ gt d 10%float = true
  /\ generateTrendBasedSuggestions scores = [excellent_improvement].
Proof.
  intros scores d.
  assert (H4 : (4 <= length scores)%nat) by (cbn; lia).
  assert (Hd : gt d 10%float = true) by (vm_compute; reflexivity).
  split; [exact H4|]. split; [exact Hd|].
  exact (proj1 (proj2 (trend_suggestion_by_windows scores) H4) Hd).
Defined.

(** The difference is the one the machine computes: for the scores
    17, 15, 59, 29, 30, 62 the two means are 91/3 and 121/3, ten apart, and
    the doubles that stand for them are 10.000000000000004 apart, which is
    above 10. *)
Example rounding_decides_the_trend :
  gt (window_difference [17; 15; 59; 29; 30; 62]%float) 10%float = true
  /\ generateTrendBasedSuggestions [17; 15; 59; 29; 30; 62]%float
     = [excellent_improvement].
Proof. split; vm_compute; reflexivity. Qed.

(** The history that [submitMatchData] hands over is newest first, so the
    "last three" are the oldest scores of the window: a player who went
    from 60 up to 85 is told that the performance has declined. *)
Example newest_first_history_is_read_backwards :
  generateTrendBasedSuggestions [85; 80; 75; 70; 65; 60]%float
  = [significant_decline].
Proof. vm_compute. reflexivity. Qed.

End DoubleTrend.

(** * Validation and submission *)

Section SubmissionFacts.
Import Js Validators MatchService Fixtures.

Lemma validateRequired_empty (m : MatchInput) :
  empty_playerId m -> validateRequired (playerId m) = false.
Proof. intros [-> | ->]; reflexivity. Qed.

Lemma includes_spec (l : list string) (s : string) :
  includes l s = true <-> s ∈ l.
Proof.
  unfold includes. rewrite existsb_exists. split.
  - intros (x & Hx & E). apply String.eqb_eq in E. subst. by apply list_elem_of_In.
  - intros H. exists s. split; [by apply list_elem_of_In | apply String.eqb_refl].
Qed.

Lemma sport_errors_unsupported (m : MatchInput) :
  unsupported_sport m ->
  exists msg, sport_errors m = [("sport"%string, VString msg)].
Proof.
  intros H. unfold sport_errors.
  destruct (sport m) as [s|] eqn:Es; [|eauto].
  destruct (validateRequired (Some s)); cbv beta iota delta [negb]; [|eauto].
  destruct (includes supported_sports s) eqn:I; cbv beta iota delta [negb]; [|eauto].
  apply includes_spec in I. exfalso. exact (H s Es I).
Qed.

(** Whenever structural validation returns, a submission that has a future
    date, an unsupported sport and an empty player identifier is invalid and
    the three violations are all among the errors. *)
Lemma validateMatchData_reports_all_three (now : Z) (m : MatchInput) v :
  future_date now m -> unsupported_sport m -> empty_playerId m ->
  validateMatchData now m = Ok v ->
  mv_isValid v = false
  /\ ("playerId"%string, VString "Player ID is required") ∈ mv_errors v
  /\ (exists msg, ("sport"%string, VString msg) ∈ mv_errors v)
  /\ ("date"%string, VString "Match date cannot be in the future") ∈ mv_errors v.
Proof.
  intros (t & Hd & Ht) Hs Hp Hv. unfold validateMatchData in Hv.
  destruct (parameters_errors m) as [perrs|e]; [|discriminate].
  injection Hv as <-. cbn [mv_isValid mv_errors].
  unfold playerId_errors. rewrite (validateRequired_empty m Hp). cbn [negb].
  destruct (sport_errors_unsupported m Hs) as (msg & ->).
  unfold date_errors. rewrite Hd.
  apply Z.ltb_lt in Ht. rewrite Ht.
  split; [reflexivity|]. split; [|split].
  - set_solver.
  - exists msg. set_solver.
  - set_solver.
Qed.

Lemma validateSportParameters_returns (s : option string) (ps : SportParameters) :
  (forall s', s = Some s' -> assoc s' Object_prototype = None) ->
  exists pv, validateSportParameters s ps = Ok pv.
Proof.
  intros H. unfold validateSportParameters.
  destruct s as [s|]; [|eauto].
  rewrite (H s eq_refl).
  destruct (s =? "cricket")%string; [eauto|].
  destruct (s =? "football")%string; [eauto|].
  destruct (s =? "basketball")%string; eauto.
Qed.

(** Structural validation returns as long as the sport does not name a
    member that the validator table inherits from [Object.prototype], or
    there are no parameters to validate. *)
Lemma validateMatchData_returns (now : Z) (m : MatchInput) :
  parameters m = None
  \/ (forall s, sport m = Some s -> assoc s Object_prototype = None) ->
  exists v, validateMatchData now m = Ok v.
Proof.
  intros H. unfold validateMatchData, parameters_errors.
  destruct (parameters m) as [ps|]; [|eauto].
  destruct H as [H|H]; [discriminate|].
  destruct (validateSportParameters_returns (sport m) ps H) as (pv & ->).
  destruct (isValid pv); cbv beta iota delta [negb]; eauto.
Qed.

(** C6: a submission with a future date, an empty player identifier and
    the sport [__proto__] (which is outside the three supported tags) is not
    answered with the list of its three violations: the look-up
    [validators[sport]] finds the prototype object, the call of it throws a
    TypeError out of [validateMatchData], and [submitMatchData] rethrows
    that error instead of the validation message. *)
Theorem inherited_sport_key_throws :
  future_date 1000 inherited_key_input
  /\ unsupported_sport inherited_key_input
  /\ empty_playerId inherited_key_input
  /\ validateMatchData 1000 inherited_key_input
     = Throw "TypeError: validator is not a function"
  /\ forall random w,
       submitMatchData 1000 random inherited_key_input w
       = (Throw "TypeError: validator is not a function", w).
Proof.
  split; [|split; [|split; [|split]]].
  - exists 2000%Z. split; [reflexivity | lia].
  - intros s [= <-]. unfold supported_sports. intros H.
    repeat (apply elem_of_cons in H as [H | H]; [discriminate H|]).
    by apply elem_of_nil in H.
  - right. reflexivity.
  - vm_compute. reflexivity.
  - intros random w. reflexivity.
Qed.

(** C7: a submission that fails structural or sport-parameter validation
    makes [submitMatchData] throw and leaves the world as it was: no store
    operation is issued (the operation log is unchanged), no match is
    created and no player document is written.  When structural validation
    returned its errors, the message thrown lists them. *)
Theorem invalid_submission_touches_nothing
    (now : Z) (random : Q) (m : MatchInput) (w : World) :
  structurally_valid now m = false \/ sport_parameters_valid m = false ->
  exists e,
    submitMatchData now random m w = (Throw e, w)
    /\ (forall v, validateMatchData now m = Ok v -> mv_isValid v = false ->
          e = invalid_match_data (mv_errors v)).
Proof.
  intros H. unfold submitMatchData, bind, lift_result.
  unfold structurally_valid in H.
  destruct (validateMatchData now m) as [v|e0] eqn:Ev.
  - destruct (mv_isValid v) eqn:Iv; cbn [negb].
    + destruct H as [H|H]; [discriminate|].
      unfold sport_parameters_valid in H.
      destruct (parameters m) as [ps|].
      * cbn [ret]. unfold passes in H.
        destruct (validateSportParameters (sport m) ps) as [pv|e1].
        -- rewrite H. cbn [negb]. eexists. split; [reflexivity|].
           intros v' [= <-] Hv'. congruence.
        -- eexists. split; [reflexivity|]. intros v' [= <-] Hv'. congruence.
      * eexists. split; [reflexivity|]. intros v' [= <-] Hv'. congruence.
    + eexists. split; [reflexivity|]. intros v' [= <-] _. reflexivity.
  - eexists. split; [reflexivity|]. intros v' Hv'. discriminate Hv'.
Qed.

Lemma invalid_submission_touches_nothing_witness :
  exists e,
    submitMatchData 1000 (1 # 2) bad_input world = (Throw e, world)
    /\ (forall v, validateMatchData 1000 bad_input = Ok v -> mv_isValid v = false ->
          e = invalid_match_data (mv_errors v)).
Proof.
  apply (invalid_submission_touches_nothing 1000 (1 # 2) bad_input world).
  left. vm_compute. reflexivity.
Defined.

(** A valid submission does reach the store: it creates the match and
    rewrites the player's statistics. *)
Example valid_submission_is_persisted :
  exists r w' matchId,
    submitMatchData 1000 (1 # 2) good_input world = (Ok r, w')
    /\ matches w' !! matchId = Some (sm_match r)
    /\ sm_id r = None
    /\ m_calculatedScore (sm_match r) = Some (int 50)
    /\ (matchCount ∘ p_stats) <$> (players w' !! "player-1"%string) = Some (int 2)
    /\ oplog w' = [OpRead "users" "player-1"; OpQuery "matches"; OpQuery "matches";
                   OpCreate "matches" matchId; OpRead "players" "player-1";
                   OpUpdate "players" "player-1"].
Proof.
  eexists. eexists. eexists. split; [vm_compute; reflexivity|].
  repeat split; vm_compute; reflexivity.
Qed.

End SubmissionFacts.

(** * Aggregate statistics and deletion *)

Section AggregateFacts.
Import Js FirestoreService MatchService Fixtures.

Lemma read_users_spec docId w :
  read_users docId w
  = (Ok (users w !! docId),
     {| users := users w; players := players w; matches := matches w;
        oplog := oplog w ++ [OpRead "users" docId] |}).
Proof. reflexivity. Qed.

Lemma read_players_spec docId w :
  read_players docId w
  = (Ok (players w !! docId),
     {| users := users w; players := players w; matches := matches w;
        oplog := oplog w ++ [OpRead "players" docId] |}).
Proof. reflexivity. Qed.

Lemma read_matches_spec docId w :
  read_matches docId w
  = (Ok (matches w !! docId),
     {| users := users w; players := players w; matches := matches w;
        oplog := oplog w ++ [OpRead "matches" docId] |}).
Proof. reflexivity. Qed.

Lemma query_matches_ok filters w :
  exists ms w', query_matches filters w = (Ok ms, w') /\ same_documents w w'.
Proof. eexists. eexists. split; [reflexivity|]. repeat split. Qed.

Lemma getPlayerMatches_ok playerId sport w :
  exists ms w', getPlayerMatches playerId sport w = (Ok ms, w') /\ same_documents w w'.
Proof.
  unfold getPlayerMatches, getUserProfile, bind. rewrite read_users_spec.
  set (w0 := {| users := users w; players := players w; matches := matches w;
                oplog := oplog w ++ [OpRead "users" playerId] |}).
  assert (S0 : same_documents w w0) by (repeat split).
  destruct (profile_email (users w !! playerId)) as [email|].
  - match goal with |- context [query_matches ?f w0] =>
      destruct (query_matches_ok f w0) as (ms1 & w1 & -> & S1) end.
    destruct (length ms1 =? 0)%nat.
    + match goal with |- context [query_matches ?f w1] =>
        destruct (query_matches_ok f w1) as (ms2 & w2 & -> & S2) end.
      eexists. eexists. split; [reflexivity|].
      unfold same_documents in *. intuition congruence.
    + eexists. eexists. split; [reflexivity|].
      unfold same_documents in *. intuition congruence.
  - eexists. eexists. split; [reflexivity | exact S0].
Qed.

Lemma updatePlayerStats_existing playerId stats w p :
  players w !! playerId = Some p ->
  exists w',
    updatePlayerStats playerId stats w = (Ok tt, w')
    /\ players w' !! playerId
       = Some {| p_name := p_name p; p_coachId := p_coachId p; p_stats := stats |}.
Proof.
  intros H. unfold updatePlayerStats, bind, record_op. cbn [players].
  rewrite H. eexists. split; [reflexivity|]. cbn [players]. apply lookup_insert_eq.
Qed.

Lemma div_positive (x y : Q) : 0 < y -> div (Some x) (Some y) = Some (x / y).
Proof.
  intros H. unfold div. destruct (Qeq_bool y 0) eqn:E; [|reflexivity].
  apply Qeq_bool_iff in E. rewrite E in H. exfalso. exact (Qlt_irrefl _ H).
Qed.

End AggregateFacts.

(** * The aggregate statistics, on doubles *)

Section DoubleAggregate.
Import Binary64.







End DoubleAggregate.

Section AggregateClaims.
Import Js FirestoreService MatchService Fixtures.

(** C10: deleting a match that does not exist throws "Match not found"
    after the look-up and before anything else: the three collections are
    unchanged, and the only operation issued to the store is the read of
    the match (no delete, no update of the player). *)
Theorem delete_missing_match_changes_nothing (matchId : string) (w : World) :
  matches w !! matchId = None ->
  exists w',
    deleteMatch matchId w = (Throw "Match not found", w')
    /\ same_documents w w'
    /\ oplog w' = oplog w ++ [OpRead "matches" matchId].
Proof.
  intros H. unfold deleteMatch, getMatchById, bind.
  rewrite read_matches_spec, H.
  eexists. split; [reflexivity|]. repeat split.
Qed.

Lemma delete_missing_match_changes_nothing_witness :
  exists w',
    deleteMatch "match-9" world = (Throw "Match not found", w')
    /\ same_documents world w'
    /\ oplog w' = oplog world ++ [OpRead "matches" "match-9"].
Proof.
  apply (delete_missing_match_changes_nothing "match-9" world).
  vm_compute. reflexivity.
Defined.

(** Deleting a match that exists removes it and recomputes the player's
    statistics from the remaining matches. *)
Example delete_existing_match :
  exists w',
    deleteMatch "match-2" world = (Ok tt, w')
    /\ matches w' !! "match-2"%string = None
    /\ (matchCount ∘ p_stats) <$> (players w' !! "player-1"%string) = Some (int 1).
Proof.
  eexists. split; [vm_compute; reflexivity|]. split; vm_compute; reflexivity.
Qed.

End AggregateClaims.

(** * The subscription registry *)

Section RealtimeFacts.
Import RealtimeService.

Lemma foldl_unsubscribeFn_keeps (st : State) (fns : list nat) :
  subscriptions (foldl unsubscribeFn st fns) = subscriptions st
  /\ next_watch (foldl unsubscribeFn st fns) = next_watch st.
Proof.
  revert st. induction fns as [|h fns IH]; intros st; [split; reflexivity|].
  cbn [foldl]. destruct (IH (unsubscribeFn st h)) as [-> ->]. split; reflexivity.
Qed.

(** Calling the unsubscribe functions releases exactly their watches. *)
Lemma foldl_unsubscribeFn_watches (st : State) (fns : list nat) :
  watches (foldl unsubscribeFn st fns) = watches st ∖ list_to_set fns.
Proof.
  revert st. induction fns as [|h fns IH]; intros st; cbn [foldl list_to_set].
  - symmetry. apply difference_empty_L.
  - rewrite IH. cbn [unsubscribeFn watches]. apply difference_difference_l_L.
Qed.

Lemma unsubscribe_subscriptions (id : string) (st : State) :
  subscriptions (unsubscribe id st) = delete id (subscriptions st).
Proof.
  unfold unsubscribe. destruct (subscriptions st !! id) as [fns|] eqn:E.
  - cbn [subscriptions]. by destruct (foldl_unsubscribeFn_keeps st fns) as [-> _].
  - symmetry. by apply delete_id.
Qed.

Lemma unsubscribe_absent (id : string) (st : State) :
  subscriptions st !! id = None -> unsubscribe id st = st.
Proof. intros H. unfold unsubscribe. by rewrite H. Qed.

Lemma isSubscriptionActive_false (id : string) (st : State) :
  isSubscriptionActive id st = false <-> subscriptions st !! id = None.
Proof.
  unfold isSubscriptionActive. rewrite bool_decide_eq_false.
  rewrite <- eq_None_not_Some. reflexivity.
Qed.

Lemma foldl_unsubscribe_subscriptions (ids : list string) (st : State) :
  subscriptions (foldl (fun s i => unsubscribe i s) st ids)
  = foldl (fun m i => delete i m) (subscriptions st) ids.
Proof.
  revert st. induction ids as [|i ids IH]; intros st; [reflexivity|].
  cbn [foldl]. rewrite IH, unsubscribe_subscriptions. reflexivity.
Qed.

Lemma lookup_foldl_delete {V} (ids : list string) (m : gmap string V) (k : string) :
  foldl (fun m i => delete i m) m ids !! k = if decide (k ∈ ids) then None else m !! k.
Proof.
  revert m. induction ids as [|i ids IH]; intros m; cbn [foldl].
  - case_decide as H; [by apply elem_of_nil in H | reflexivity].
  - rewrite IH.
    destruct (decide (k ∈ ids)) as [Hin|Hin], (decide (k ∈ i :: ids)) as [Hin'|Hin'].
    + reflexivity.
    + exfalso. apply Hin'. apply elem_of_cons. by right.
    + apply elem_of_cons in Hin' as [->|Hin']; [|done]. apply lookup_delete_eq.
    + apply lookup_delete_ne. intros ->. apply Hin'. apply elem_of_cons. by left.
Qed.

(** Visiting every registered identifier empties the registry, so the
    final [clear()] has nothing left to remove. *)
Lemma unsubscribe_every_id_empties (st : State) :
  subscriptions
    (foldl (fun s i => unsubscribe i s) st (map fst (map_to_list (subscriptions st))))
  = ∅.
Proof.
  rewrite foldl_unsubscribe_subscriptions. apply map_eq. intros k.
  rewrite lookup_foldl_delete, lookup_empty.
  case_decide as H; [reflexivity|].
  destruct (subscriptions st !! k) as [v|] eqn:E; [|reflexivity].
  exfalso. apply H. apply list_elem_of_fmap. exists (k, v).
  split; [reflexivity|]. by apply elem_of_map_to_list.
Qed.

Lemma unsubscribeAll_subscriptions (st : State) : subscriptions (unsubscribeAll st) = ∅.
Proof. reflexivity. Qed.

(** C8: after [unsubscribe(id)] the subscription is not active, and a
    second [unsubscribe(id)] changes nothing; [unsubscribeAll] is what
    [unsubscribe] does to every registered identifier in turn, leaves no
    subscription active, and changes nothing when repeated. *)
Theorem unsubscribe_is_idempotent (st : State) (id : string) :
  isSubscriptionActive id (unsubscribe id st) = false
  /\ unsubscribe id (unsubscribe id st) = unsubscribe id st
  /\ unsubscribeAll st
     = foldl (fun s i => unsubscribe i s) st (map fst (map_to_list (subscriptions st)))
  /\ isSubscriptionActive id (unsubscribeAll st) = false
  /\ unsubscribeAll (unsubscribeAll st) = unsubscribeAll st.
Proof.
  split; [|split; [|split; [|split]]].
  - apply isSubscriptionActive_false.
    rewrite unsubscribe_subscriptions. apply lookup_delete_eq.
  - apply unsubscribe_absent.
    rewrite unsubscribe_subscriptions. apply lookup_delete_eq.
  - unfold unsubscribeAll.
    pose proof (unsubscribe_every_id_empties st) as H.
    destruct (foldl _ st _) as [subs ws nw]. cbn [subscriptions watches next_watch] in *.
    by rewrite H.
  - apply isSubscriptionActive_false.
    rewrite unsubscribeAll_subscriptions. apply lookup_empty.
  - unfold unsubscribeAll at 1. rewrite unsubscribeAll_subscriptions.
    rewrite map_to_list_empty. cbn [map foldl].
    unfold unsubscribeAll. reflexivity.
Qed.

(** A player subscription sets up two watches; unsubscribing releases
    both and frees the identifier. *)
Example subscribe_then_unsubscribe :
  let '(id, st) := subscribeToPlayerUpdates 1000 "player-1" constructor in
  isSubscriptionActive id st = true
  /\ watches st = {[0%nat; 1%nat]}
  /\ unsubscribe id st
     = {| subscriptions := ∅; watches := ∅; next_watch := 2 |}.
Proof.
  cbn. split; [reflexivity|]. split; [set_solver|].
  unfold unsubscribe, set_subscription. cbn [subscriptions].
  rewrite lookup_insert_eq. cbn [foldl unsubscribeFn subscriptions watches next_watch].
  f_equal.
Qed.

End RealtimeFacts.

(** * More about the score calculator *)

Section CalculatorExtras.
Import Js PerformanceCalculator.

Lemma lower_ascii_idem (c : ascii) : lower_ascii (lower_ascii c) = lower_ascii c.
Proof. destruct c as [[] [] [] [] [] [] [] []]; reflexivity. Qed.

Lemma toLowerCase_idem (s : string) : toLowerCase (toLowerCase s) = toLowerCase s.
Proof.
  induction s as [|c s IH]; [reflexivity|].
  cbn [toLowerCase]. rewrite lower_ascii_idem, IH. reflexivity.
Qed.

Lemma supported_tag_cases (tag : string) :
  tag ∈ Validators.supported_sports ->
  tag = "cricket"%string \/ tag = "football"%string \/ tag = "basketball"%string.
Proof.
  unfold Validators.supported_sports. intros H.
  repeat (apply elem_of_cons in H as [H|H]; [auto|]).
  by apply elem_of_nil in H.
Qed.

(** X1: the score function ignores the case of the sport: an ASCII sport
    whose lower-case form is one of the three tags is scored like that tag,
    and any other non-empty ASCII sport is refused with
    "Unsupported sport: " and the sport as it was passed. *)
Theorem score_ignores_case (sport : string) (params : SportParameters) :
  sport <> ""%string -> ascii_only sport = true ->
  (toLowerCase sport ∈ Validators.supported_sports ->
     calculatePerformanceScore (Some sport) (Some params)
     = calculatePerformanceScore (Some (toLowerCase sport)) (Some params)
     /\ exists score, calculatePerformanceScore (Some sport) (Some params) = Ok score)
  /\ (toLowerCase sport ∉ Validators.supported_sports ->
     calculatePerformanceScore (Some sport) (Some params)
     = Throw ("Unsupported sport: " +:+ sport)).
Proof.
  intros Hne _.
  assert (E : (sport =? "")%string = false) by (by apply String.eqb_neq).
  split.
  - intros H. unfold calculatePerformanceScore. rewrite E, toLowerCase_idem.
    destruct (supported_tag_cases _ H) as [T|[T|T]]; rewrite T; cbn; eauto.
  - intros H. unfold calculatePerformanceScore. rewrite E.
    destruct (toLowerCase sport =? "cricket")%string eqn:E1.
    { apply String.eqb_eq in E1. exfalso. apply H. rewrite E1. set_solver. }
    destruct (toLowerCase sport =? "football")%string eqn:E2.
    { apply String.eqb_eq in E2. exfalso. apply H. rewrite E2. set_solver. }
    destruct (toLowerCase sport =? "basketball")%string eqn:E3.
    { apply String.eqb_eq in E3. exfalso. apply H. rewrite E3. set_solver. }
    reflexivity.
Qed.

Lemma score_ignores_case_witness :
  (toLowerCase "CRICKET" ∈ Validators.supported_sports ->
     calculatePerformanceScore (Some "CRICKET"%string) (Some cricket_fixture)
     = calculatePerformanceScore (Some (toLowerCase "CRICKET")) (Some cricket_fixture)
     /\ exists score,
          calculatePerformanceScore (Some "CRICKET"%string) (Some cricket_fixture) = Ok score)
  /\ (toLowerCase "CRICKET" ∉ Validators.supported_sports ->
     calculatePerformanceScore (Some "CRICKET"%string) (Some cricket_fixture)
     = Throw ("Unsupported sport: " +:+ "CRICKET")).
Proof.
  apply (score_ignores_case "CRICKET" cricket_fixture); [discriminate | reflexivity].
Defined.

Lemma Qmin_le_l (x y : Q) : Qmin x y <= x.
Proof. apply Q.le_min_l. Qed.

Lemma gt_zero_false (q : Q) : q == 0 -> gt (Some q) (int 0) = false.
Proof.
  intros H. unfold gt, lt, cmp, int. apply Qlt_bool_false. rewrite H. discriminate.
Qed.

(** The batting share of the cricket score is at most 100. *)
Lemma batting_at_most_100 (runs balls : Q) :
  exists a,
    (if gt (Some balls) (int 0)
     then Math_min (int 100) (mul (div (Some runs) (Some balls)) (int 100))
     else if gt (Some runs) (int 0)
          then Math_min (int 100) (mul (Some runs) (int 10))
          else int 0) = Some a
    /\ a <= 100.
Proof.
  destruct (gt (Some balls) (int 0)) eqn:E.
  - destruct (is_Some_div_gt (Some runs) (Some balls)) as [d Hd]; [eauto | exact E |].
    rewrite Hd. eexists. split; [reflexivity|]. apply Qmin_le_l.
  - destruct (gt (Some runs) (int 0)).
    + eexists. split; [reflexivity|]. apply Qmin_le_l.
    + eexists. split; [reflexivity|]. discriminate.
Qed.

(** The bowling share is 0 without wickets. *)
Lemma bowling_zero (wickets overs : Q) :
  wickets == 0 ->
  exists b,
    (if gt (Some overs) (int 0)
     then Math_min (int 100) (mul (div (Some wickets) (Some overs)) (int 100))
     else if gt (Some wickets) (int 0)
          then Math_min (int 100) (mul (Some wickets) (int 25))
          else int 0) = Some b
    /\ b == 0.
Proof.
  intros Hw. destruct (gt (Some overs) (int 0)) eqn:E.
  - assert (Ho : 0 < overs) by (apply (Qlt_bool_iff 0 overs); exact E).
    rewrite (div_positive _ _ Ho). cbn [mul lift2 int Math_min].
    eexists. split; [reflexivity|].
    assert (Hz : wickets / overs * inject_Z 100 == 0).
    { rewrite Hw. unfold Qdiv. ring. }
    rewrite Hz. reflexivity.
  - rewrite (gt_zero_false _ Hw). eexists. split; reflexivity.
Qed.

(** X2: without wickets and without catches a cricket score cannot exceed
    50, whatever the batting figures: batting weighs one half and is capped
    at 100. *)
Theorem cricket_batting_alone_at_most_50 (params : SportParameters)
    (runs balls wickets catches overs : Q) :
  params !! "runsScored"%string = Some runs ->
  params !! "ballsFaced"%string = Some balls ->
  params !! "wicketsTaken"%string = Some wickets ->
  params !! "catches"%string = Some catches ->
  params !! "oversBowled"%string = Some overs ->
  wickets == 0 -> catches == 0 ->
  exists n : Z, calculateCricketScore params = int n /\ (0 <= n <= 50)%Z.
Proof.
  intros Hr Hb Hw Hc Ho Zw Zc. unfold calculateCricketScore.
  rewrite Hr, Hb, Hw, Hc, Ho.
  destruct (batting_at_most_100 runs balls) as (a & -> & Ha).
  destruct (bowling_zero wickets overs Zw) as (b & -> & Hb0).
  cbn [mul add lift2 int num Math_min Math_max Math_round].
  eexists. split; [reflexivity|].
  set (total := a * (5 # 10) + b * (3 # 10)
                + Qmin (inject_Z 100) (catches * inject_Z 20) * (2 # 10)).
  assert (Hf : Qmin (inject_Z 100) (catches * inject_Z 20) == 0).
  { rewrite Zc. reflexivity. }
  assert (Ht : total <= 50).
  { unfold total. rewrite Hf, Hb0. lra. }
  set (c := Qmin (inject_Z 100) (Qmax (inject_Z 0) total)).
  assert (H0 : 0 <= c).
  { unfold c. apply Q.min_glb; [discriminate | apply Q.le_max_l]. }
  assert (H50 : c <= 50).
  { unfold c. eapply Qle_trans; [apply Q.le_min_r|].
    apply Q.max_lub; [discriminate | exact Ht]. }
  split.
  - change 0%Z with (Qfloor 0). apply Qfloor_resp_le. lra.
  - change 50%Z with (Qfloor (50 + (1 # 2))). apply Qfloor_resp_le. lra.
Qed.

Lemma cricket_batting_alone_at_most_50_witness :
  exists n : Z, calculateCricketScore cricket_fixture = int n /\ (0 <= n <= 50)%Z.
Proof.
  apply (cricket_batting_alone_at_most_50 cricket_fixture 100 60 0 0 0);
    reflexivity.
Defined.

(** X3: a football player with less than one minute on the pitch is scored
    as if one minute had been played: [Math.max(minutesPlayed, 1)] keeps
    the per-minute rates finite. *)
Theorem football_minutes_floor (params : SportParameters) (minutes : Q) :
  minutes < 1 ->
  calculateFootballScore (<["minutesPlayed"%string := minutes]> params)
  = calculateFootballScore (<["minutesPlayed"%string := 1]> params).
Proof.
  intros H. unfold calculateFootballScore.
  rewrite !lookup_insert_eq.
  rewrite !lookup_insert_ne by discriminate.
  assert (E : Math_max (Some minutes) (int 1) = Math_max (Some 1) (int 1)).
  { unfold Math_max, lift2, int, Qmax, GenericMinMax.gmax.
    change (inject_Z 1) with 1.
    assert (C : Qcompare minutes 1 = Lt) by (apply Qlt_alt; exact H).
    rewrite C. reflexivity. }
  rewrite E. reflexivity.
Qed.

(** Half a minute on the pitch with a hundredth of a goal: the score is
    the 18 of one minute, not the 36 that half a minute would give. *)
Lemma football_minutes_floor_witness :
  calculateFootballScore (<["minutesPlayed"%string := 1 # 2]> MoreFixtures.football_fixture)
  = calculateFootballScore (<["minutesPlayed"%string := 1]> MoreFixtures.football_fixture)
  /\ calculateFootballScore
       (<["minutesPlayed"%string := 1]> MoreFixtures.football_fixture) = int 18.
Proof.
  split.
  - apply (football_minutes_floor MoreFixtures.football_fixture (1 # 2)). reflexivity.
  - vm_compute. reflexivity.
Defined.

End CalculatorExtras.

(** * Score bands and changes *)

Section BandExtras.
Import Js ScoreReports Motivation SuggestionEngine.

Lemma ge_int_spec (q : Q) (k : Z) :
  (ge (Some q) (int k) = true /\ inject_Z k <= q)
  \/ (ge (Some q) (int k) = false /\ q < inject_Z k).
Proof.
  unfold ge, le, cmp, int. destruct (Qle_bool (inject_Z k) q) eqn:E.
  - left. split; [reflexivity|]. by apply Qle_bool_iff.
  - right. split; [reflexivity|]. apply Qnot_le_lt. intros H.
    apply Qle_bool_iff in H. congruence.
Qed.

(** X4: the performance category, the motivational message and the general
    training suggestion cut the scores at the same places (90, 80, 70, 60),
    so a score always gets the three texts of one band. *)
Theorem category_message_suggestion_agree
    (q : Q) (sport : string) (params : SportParameters) :
  let c := category (getPerformanceCategory (Some q)) in
  let m := getMotivationalMessage (Some q) in
  let g := message <$> head (generateTrainingSuggestions (Some q) sport params) in
  (90 <= q /\ c = "excellent"%string
     /\ m = "Outstanding performance! You're at the top of your game!"%string
     /\ g = Some "Outstanding performance! Maintain your current training routine and focus on consistency."%string)
  \/ (80 <= q /\ q < 90 /\ c = "very-good"%string
     /\ m = "Great job! You're performing at a high level!"%string
     /\ g = Some "Very good performance! Fine-tune specific skills to reach the next level."%string)
  \/ (70 <= q /\ q < 80 /\ c = "good"%string
     /\ m = "Good work! Keep pushing to reach the next level!"%string
     /\ g = Some "Good performance with room for improvement. Focus on consistent practice."%string)
  \/ (60 <= q /\ q < 70 /\ c = "average"%string
     /\ m = "Solid effort! Focus on improvement areas to boost your performance!"%string
     /\ g = Some "Average performance. Identify weak areas and dedicate extra practice time."%string)
  \/ (q < 60 /\ c = "below-average"%string
     /\ m = "Every champion was once a beginner. Keep working hard!"%string
     /\ g = Some "Performance needs improvement. Consider working with a coach on fundamentals."%string).
Proof.
  intros c m g. subst c m g.
  unfold getPerformanceCategory, getMotivationalMessage, generateTrainingSuggestions.
  cbn [head app fmap option_fmap option_map].
  destruct (ge_int_spec q 90) as [[-> H90]|[-> H90]].
  { left. repeat split. exact H90. }
  destruct (ge_int_spec q 80) as [[-> H80]|[-> H80]].
  { right. left. repeat split; assumption. }
  destruct (ge_int_spec q 70) as [[-> H70]|[-> H70]].
  { right. right. left. repeat split; assumption. }
  destruct (ge_int_spec q 60) as [[-> H60]|[-> H60]].
  { right. right. right. left. repeat split; assumption. }
  right. right. right. right. repeat split. exact H60.
Qed.

(** X5: when neither score is zero, [calculatePerformanceChange] is
    antisymmetric: swapping the current and the previous score negates the
    change and turns "improving" into "declining" and back; and a previous
    score of zero gives a change of zero and "stable" instead of a division
    by zero. *)
Theorem performance_change_antisymmetric (a b : Q) :
  ~ a == 0 -> ~ b == 0 ->
  let ab := calculatePerformanceChange (Some a) (Some b) in
  let ba := calculatePerformanceChange (Some b) (Some a) in
  (exists x y, change ab = Some x /\ change ba = Some y /\ x == - y)
  /\ (change_trend ab = "improving"%string <-> change_trend ba = "declining"%string)
  /\ (change_trend ab = "stable"%string <-> change_trend ba = "stable"%string)
  /\ calculatePerformanceChange (Some a) (Some 0)
     = mkPerformanceChange (int 0) (int 0) "stable".
Proof.
  intros Ha Hb ab ba. subst ab ba. unfold calculatePerformanceChange.
  assert (Ta : Validators.truthy (Some a) = true).
  { cbn. apply negb_true_iff. destruct (Qeq_bool a 0) eqn:E; [|reflexivity].
    apply Qeq_bool_iff in E. contradiction. }
  assert (Tb : Validators.truthy (Some b) = true).
  { cbn. apply negb_true_iff. destruct (Qeq_bool b 0) eqn:E; [|reflexivity].
    apply Qeq_bool_iff in E. contradiction. }
  rewrite Ta, Tb. cbn [negb change change_trend sub lift2].
  unfold gt, lt, cmp, int.
  change (inject_Z 2) with 2. change (inject_Z (-2)) with (-2).
  split; [|split; [|split]].
  - eexists. eexists. split; [reflexivity|]. split; [reflexivity|]. ring.
  - destruct (Qlt_bool 2 (a - b)) eqn:E1.
    + apply Qlt_bool_iff in E1.
      assert (E2 : Qlt_bool 2 (b - a) = false) by (apply Qlt_bool_false; lra).
      assert (E3 : Qlt_bool (b - a) (-2) = true) by (apply Qlt_bool_iff; lra).
      rewrite E2, E3. split; reflexivity.
    + apply Qlt_bool_false in E1.
      destruct (Qlt_bool (a - b) (-2)) eqn:E4.
      * apply Qlt_bool_iff in E4.
        assert (E2 : Qlt_bool 2 (b - a) = true) by (apply Qlt_bool_iff; lra).
        rewrite E2. split; discriminate.
      * apply Qlt_bool_false in E4.
        assert (E2 : Qlt_bool 2 (b - a) = false) by (apply Qlt_bool_false; lra).
        assert (E3 : Qlt_bool (b - a) (-2) = false) by (apply Qlt_bool_false; lra).
        rewrite E2, E3. split; discriminate.
  - destruct (Qlt_bool 2 (a - b)) eqn:E1.
    + apply Qlt_bool_iff in E1.
      assert (E2 : Qlt_bool 2 (b - a) = false) by (apply Qlt_bool_false; lra).
      assert (E3 : Qlt_bool (b - a) (-2) = true) by (apply Qlt_bool_iff; lra).
      rewrite E2, E3. split; discriminate.
    + apply Qlt_bool_false in E1.
      destruct (Qlt_bool (a - b) (-2)) eqn:E4.
      * apply Qlt_bool_iff in E4.
        assert (E2 : Qlt_bool 2 (b - a) = true) by (apply Qlt_bool_iff; lra).
        rewrite E2. split; discriminate.
      * apply Qlt_bool_false in E4.
        assert (E2 : Qlt_bool 2 (b - a) = false) by (apply Qlt_bool_false; lra).
        assert (E3 : Qlt_bool (b - a) (-2) = false) by (apply Qlt_bool_false; lra).
        rewrite E2, E3. split; reflexivity.
  - reflexivity.
Qed.

Lemma performance_change_antisymmetric_witness :
  let ab := calculatePerformanceChange (Some 80) (Some 70) in
  let ba := calculatePerformanceChange (Some 70) (Some 80) in
  (exists x y, change ab = Some x /\ change ba = Some y /\ x == - y)
  /\ (change_trend ab = "improving"%string <-> change_trend ba = "declining"%string)
  /\ (change_trend ab = "stable"%string <-> change_trend ba = "stable"%string)
  /\ calculatePerformanceChange (Some 80) (Some 0)
     = mkPerformanceChange (int 0) (int 0) "stable".
Proof.
  apply (performance_change_antisymmetric 80 70); discriminate.
Defined.

End BandExtras.

(** * More about the validators *)

Section ValidatorExtras.
Import Js Validators RecordValidators SuggestionEngine.

Lemma trim_start_visible (s : string) :
  (trim_start s = ""%string /\ visible s = false)
  \/ (exists c t, trim_start s = String c t /\ is_space c = false /\ visible s = true).
Proof.
  induction s as [|c s IH]; [left; split; reflexivity|].
  cbn [trim_start]. unfold visible. cbn [String.list_ascii_of_string existsb].
  destruct (is_space c) eqn:E; cbn [negb orb].
  - exact IH.
  - right. eauto.
Qed.

Lemma trim_end_nonempty (c : ascii) (t : string) :
  is_space c = false -> trim_end (String c t) <> ""%string.
Proof.
  intros E. cbn [trim_end]. destruct (trim_end t); [rewrite E|]; discriminate.
Qed.

Lemma validateRequired_visible (s : string) : validateRequired (Some s) = visible s.
Proof.
  unfold validateRequired, trim.
  destruct (trim_start_visible s) as [[-> ->] | (c & t & -> & Hc & ->)];
    [reflexivity|].
  apply negb_true_iff. apply String.eqb_neq. by apply trim_end_nonempty.
Qed.

(** X6: [validateRequired] accepts an ASCII string exactly when it has a
    character that is not white space; a missing value is refused. *)
Theorem validateRequired_iff_visible (s : string) :
  ascii_only s = true ->
  validateRequired (Some s) = visible s /\ validateRequired None = false.
Proof.
  intros _. split; [apply validateRequired_visible | reflexivity].
Qed.

Lemma validateRequired_iff_visible_witness :
  (validateRequired (Some "  Asha "%string) = visible "  Asha "
   /\ validateRequired None = false)
  /\ visible "  Asha " = true.
Proof.
  split; [|reflexivity].
  apply (validateRequired_iff_visible "  Asha "). reflexivity.
Defined.

Lemma validateNumeric_spec (value : number) (lo hi : Q) :
  validateNumeric value lo hi = true <-> exists q, value = Some q /\ lo <= q /\ q <= hi.
Proof.
  unfold validateNumeric. destruct value as [q|]; cbn.
  - rewrite andb_true_iff, !Qle_bool_iff. split.
    + intros [H1 H2]. eauto.
    + intros (q' & [= <-] & H1 & H2). auto.
  - split; [discriminate | intros (q & H & _); discriminate].
Qed.

Lemma check_field_spec params f lo hi msg :
  (within params f lo hi /\ check_field params f lo hi msg = [])
  \/ (~ within params f lo hi /\ check_field params f lo hi msg = [(f, msg)]).
Proof.
  unfold check_field, within.
  destruct (validateNumeric (params !! f) lo hi) eqn:E; cbn [negb].
  - left. split; [by apply validateNumeric_spec | reflexivity].
  - right. split; [|reflexivity]. intros H. apply validateNumeric_spec in H. congruence.
Qed.

Lemma validation_of_isValid errs : isValid (validation_of errs) = true <-> errs = [].
Proof. destruct errs; cbn; split; (reflexivity || discriminate). Qed.

Ltac range_fields :=
  rewrite validation_of_isValid;
  repeat match goal with
    | |- context [check_field ?p ?f ?lo ?hi ?msg] =>
        let W := fresh "W" in
        destruct (check_field_spec p f lo hi msg) as [[W ->]|[W ->]]
    end;
  cbn [app];
  (split;
   [ intros H; try discriminate H; repeat split; assumption
   | intros H; try reflexivity; exfalso; tauto ]).

(** X7: the parameters of a sport are valid exactly when each of its five
    fields is present and within the range of the sport's table
    (the football table allows 200 passes). *)
Theorem sport_parameters_valid_iff_within (params : SportParameters) :
  (isValid (validateCricketParams params) = true <->
     within params "runsScored" 0 500 /\ within params "ballsFaced" 0 600
     /\ within params "wicketsTaken" 0 10 /\ within params "catches" 0 20
     /\ within params "oversBowled" 0 50)
  /\ (isValid (validateFootballParams params) = true <->
     within params "goalsScored" 0 20 /\ within params "assists" 0 20
     /\ within params "passesCompleted" 0 200 /\ within params "tacklesMade" 0 50
     /\ within params "minutesPlayed" 0 120)
  /\ (isValid (validateBasketballParams params) = true <->
     within params "pointsScored" 0 100 /\ within params "rebounds" 0 50
     /\ within params "assists" 0 30 /\ within params "steals" 0 20
     /\ within params "minutesPlayed" 0 48).
Proof.
  split; [|split].
  - unfold validateCricketParams. range_fields.
  - unfold validateFootballParams. range_fields.
  - unfold validateBasketballParams. range_fields.
Qed.

Lemma app_nil_iff {A} (l1 l2 : list A) : l1 ++ l2 = [] <-> l1 = [] /\ l2 = [].
Proof.
  split; [apply app_eq_nil | intros [-> ->]; reflexivity].
Qed.

Lemma length_zero_iff {A} (l : list A) : (length l =? 0)%nat = true <-> l = [].
Proof. destruct l; cbn; split; (reflexivity || discriminate). Qed.

Lemma playerId_errors_nil m : playerId_errors m = [] <-> validateRequired (playerId m) = true.
Proof.
  unfold playerId_errors. destruct (validateRequired (playerId m)); cbn;
    split; (reflexivity || discriminate).
Qed.

Lemma coachId_errors_nil m : coachId_errors m = [] <-> validateRequired (coachId m) = true.
Proof.
  unfold coachId_errors. destruct (validateRequired (coachId m)); cbn;
    split; (reflexivity || discriminate).
Qed.

Lemma supported_visible (s : string) : s ∈ supported_sports -> validateRequired (Some s) = true.
Proof.
  unfold supported_sports. intros H.
  repeat (apply elem_of_cons in H as [->|H]; [reflexivity|]).
  by apply elem_of_nil in H.
Qed.

Lemma sport_errors_nil m :
  sport_errors m = [] <-> exists s, sport m = Some s /\ s ∈ supported_sports.
Proof.
  unfold sport_errors. destruct (sport m) as [s|].
  - destruct (includes supported_sports s) eqn:I.
    + apply includes_spec in I. rewrite (supported_visible s I). cbn.
      split; [eauto | reflexivity].
    + assert (N : s ∉ supported_sports).
      { intros H. apply includes_spec in H. congruence. }
      destruct (validateRequired (Some s)); cbn;
        (split; [discriminate | intros (s' & [= <-] & H); contradiction]).
  - split; [discriminate | intros (s & H & _); discriminate].
Qed.

Lemma parameters_errors_nil m :
  parameters_errors m = Ok [] <-> sport_parameters_valid m = true.
Proof.
  unfold parameters_errors, sport_parameters_valid, passes.
  destruct (parameters m) as [ps|]; [|split; discriminate].
  destruct (validateSportParameters (sport m) ps) as [pv|e]; [|split; discriminate].
  destruct (isValid pv); cbn; split; (reflexivity || discriminate).
Qed.

Lemma date_errors_nil now m :
  date_errors now m = [] <-> exists t, date m = Some (DateAt t) /\ (t <= now)%Z.
Proof.
  unfold date_errors. destruct (date m) as [[t|]|].
  - destruct (Z.ltb_spec now t); cbv iota.
    + split; [intros D; discriminate D | intros (t' & [= <-] & H'); lia].
    + split; [eauto | reflexivity].
  - split; [discriminate | intros (t & H & _); discriminate].
  - split; [discriminate | intros (t & H & _); discriminate].
Qed.

Lemma calculatedScore_errors_nil m :
  calculatedScore_errors m = [] <->
  forall score, calculatedScore m = Some score -> validateNumeric score 0 100 = true.
Proof.
  unfold calculatedScore_errors. destruct (calculatedScore m) as [score|].
  - destruct (validateNumeric score 0 100) eqn:E; cbn.
    + split; [intros _ s [= <-]; exact E | reflexivity].
    + split; [discriminate | intros H; specialize (H score eq_refl); congruence].
  - split; [intros _ s H; discriminate | reflexivity].
Qed.

(** X8: structural validation accepts a match exactly when the player and
    coach identifiers are not blank, the sport is one of the three tags, the
    parameters are present and valid for that sport, the date is present,
    well-formed and not after the current time, and a supplied calculated
    score lies between 0 and 100. *)
Theorem structurally_valid_iff (now : Z) (m : MatchInput) :
  structurally_valid now m = true <->
  validateRequired (playerId m) = true
  /\ validateRequired (coachId m) = true
  /\ (exists s, sport m = Some s /\ s ∈ supported_sports)
  /\ sport_parameters_valid m = true
  /\ (exists t, date m = Some (DateAt t) /\ (t <= now)%Z)
  /\ (forall score, calculatedScore m = Some score -> validateNumeric score 0 100 = true).
Proof.
  unfold structurally_valid, validateMatchData.
  rewrite <- playerId_errors_nil, <- coachId_errors_nil, <- sport_errors_nil,
    <- parameters_errors_nil, <- (date_errors_nil now), <- calculatedScore_errors_nil.
  destruct (parameters_errors m) as [perrs|e]; cbn [mv_isValid].
  - rewrite length_zero_iff, !app_nil_iff. split.
    + intros (H1 & H2 & H3 & H4 & H5 & H6). subst perrs. auto 10.
    + intros (H1 & H2 & H3 & H4 & H5 & H6). injection H4 as ->. auto 10.
  - split; [discriminate | intros (_ & _ & _ & H & _); discriminate].
Qed.

(** X9: every rest recommendation the engine generates passes
    [validateRestRecommendation], whatever the score (a [NaN] included) and
    the random draw. *)
Theorem generated_rest_recommendation_is_valid (random : Q) (score : number) :
  0 <= random -> random < 1 ->
  validateRestRecommendation (generateRestRecommendation random score)
  = {| isValid := true; errors := VObject [] |}.
Proof.
  intros H0 H1.
  pose proof (floor_draw random 24 eq_refl H0 H1) as B24.
  pose proof (floor_draw random 12 eq_refl H0 H1) as B12.
  change (inject_Z 24) with 24 in B24. change (inject_Z 12) with 12 in B12.
  assert (Hh : forall h : Z, (12 <= h <= 71)%Z -> validateNumeric (int h) 0 168 = true).
  { intros h Hh. apply validateNumeric_spec. exists (inject_Z h).
    split; [reflexivity|]. split.
    - change 0 with (inject_Z 0). rewrite <- Zle_Qle. lia.
    - change 168 with (inject_Z 168). rewrite <- Zle_Qle. lia. }
  unfold generateRestRecommendation, validateRestRecommendation, require_field.
  destruct (lt score (int 60)); [|destruct (ge score (int 60) && lt score (int 80))%bool];
    cbn [hours description]; rewrite Hh by lia; cbn [negb app];
    rewrite validateRequired_visible; reflexivity.
Qed.

Lemma generated_rest_recommendation_is_valid_witness :
  validateRestRecommendation (generateRestRecommendation (1 # 2) NaN)
  = {| isValid := true; errors := VObject [] |}.
Proof.
  apply (generated_rest_recommendation_is_valid (1 # 2) NaN); [discriminate | reflexivity].
Defined.

Ltac all_valid :=
  cbv zeta;
  repeat match goal with
    | |- Forall _ (_ ++ _) => apply Forall_app; split
    | |- Forall _ (if ?c then _ else _) => destruct c
    | |- Forall _ [if ?c then _ else _] => destruct c
    | |- Forall _ (_ :: _) => apply Forall_cons; split
    | |- Forall _ [] => constructor
    end;
  try (vm_compute; reflexivity).

(** X10: every suggestion of a generated package passes
    [validateSuggestion]: its type and priority are among the allowed ones
    and its message is not blank. *)
Theorem generated_suggestions_are_valid
    (random : Q) (score : number) (sport : string) (params : SportParameters)
    (recentScores : list number) :
  Forall (fun s => validateSuggestion s = {| isValid := true; errors := VObject [] |})
    (sp_suggestions
       (generateComprehensiveSuggestions random score sport params recentScores)).
Proof.
  unfold generateComprehensiveSuggestions. cbn [sp_suggestions].
  apply Forall_app. split.
  - unfold generateTrainingSuggestions. apply Forall_app. split.
    + all_valid.
    + cbv zeta.
      destruct (toLowerCase sport =? "cricket")%string.
      { unfold generateCricketSuggestions. all_valid. }
      destruct (toLowerCase sport =? "football")%string.
      { unfold generateFootballSuggestions. all_valid. }
      destruct (toLowerCase sport =? "basketball")%string.
      { unfold generateBasketballSuggestions. all_valid. }
      constructor.
  - unfold generateTrendBasedSuggestions. cbv zeta.
    destruct (length recentScores <? 2)%nat; [constructor|].
    destruct (length (slice recentScores (-6) (Some (-3)%Z)) =? 0)%nat;
      [constructor|].
    apply Forall_cons. split; [|constructor].
    unfold trend_suggestion.
    repeat match goal with |- context [if ?c then _ else _] => destruct c end;
      vm_compute; reflexivity.
Qed.

Lemma validate_from_spec now l :
  forall index acc hasErrors results hasErrors',
    validate_from now index l acc hasErrors = Ok (results, hasErrors') ->
    exists vs,
      Forall2 (fun m v => validateMatchData now m = Ok v) l vs
      /\ results = acc ++ zip (seq index (length l)) vs
      /\ hasErrors' = (hasErrors || negb (forallb mv_isValid vs))%bool.
Proof.
  induction l as [|m l IH]; intros index acc hasErrors results hasErrors' H.
  - injection H as <- <-. exists []. split; [constructor|].
    split; [by rewrite app_nil_r | by rewrite orb_false_r].
  - cbn [validate_from] in H.
    destruct (validateMatchData now m) as [v|e] eqn:E; [|discriminate].
    apply IH in H as (vs & Hvs & -> & ->).
    exists (v :: vs). split; [by constructor|]. split.
    + cbn [length seq zip zip_with]. by rewrite <- app_assoc.
    + cbn [forallb]. destruct (mv_isValid v), hasErrors; reflexivity.
Qed.

(** X11: when the batch validator returns, it has one result per match, in
    order and numbered from 0, each being what [validateMatchData] says of
    that match, and the batch is valid exactly when every match is. *)
Theorem batch_validates_each (now : Z) (l : list MatchInput) (b : BatchValidation) :
  validateMatchDataBatch now l = Ok b ->
  map fst (results b) = seq 0 (length l)
  /\ Forall2 (fun m r => validateMatchData now m = Ok r.2) l (results b)
  /\ (batch_isValid b = true <-> Forall (fun m => structurally_valid now m = true) l).
Proof.
  unfold validateMatchDataBatch.
  destruct (validate_from now 0 l [] false) as [[rs he]|e] eqn:E; [|discriminate].
  intros [= <-]. cbn [results batch_isValid].
  apply validate_from_spec in E as (vs & Hvs & -> & ->).
  cbn [app orb]. rewrite negb_involutive.
  assert (L : length vs = length l) by (symmetry; eapply Forall2_length; eauto).
  split; [|split].
  - change (map fst) with (fmap (M:=list) (@fst nat MatchValidation)).
    rewrite fst_zip; [reflexivity | rewrite length_seq; lia].
  - clear L. generalize 0%nat. induction Hvs as [|m v l vs Hm _ IH]; intros i.
    + constructor.
    + cbn [length seq zip zip_with]. constructor; [exact Hm | apply IH].
  - clear L. induction Hvs as [|m v l vs Hm _ IH]; cbn [forallb].
    + split; [constructor | reflexivity].
    + assert (S : structurally_valid now m = mv_isValid v).
      { unfold structurally_valid. rewrite Hm. reflexivity. }
      rewrite andb_true_iff, Forall_cons, IH, S. reflexivity.
Qed.

Lemma batch_validates_each_witness :
  exists b,
    validateMatchDataBatch 1000 [Fixtures.good_input; Fixtures.bad_input] = Ok b
    /\ map fst (results b) = seq 0 2
    /\ Forall2 (fun m r => validateMatchData 1000 m = Ok r.2)
         [Fixtures.good_input; Fixtures.bad_input] (results b)
    /\ (batch_isValid b = true <->
        Forall (fun m => structurally_valid 1000 m = true)
          [Fixtures.good_input; Fixtures.bad_input]).
Proof.
  destruct (validateMatchDataBatch 1000 [Fixtures.good_input; Fixtures.bad_input])
    as [b|e] eqn:E; [|vm_compute in E; discriminate E].
  exists b. split; [reflexivity|].
  exact (batch_validates_each 1000 [Fixtures.good_input; Fixtures.bad_input] b E).
Defined.

End ValidatorExtras.

(** * More about the suggestion engine *)

Section SuggestionExtras.
Import Js SuggestionEngine MatchDataModel.

Ltac split_ifs :=
  cbv zeta;
  repeat match goal with
    | |- context [if ?c then _ else _] => destruct c
    end.

(** X12: the training suggestions always start with exactly one general
    suggestion, followed by at most four technique suggestions; an ASCII
    sport that is none of the three tags (in any case) gets the general
    suggestion only. *)
Theorem training_suggestions_shape
    (score : number) (sport : string) (params : SportParameters) :
  exists g rest,
    generateTrainingSuggestions score sport params = g :: rest
    /\ type g = "general"%string
    /\ Forall (fun s => type s = "technique"%string) rest
    /\ (length rest <= 4)%nat
    /\ (ascii_only sport = true ->
        toLowerCase sport ∉ Validators.supported_sports -> rest = []).
Proof.
  unfold generateTrainingSuggestions. cbn [app].
  eexists. eexists. split; [reflexivity|]. split.
  { split_ifs; reflexivity. }
  cbv zeta.
  destruct (toLowerCase sport =? "cricket")%string eqn:E1.
  { apply String.eqb_eq in E1. rewrite E1.
    split; [|split; [|intros _ H; exfalso; apply H; set_solver]];
      unfold generateCricketSuggestions; split_ifs; cbn; repeat constructor. }
  destruct (toLowerCase sport =? "football")%string eqn:E2.
  { apply String.eqb_eq in E2. rewrite E2.
    split; [|split; [|intros _ H; exfalso; apply H; set_solver]];
      unfold generateFootballSuggestions; split_ifs; cbn; repeat constructor. }
  destruct (toLowerCase sport =? "basketball")%string eqn:E3.
  { apply String.eqb_eq in E3. rewrite E3.
    split; [|split; [|intros _ H; exfalso; apply H; set_solver]];
      unfold generateBasketballSuggestions; split_ifs; cbn; repeat constructor. }
  split; [constructor|]. split; [cbn; lia | reflexivity].
Qed.

Lemma gt_10_5 (d : number) : gt d (int 10) = true -> gt d (int 5) = true.
Proof.
  destruct d as [q|]; [|discriminate]. unfold gt, lt, cmp, int.
  rewrite !Qlt_bool_iff. change (inject_Z 10) with 10. change (inject_Z 5) with 5. lra.
Qed.

Lemma lt_10_5 (d : number) : lt d (int (-10)) = true -> lt d (int (-5)) = true.
Proof.
  destruct d as [q|]; [|discriminate]. unfold lt, cmp, int.
  rewrite !Qlt_bool_iff. change (inject_Z (-10)) with (-10).
  change (inject_Z (-5)) with (-5). lra.
Qed.

Lemma gt_5_not_lt (d : number) : gt d (int 5) = true -> lt d (int (-10)) = false.
Proof.
  destruct d as [q|]; [|discriminate]. unfold gt, lt, cmp, int.
  rewrite Qlt_bool_iff, Qlt_bool_false. change (inject_Z (-10)) with (-10).
  change (inject_Z 5) with 5. lra.
Qed.

(** X13: the trend helper of the match model and the trend suggestion of
    the engine read the same history the same way: "improving" goes with
    one of the two improvement suggestions, "declining" with one of the two
    decline suggestions, and "stable" with the consistency suggestion or
    with no suggestion at all. *)
Theorem trend_helper_matches_trend_suggestion (recentScores : list number) :
  let t := calculatePerformanceTrend recentScores in
  let s := generateTrendBasedSuggestions recentScores in
  (t = "improving"%string /\ (s = [excellent_improvement] \/ s = [good_improvement]))
  \/ (t = "declining"%string /\ (s = [significant_decline] \/ s = [slight_decline]))
  \/ (t = "stable"%string /\ (s = [] \/ s = [consistent_performance])).
Proof.
  intros t s. subst t s.
  unfold calculatePerformanceTrend, generateTrendBasedSuggestions. cbv zeta.
  destruct (length recentScores <? 2)%nat; [right; right; auto|].
  destruct (length (slice recentScores (-6) (Some (-3)%Z)) =? 0)%nat;
    [right; right; auto|].
  match goal with |- context [trend_suggestion ?d] => generalize d end.
  intros d. unfold trend_suggestion.
  destruct (gt d (int 10)) eqn:G10.
  { rewrite (gt_10_5 d G10). left. auto. }
  destruct (gt d (int 5)) eqn:G5.
  { left. auto. }
  destruct (lt d (int (-10))) eqn:L10.
  { rewrite (lt_10_5 d L10). right. left. auto. }
  destruct (lt d (int (-5))) eqn:L5.
  { right. left. auto. }
  right. right. auto.
Qed.

End SuggestionExtras.

(** * More about the match service *)

Section SortFacts.
Import Js MatchService.

Lemma sort_insert_perm {A} (compare : A -> A -> Z) (x : A) (l : list A) :
  sort_insert compare x l ≡ₚ x :: l.
Proof.
  induction l as [|y l IH]; [reflexivity|].
  cbn [sort_insert]. destruct (compare x y <=? 0)%Z; [reflexivity|].
  rewrite IH. apply Permutation_swap.
Qed.

Lemma sort_perm {A} (compare : A -> A -> Z) (l : list A) : sort compare l ≡ₚ l.
Proof.
  induction l as [|x l IH]; [reflexivity|].
  cbn [sort]. rewrite sort_insert_perm. by rewrite IH.
Qed.

Lemma newest_first_trans a b c : newest_first a b -> newest_first b c -> newest_first a c.
Proof. unfold newest_first. lia. Qed.

Lemma sort_insert_newest_first (x : string * MatchDoc) (l : list (string * MatchDoc)) :
  StronglySorted newest_first l ->
  StronglySorted newest_first (sort_insert by_date_desc x l).
Proof.
  induction 1 as [|y l Hl IH Hy]; cbn [sort_insert].
  - repeat constructor.
  - destruct (Z.leb_spec (by_date_desc x y) 0) as [H|H].
    + constructor; [by constructor|]. constructor.
      * unfold newest_first, by_date_desc in *. lia.
      * eapply Forall_impl; [exact Hy|]. intros z Hz.
        unfold newest_first, by_date_desc in *. lia.
    + constructor; [exact IH|].
      rewrite sort_insert_perm. constructor; [|exact Hy].
      unfold newest_first, by_date_desc in *. lia.
Qed.

Lemma sort_newest_first (l : list (string * MatchDoc)) :
  StronglySorted newest_first (sort by_date_desc l).
Proof.
  induction l as [|x l IH]; [constructor|].
  cbn [sort]. by apply sort_insert_newest_first.
Qed.

Lemma StronglySorted_take_of {A} (R : A -> A -> Prop) (n : nat) (l : list A) :
  StronglySorted R l -> StronglySorted R (take n l).
Proof.
  intros H. revert n. induction H as [|x l Hl IH Hx]; intros [|n]; cbn [take];
    try constructor.
  - apply IH.
  - apply Forall_take. exact Hx.
Qed.

End SortFacts.

Section ReadSideFacts.
Import Js FirestoreService MatchService.

Lemma logged_logged a b w : logged a (logged b w) = logged (b ++ a) w.
Proof. unfold logged. cbn. by rewrite <- app_assoc. Qed.

Lemma read_users_logged docId w :
  read_users docId w = (Ok (users w !! docId), logged [OpRead "users" docId] w).
Proof. reflexivity. Qed.

Lemma read_players_logged docId w :
  read_players docId w = (Ok (players w !! docId), logged [OpRead "players" docId] w).
Proof. reflexivity. Qed.

Lemma query_matches_logged filters w :
  query_matches filters w = (Ok (stored_matches filters w), logged [OpQuery "matches"] w).
Proof. reflexivity. Qed.

Lemma stored_matches_logged filters ops w :
  stored_matches filters (logged ops w) = stored_matches filters w.
Proof. reflexivity. Qed.

(** The three ways [getPlayerRecentMatches] and [getPlayerMatches] can
    go: no usable profile, matches found by e-mail, or the fallback on the
    player identifier. *)
Lemma player_query_cases (playerId : string) (extra : list Filter) (w : World)
    (finish : list (string * MatchDoc) -> list (string * MatchDoc)) :
  let run :=
    (let! userProfile := getUserProfile playerId in
     match profile_email userProfile with
     | None => ret []
     | Some playerEmail =>
         let! byEmail := query_matches (ByPlayerEmail playerEmail :: extra) in
         let! matches :=
           if Nat.eqb (length byEmail) 0
           then query_matches (ByPlayerId playerId :: extra)
           else ret byEmail in
         ret (finish matches)
     end) in
  (profile_email (users w !! playerId) = None
   /\ run w = (Ok [], logged [OpRead "users" playerId] w))
  \/ (exists email,
       profile_email (users w !! playerId) = Some email
       /\ stored_matches (ByPlayerEmail email :: extra) w <> []
       /\ run w = (Ok (finish (stored_matches (ByPlayerEmail email :: extra) w)),
                   logged [OpRead "users" playerId; OpQuery "matches"] w))
  \/ (exists email,
       profile_email (users w !! playerId) = Some email
       /\ stored_matches (ByPlayerEmail email :: extra) w = []
       /\ run w = (Ok (finish (stored_matches (ByPlayerId playerId :: extra) w)),
                   logged [OpRead "users" playerId; OpQuery "matches"; OpQuery "matches"]
                     w)).
Proof.
  intros run. subst run. unfold bind, getUserProfile. rewrite read_users_logged.
  destruct (profile_email (users w !! playerId)) as [email|] eqn:E.
  - right. rewrite query_matches_logged, stored_matches_logged, logged_logged.
    destruct (stored_matches (ByPlayerEmail email :: extra) w) as [|x l] eqn:S.
    + right. exists email. split; [reflexivity|]. split; [exact S|].
      cbn [length Nat.eqb]. rewrite query_matches_logged, stored_matches_logged, logged_logged.
      reflexivity.
    + left. exists email. split; [reflexivity|]. split; [rewrite S; discriminate|].
      rewrite S. reflexivity.
  - left. split; reflexivity.
Qed.

Lemma getPlayerRecentMatches_cases (playerId : string) (limit : nat) (w : World) :
  (profile_email (users w !! playerId) = None
   /\ getPlayerRecentMatches playerId limit w
      = (Ok [], logged [OpRead "users" playerId] w))
  \/ (exists email,
       profile_email (users w !! playerId) = Some email
       /\ stored_matches [ByPlayerEmail email] w <> []
       /\ getPlayerRecentMatches playerId limit w
          = (Ok (take limit (sort by_date_desc (stored_matches [ByPlayerEmail email] w))),
             logged [OpRead "users" playerId; OpQuery "matches"] w))
  \/ (exists email,
       profile_email (users w !! playerId) = Some email
       /\ stored_matches [ByPlayerEmail email] w = []
       /\ getPlayerRecentMatches playerId limit w
          = (Ok (take limit (sort by_date_desc (stored_matches [ByPlayerId playerId] w))),
             logged [OpRead "users" playerId; OpQuery "matches"; OpQuery "matches"] w)).
Proof.
  exact (player_query_cases playerId [] w (fun ms => take limit (sort by_date_desc ms))).
Qed.

Lemma getPlayerMatches_cases (playerId : string) (w : World) :
  (profile_email (users w !! playerId) = None
   /\ getPlayerMatches playerId None w = (Ok [], logged [OpRead "users" playerId] w))
  \/ (exists email,
       profile_email (users w !! playerId) = Some email
       /\ stored_matches [ByPlayerEmail email] w <> []
       /\ getPlayerMatches playerId None w
          = (Ok (sort by_date_desc (stored_matches [ByPlayerEmail email] w)),
             logged [OpRead "users" playerId; OpQuery "matches"] w))
  \/ (exists email,
       profile_email (users w !! playerId) = Some email
       /\ stored_matches [ByPlayerEmail email] w = []
       /\ getPlayerMatches playerId None w
          = (Ok (sort by_date_desc (stored_matches [ByPlayerId playerId] w)),
             logged [OpRead "users" playerId; OpQuery "matches"; OpQuery "matches"] w)).
Proof.
  exact (player_query_cases playerId [] w (fun ms => sort by_date_desc ms)).
Qed.

Lemma elem_of_take_of {A} (x : A) (n : nat) (l : list A) : x ∈ take n l -> x ∈ l.
Proof.
  revert n. induction l as [|y l IH]; intros [|n]; cbn [take]; try (intros H; by inversion H).
  intros H. apply elem_of_cons in H as [->|H]; [by left | right; eauto].
Qed.

Lemma elem_of_stored_matches filters w id m :
  (id, m) ∈ stored_matches filters w ->
  matches w !! id = Some m
  /\ Forall (fun f => matches_filter f m = true) filters.
Proof.
  unfold stored_matches. intros H. apply list_elem_of_filter in H as [Hf Hm].
  split; [by apply elem_of_map_to_list|].
  cbn in Hf. apply forallb_True in Hf.
  eapply Forall_impl; [exact Hf|]. intros f Hx. by apply Is_true_true.
Qed.

Lemma matches_filter_player_email email m :
  matches_filter (ByPlayerEmail email) m = true -> m_playerEmail m = Some email.
Proof. cbn. apply bool_decide_eq_true. Qed.

Lemma matches_filter_player_id pid m :
  matches_filter (ByPlayerId pid) m = true -> m_playerId m = Some pid.
Proof. cbn. apply bool_decide_eq_true. Qed.

(** X14: [getPlayerRecentMatches] always returns; its result has at most
    [limit] matches, newest first, each of them a stored match that carries
    the player's e-mail address or the player's identifier; and the store
    is only read. *)
Theorem recent_matches_are_sorted_limited_and_owned
    (playerId : string) (limit : nat) (w : World) :
  exists ms w',
    getPlayerRecentMatches playerId limit w = (Ok ms, w')
    /\ (length ms <= limit)%nat
    /\ StronglySorted newest_first ms
    /\ (forall id m, (id, m) ∈ ms ->
          matches w !! id = Some m
          /\ (m_playerId m = Some playerId
              \/ exists email, profile_email (users w !! playerId) = Some email
                               /\ m_playerEmail m = Some email))
    /\ same_documents w w'.
Proof.
  destruct (getPlayerRecentMatches_cases playerId limit w)
    as [[_ ->] | [(email & He & _ & ->) | (email & He & _ & ->)]].
  - eexists. eexists. split; [reflexivity|]. split; [cbn; lia|].
    split; [constructor|]. split; [|repeat split].
    intros id m H. by apply elem_of_nil in H.
  - eexists. eexists. split; [reflexivity|]. split; [rewrite length_take; lia|].
    split; [apply StronglySorted_take_of, sort_newest_first|]. split; [|repeat split].
    intros id m H. apply elem_of_take_of in H. rewrite sort_perm in H.
    apply elem_of_stored_matches in H as [Hm Hf]. split; [exact Hm|].
    right. exists email. split; [exact He|].
    apply Forall_cons in Hf as [Hf _]. by apply matches_filter_player_email.
  - eexists. eexists. split; [reflexivity|]. split; [rewrite length_take; lia|].
    split; [apply StronglySorted_take_of, sort_newest_first|]. split; [|repeat split].
    intros id m H. apply elem_of_take_of in H. rewrite sort_perm in H.
    apply elem_of_stored_matches in H as [Hm Hf]. split; [exact Hm|].
    left. apply Forall_cons in Hf as [Hf _]. by apply matches_filter_player_id.
Qed.

Lemma updatePlayerStats_logged playerId stats w p :
  players w !! playerId = Some p ->
  FirestoreService.updatePlayerStats playerId stats w
  = (Ok tt,
     {| users := users w;
        players := <[playerId := with_stats p stats]> (players w);
        matches := matches w;
        oplog := oplog w ++ [OpUpdate "players" playerId] |}).
Proof.
  intros H. unfold FirestoreService.updatePlayerStats, bind, record_op.
  cbn [players users matches oplog]. rewrite H. reflexivity.
Qed.


(** X15: for a player whose user profile is missing or has no e-mail
    address, recomputation does not look at the matches at all: it resets
    the player's statistics to zero whatever matches the store holds, with
    one read and one update as its only store operations. *)
Theorem recomputation_without_email_resets
    (playerId : string) (w : World) (p : PlayerDoc) :
  profile_email (users w !! playerId) = None ->
  players w !! playerId = Some p ->
  recalculatePlayerStatistics playerId w
  = (Ok tt,
     {| users := users w;
        players := <[playerId := with_stats p reset_stats]> (players w);
        matches := matches w;
        oplog := oplog w ++ [OpRead "users" playerId; OpUpdate "players" playerId] |}).
Proof.
  intros He Hp. unfold recalculatePlayerStatistics, bind.
  destruct (getPlayerMatches_cases playerId w)
    as [[_ ->] | [(email & He' & _) | (email & He' & _)]]; try congruence.
  rewrite (updatePlayerStats_logged playerId _ _ p) by exact Hp.
  cbn. rewrite <- app_assoc. reflexivity.
Qed.

End ReadSideFacts.

Section WriteSideFacts.
Import Js FirestoreService MatchService Validators.

Lemma getPlayerMatches_value (playerId : string) (w : World) :
  exists ops,
    getPlayerMatches playerId None w = (Ok (player_matches playerId w), logged ops w).
Proof.
  unfold player_matches.
  destruct (getPlayerMatches_cases playerId w)
    as [[-> ->] | [(email & -> & Hne & ->) | (email & -> & -> & ->)]]; eauto.
  destruct (stored_matches [ByPlayerEmail email] w); [congruence | eauto].
Qed.

Lemma getPlayerRecentMatches_value (playerId : string) (limit : nat) (w : World) :
  exists ops,
    getPlayerRecentMatches playerId limit w
    = (Ok (take limit (player_matches playerId w)), logged ops w).
Proof.
  unfold player_matches.
  destruct (getPlayerRecentMatches_cases playerId limit w)
    as [[-> ->] | [(email & -> & Hne & ->) | (email & -> & -> & ->)]]; eauto.
  - rewrite take_nil. eauto.
  - destruct (stored_matches [ByPlayerEmail email] w); [congruence | eauto].
Qed.


Lemma player_matches_depends playerId w w' :
  users w = users w' -> matches w = matches w' ->
  player_matches playerId w = player_matches playerId w'.
Proof.
  intros Hu Hm. unfold player_matches, stored_matches. by rewrite Hu, Hm.
Qed.

Lemma recalculate_value (playerId : string) (w : World) (p : PlayerDoc) :
  players w !! playerId = Some p ->
  exists ops,
    recalculatePlayerStatistics playerId w
    = (Ok tt,
       {| users := users w;
          players :=
            <[playerId := with_stats p (recalculatedStatistics (player_matches playerId w))]>
              (players w);
          matches := matches w;
          oplog := oplog w ++ ops |}).
Proof.
  intros Hp. unfold recalculatePlayerStatistics, bind.
  destruct (getPlayerMatches_value playerId w) as (ops & ->).
  rewrite (updatePlayerStats_logged playerId _ _ p) by exact Hp.
  exists (ops ++ [OpUpdate "players" playerId]). cbn. by rewrite <- app_assoc.
Qed.

(** X16: recomputation has no drift: the statistics it writes depend on
    the users and the matches only, not on the statistics that were there
    (two stores that differ in them get the same ones), and recomputing a
    second time writes the same statistics again. *)
Theorem recomputation_has_no_drift
    (playerId : string) (w w' : World) (p p' : PlayerDoc) :
  users w = users w' -> matches w = matches w' ->
  players w !! playerId = Some p -> players w' !! playerId = Some p' ->
  exists stats w1 w1' w2,
    recalculatePlayerStatistics playerId w = (Ok tt, w1)
    /\ recalculatePlayerStatistics playerId w' = (Ok tt, w1')
    /\ p_stats <$> players w1 !! playerId = Some stats
    /\ p_stats <$> players w1' !! playerId = Some stats
    /\ recalculatePlayerStatistics playerId w1 = (Ok tt, w2)
    /\ p_stats <$> players w2 !! playerId = Some stats
    /\ users w2 = users w /\ matches w2 = matches w.
Proof.
  intros Hu Hm Hp Hp'.
  destruct (recalculate_value playerId w p Hp) as (ops & E).
  destruct (recalculate_value playerId w' p' Hp') as (ops' & E').
  rewrite <- (player_matches_depends playerId w w' Hu Hm) in E'.
  set (stats := recalculatedStatistics (player_matches playerId w)) in *.
  set (w1 := {| users := users w;
                players := <[playerId := with_stats p stats]> (players w);
                matches := matches w; oplog := oplog w ++ ops |}) in *.
  assert (Hp1 : players w1 !! playerId = Some (with_stats p stats))
    by apply lookup_insert_eq.
  destruct (recalculate_value playerId w1 (with_stats p stats) Hp1) as (ops1 & E1).
  rewrite (player_matches_depends playerId w1 w eq_refl eq_refl) in E1.
  eexists stats, w1, _, _. split; [exact E|]. split; [exact E'|].
  split; [by rewrite Hp1|]. split; [cbn [players]; by rewrite lookup_insert_eq|].
  split; [exact E1|]. cbn [users players matches].
  split; [by rewrite lookup_insert_eq|]. split; reflexivity.
Qed.

(** The fixture store and the same store with other statistics in the
    player's document: one score of 80 in two matches either way. *)
Lemma recomputation_has_no_drift_witness :
  (exists stats w1 w1' w2,
    recalculatePlayerStatistics "player-1" Fixtures.world = (Ok tt, w1)
    /\ recalculatePlayerStatistics "player-1" MoreFixtures.world_with_other_statistics
       = (Ok tt, w1')
    /\ p_stats <$> players w1 !! "player-1"%string = Some stats
    /\ p_stats <$> players w1' !! "player-1"%string = Some stats
    /\ recalculatePlayerStatistics "player-1" w1 = (Ok tt, w2)
    /\ p_stats <$> players w2 !! "player-1"%string = Some stats
    /\ users w2 = users Fixtures.world /\ matches w2 = matches Fixtures.world)
  /\ players Fixtures.world <> players MoreFixtures.world_with_other_statistics.
Proof.
  split.
  - apply (recomputation_has_no_drift "player-1" Fixtures.world
             MoreFixtures.world_with_other_statistics Fixtures.player_1
             (mkPlayerDoc "Asha" (Some "coach-1"%string)
                (mkPlayerStats (int 10) (int 7) (int 500) (int 12) None)));
      reflexivity.
  - intros E. apply (f_equal (fun m => m !! "player-1"%string)) in E.
    vm_compute in E. discriminate E.
Defined.

Lemma recomputation_without_email_resets_witness :
  recalculatePlayerStatistics "player-1" MoreFixtures.world_without_email
  = (Ok tt,
     {| users := users MoreFixtures.world_without_email;
        players :=
          <["player-1"%string := with_stats Fixtures.player_1 reset_stats]>
            (players MoreFixtures.world_without_email);
        matches := matches MoreFixtures.world_without_email;
        oplog := oplog MoreFixtures.world_without_email
                 ++ [OpRead "users" "player-1"; OpUpdate "players" "player-1"] |}).
Proof.
  apply (recomputation_without_email_resets "player-1" MoreFixtures.world_without_email
           Fixtures.player_1);
    reflexivity.
Defined.



End WriteSideFacts.

Section SubmissionExtras.
Import Js FirestoreService MatchService Validators SuggestionEngine.

Ltac validated H :=
  apply validation_of_valid in H;
  repeat (apply app_eq_nil in H; let F := fresh "F" in destruct H as [F H];
          apply check_field_nil in F);
  apply check_field_nil in H.

Ltac finite_total :=
  repeat first
    [ assumption
    | apply is_Some_int | apply is_Some_num
    | apply is_Some_div_safe
    | apply is_Some_lift2
    | match goal with
      | |- is_Some (if ?c then _ else _) => let E := fresh "E" in destruct c eqn:E
      | H : gt ?b (int 0) = true |- is_Some (div ?a ?b) =>
          apply (is_Some_div_gt a b); [|exact H]
      end ].

Ltac clamped :=
  match goal with
  | |- context [Math_round (Math_min _ (Math_max _ ?t))] =>
      let n := fresh "n" in let Hn := fresh "Hn" in
      destruct (clamp_round_is_Some t) as (n & -> & Hn);
      [unfold add, mul, Math_min; finite_total | eauto]
  end.

(** The score of parameters that passed the validation of their sport. *)
Lemma validated_score (s : string) (ps : SportParameters) :
  s ∈ supported_sports ->
  passes (validateSportParameters (Some s) ps) = true ->
  exists n : Z,
    PerformanceCalculator.calculatePerformanceScore (Some s) (Some ps) = Ok (int n)
    /\ (0 <= n <= 100)%Z.
Proof.
  intros Hs Hv. destruct (supported_tag_cases s Hs) as [-> | [-> | ->]]; cbn in Hv; validated Hv.
  - change (PerformanceCalculator.calculatePerformanceScore
              (Some "cricket"%string) (Some ps))
      with (Ok (A:=number) (PerformanceCalculator.calculateCricketScore ps)).
    unfold PerformanceCalculator.calculateCricketScore. clamped.
  - change (PerformanceCalculator.calculatePerformanceScore
              (Some "football"%string) (Some ps))
      with (Ok (A:=number) (PerformanceCalculator.calculateFootballScore ps)).
    unfold PerformanceCalculator.calculateFootballScore. clamped.
  - change (PerformanceCalculator.calculatePerformanceScore
              (Some "basketball"%string) (Some ps))
      with (Ok (A:=number) (PerformanceCalculator.calculateBasketballScore ps)).
    unfold PerformanceCalculator.calculateBasketballScore. clamped.
Qed.

(** What a structurally valid submission looks like to [submitMatchData]. *)
Lemma valid_input_facts (now : Z) (m : MatchInput) :
  structurally_valid now m = true ->
  validateMatchData now m = Ok {| mv_isValid := true; mv_errors := [] |}
  /\ exists pid s ps pv,
       playerId m = Some pid /\ sport m = Some s /\ s ∈ supported_sports
       /\ parameters m = Some ps
       /\ validateSportParameters (Some s) ps = Ok pv /\ isValid pv = true.
Proof.
  unfold structurally_valid, validateMatchData.
  destruct (parameters_errors m) as [perrs|e] eqn:Ep; [|discriminate].
  cbn [mv_isValid]. intros H. apply length_zero_iff in H.
  rewrite H. split; [reflexivity|].
  apply app_nil_iff in H as [H1 H]. apply app_nil_iff in H as [_ H].
  apply app_nil_iff in H as [H3 H]. apply app_nil_iff in H as [H4 _].
  subst perrs.
  apply playerId_errors_nil in H1. apply sport_errors_nil in H3 as (s & Hs & Hin).
  destruct (playerId m) as [pid|] eqn:Epid; [|discriminate].
  unfold parameters_errors in Ep. rewrite Hs in Ep.
  destruct (parameters m) as [ps|] eqn:Eps; [|discriminate].
  destruct (validateSportParameters (Some s) ps) as [pv|e] eqn:Epv; [|discriminate].
  destruct (isValid pv) eqn:Iv; [|discriminate].
  exists pid, s, ps, pv. repeat split; try assumption; reflexivity.
Qed.

(** A valid submission, up to the moment the match has been created. *)
Lemma submission_runs_to_update
    (now : Z) (random : Q) (m : MatchInput) (w : World) :
  structurally_valid now m = true ->
  exists pid s ps n ops,
    playerId m = Some pid /\ sport m = Some s /\ parameters m = Some ps
    /\ (0 <= n <= 100)%Z
    /\ let suggestionPackage :=
         generateComprehensiveSuggestions random (int n) s ps
           (valid_scores (take 10 (player_matches pid w))) in
       let completeMatchData :=
         createMatchData now m (Some (int n))
           (map message (sp_suggestions suggestionPackage))
           (Some (sp_restRecommendation suggestionPackage)) in
       let matchId := fresh (dom (matches w)) in
       let created :=
         {| users := users w; players := players w;
            matches := <[matchId := completeMatchData]> (matches w);
            oplog := oplog w ++ ops ++ [OpCreate "matches" matchId] |} in
       submitMatchData now random m w
       = (let! _ := updatePlayerStatistics now pid (int n) in
          ret {| sm_id := None; sm_match := completeMatchData;
                 sm_suggestionPackage := suggestionPackage |}) created.
Proof.
  intros Hv.
  destruct (valid_input_facts now m Hv) as (Ev & pid & s & ps & pv & Hp & Hs & Hin & Hps & Epv & Iv).
  destruct (validated_score s ps Hin) as (n & En & Hn).
  { unfold passes. rewrite Epv. exact Iv. }
  destruct (getPlayerRecentMatches_value pid 10 w) as (ops & Er).
  exists pid, s, ps, n, ops. split; [exact Hp|]. split; [exact Hs|]. split; [exact Hps|].
  split; [exact Hn|]. cbv zeta.
  unfold submitMatchData. unfold bind at 1. unfold lift_result at 1. rewrite Ev.
  cbn [mv_isValid negb]. rewrite Hps. unfold bind at 1. cbn [ret].
  unfold bind at 1. unfold lift_result at 1. rewrite Hs, Epv, Iv. cbn [negb].
  unfold bind at 1. unfold lift_result at 1. rewrite En.
  rewrite Hp. unfold bind at 1. cbn [require_id ret].
  unfold bind at 1. rewrite Er.
  unfold bind at 1. cbn [ret].
  unfold bind at 1. unfold create_matches at 1.
  cbn [logged users players matches oplog]. rewrite <- app_assoc. reflexivity.
Qed.



(** X18: the two writes of a submission are not one transaction: when the
    player has no statistics document, a structurally valid submission
    throws "Player not found" after the match has been created, and the new
    match stays in the store. *)
Theorem submission_without_player_document_keeps_the_match
    (now : Z) (random : Q) (m : MatchInput) (w : World) (pid : string) :
  structurally_valid now m = true ->
  playerId m = Some pid ->
  players w !! pid = None ->
  exists w' matchId doc,
    submitMatchData now random m w = (Throw "Player not found", w')
    /\ matches w !! matchId = None
    /\ matches w' = <[matchId := doc]> (matches w)
    /\ m_playerId doc = Some pid
    /\ players w' = players w.
Proof.
  intros Hv Hpid Hp.
  destruct (submission_runs_to_update now random m w Hv)
    as (pid' & s & ps & n & ops & Hp' & Hs & Hps & Hn & E).
  rewrite Hpid in Hp'. injection Hp' as <-. cbv zeta in E. rewrite E. clear E.
  unfold bind at 1. unfold updatePlayerStatistics. unfold bind at 1.
  rewrite read_players_logged. cbn [players]. rewrite Hp.
  cbn [throw logged users players matches oplog].
  eexists. eexists. eexists. split; [reflexivity|].
  cbn [users players matches].
  split; [apply not_elem_of_dom, is_fresh|].
  split; [reflexivity|]. split; [exact Hpid | reflexivity].
Qed.

Lemma submission_without_player_document_keeps_the_match_witness :
  exists w' matchId doc,
    submitMatchData 1000 (1 # 2) Fixtures.good_input MoreFixtures.world_without_player
    = (Throw "Player not found", w')
    /\ matches MoreFixtures.world_without_player !! matchId = None
    /\ matches w' = <[matchId := doc]> (matches MoreFixtures.world_without_player)
    /\ m_playerId doc = Some "player-1"%string
    /\ players w' = players MoreFixtures.world_without_player.
Proof.
  apply (submission_without_player_document_keeps_the_match 1000 (1 # 2)
           Fixtures.good_input MoreFixtures.world_without_player "player-1").
  - vm_compute. reflexivity.
  - reflexivity.
  - reflexivity.
Defined.

End SubmissionExtras.

(** * Reports *)

Section ReportExtras.
Import Js FirestoreService MatchService MatchReports.

Lemma query_matches_by_coach_logged coachId w :
  query_matches_by_coach coachId w
  = (Ok (filter (fun kd => bool_decide (m_coachId kd.2 = Some coachId))
           (map_to_list (matches w))),
     logged [OpQuery "matches"] w).
Proof. reflexivity. Qed.

(** X20: [getCoachMatches] only reads; it returns stored matches of the
    coach, newest first, at most [limit] of them for a positive limit, and
    every match of the coach when the limit is left out or is 0. *)
Theorem coach_matches_are_sorted_and_limited
    (coachId : string) (limit : option nat) (w : World) :
  exists ms w',
    getCoachMatches coachId limit w = (Ok ms, w')
    /\ same_documents w w'
    /\ StronglySorted newest_first ms
    /\ (forall id m, (id, m) ∈ ms ->
          matches w !! id = Some m /\ m_coachId m = Some coachId)
    /\ (forall n, limit = Some (S n) -> (length ms <= S n)%nat)
    /\ (limit = None \/ limit = Some 0%nat ->
        forall id m, matches w !! id = Some m -> m_coachId m = Some coachId ->
                     (id, m) ∈ ms).
Proof.
  unfold getCoachMatches, bind. rewrite query_matches_by_coach_logged. cbn [ret].
  set (found := filter (fun kd => bool_decide (m_coachId kd.2 = Some coachId))
                  (map_to_list (matches w))).
  assert (Hin : forall id m, (id, m) ∈ sort by_date_desc found <->
                  matches w !! id = Some m /\ m_coachId m = Some coachId).
  { intros id m. rewrite sort_perm. unfold found. rewrite list_elem_of_filter.
    rewrite elem_of_map_to_list. cbn. rewrite bool_decide_spec. tauto. }
  eexists. eexists. split; [reflexivity|]. split; [repeat split|].
  destruct limit as [[|n]|].
  - split; [apply sort_newest_first|]. split; [intros id m; apply Hin|].
    split; [intros n [=]|]. intros _ id m H1 H2. by apply Hin.
  - split; [apply StronglySorted_take_of, sort_newest_first|].
    split; [intros id m H; apply elem_of_take_of in H; by apply Hin|].
    split; [intros n' [= <-]; rewrite length_take; lia|].
    intros [H|H]; discriminate H.
  - split; [apply sort_newest_first|]. split; [intros id m; apply Hin|].
    split; [intros n [=]|]. intros _ id m H1 H2. by apply Hin.
Qed.

(** X21: [getPlayerPerformanceSummary] only reads.  It throws "Player not
    found" when there is no user profile; otherwise it returns at most five
    recent scores and five history entries, and as soon as a recent match
    has a score the match count it reports is the number of recent matches,
    which is at most 10, not the stored count. *)
Theorem performance_summary_reads_recent_matches (playerId : string) (w : World) :
  (users w !! playerId = None ->
     getPlayerPerformanceSummary playerId w
     = (Throw "Player not found", logged [OpRead "users" playerId] w))
  /\ (forall u, users w !! playerId = Some u ->
      let recent := take 10 (player_matches playerId w) in
      exists s w',
        getPlayerPerformanceSummary playerId w = (Ok s, w')
        /\ same_documents w w'
        /\ recentScores s = take 5 (valid_scores recent)
        /\ (length (performanceHistory s) <= 5)%nat
        /\ summary_trend_of s = summary_trend (valid_scores recent)
        /\ (valid_scores recent <> [] ->
              matchCount (summary_stats s) = int (Z.of_nat (length recent))
              /\ (length recent <= 10)%nat)).
Proof.
  split.
  - intros H. unfold getPlayerPerformanceSummary, bind. rewrite read_users_logged, H.
    reflexivity.
  - intros u H recent. subst recent.
    unfold getPlayerPerformanceSummary, bind.
    rewrite read_users_logged, H, read_players_logged.
    destruct (getPlayerRecentMatches_value playerId 10
                (logged [OpRead "players" playerId] (logged [OpRead "users" playerId] w)))
      as (ops & ->).
    change (player_matches playerId
              (logged [OpRead "players" playerId] (logged [OpRead "users" playerId] w)))
      with (player_matches playerId w).
    cbn [ret]. eexists. eexists. split; [reflexivity|].
    cbn [recentScores performanceHistory summary_trend_of summary_stats].
    split; [repeat split|]. split; [reflexivity|].
    split; [rewrite length_map, length_take; lia|]. split; [reflexivity|].
    intros Hne. unfold summary_statistics.
    destruct (valid_scores (take 10 (player_matches playerId w))); [congruence|].
    cbn [matchCount]. split; [reflexivity | rewrite length_take; lia].
Qed.

Lemma player_average_value p : player_average p = Some (average_of p).
Proof. unfold player_average, average_of. by destruct (averageScore (p_stats p.2)). Qed.

Lemma better_spec top p :
  let bar := match top with Some t => average_of t | None => 0 end in
  (bar < average_of p /\ better top p = Some p)
  \/ (average_of p <= bar /\ better top p = top).
Proof.
  intros bar. unfold better.
  assert (E : match top with Some t => player_average t | None => int 0 end = Some bar).
  { subst bar. destruct top; [apply player_average_value | reflexivity]. }
  rewrite E, player_average_value. unfold gt, lt, cmp.
  destruct (Qlt_bool bar (average_of p)) eqn:L.
  - left. split; [by apply Qlt_bool_iff | reflexivity].
  - right. split; [by apply Qlt_bool_false | reflexivity].
Qed.

Lemma fold_better_spec (players : list (string * PlayerDoc)) :
  forall top,
    let bar := match top with Some t => average_of t | None => 0 end in
    (fold_left better players top = top
     /\ Forall (fun p => average_of p <= bar) players)
    \/ (exists before t after,
          players = before ++ t :: after
          /\ fold_left better players top = Some t
          /\ bar < average_of t
          /\ Forall (fun p => average_of p < average_of t) before
          /\ Forall (fun p => average_of p <= average_of t) after).
Proof.
  induction players as [|x l IH]; intros top; cbv zeta.
  - left. split; [reflexivity | constructor].
  - cbn [fold_left]. pose proof (better_spec top x) as B. cbv zeta in B.
    destruct B as [[Hx ->]|[Hx ->]].
    + right. pose proof (IH (Some x)) as I. cbv zeta in I.
      destruct I as [[E Hl]|(before & t & after & -> & E & Ht & Hb & Ha)].
      * exists [], x, l. split; [reflexivity|]. split; [exact E|]. split; [exact Hx|].
        split; [constructor | exact Hl].
      * exists (x :: before), t, after. split; [reflexivity|]. split; [exact E|].
        split; [lra|]. split; [by constructor | exact Ha].
    + pose proof (IH top) as I. cbv zeta in I.
      destruct I as [[E Hl]|(before & t & after & -> & E & Ht & Hb & Ha)].
      * left. split; [exact E | by constructor].
      * right. exists (x :: before), t, after. split; [reflexivity|]. split; [exact E|].
        split; [exact Ht|]. split; [|exact Ha]. constructor; [lra | exact Hb].
Qed.

(** X22: the top performer of a team is [null] exactly when no player has
    a positive average; otherwise it is the first player of the list whose
    average is the highest: every player before has a strictly lower
    average and every player after has an average that is not higher. *)
Theorem top_performer_is_first_maximum (players : list (string * PlayerDoc)) :
  (topPerformer players = None /\ Forall (fun p => average_of p <= 0) players)
  \/ (exists before t after,
        players = before ++ t :: after
        /\ topPerformer players = Some t
        /\ 0 < average_of t
        /\ Forall (fun p => average_of p < average_of t) before
        /\ Forall (fun p => average_of p <= average_of t) after).
Proof. exact (fold_better_spec players None). Qed.

End ReportExtras.

Section StatsExtras.
Import Js MatchService PerformanceStats.

Lemma score_of_value (m : MatchDoc) : score_of m = Some (score_value m).
Proof.
  unfold score_of, score_value, score_or_zero, or_zero.
  destruct (m_calculatedScore m) as [[q|]|]; reflexivity.
Qed.

Lemma fold_max_some (rest : list MatchDoc) (a : Q) :
  exists hi,
    fold_left Math_max (map score_of rest) (Some a) = Some hi
    /\ a <= hi /\ Forall (fun m => score_value m <= hi) rest
    /\ (hi = a \/ exists m, m ∈ rest /\ hi = score_value m).
Proof.
  revert a. induction rest as [|m rest IH]; intros a; cbn [map fold_left].
  - exists a. split; [reflexivity|]. split; [apply Qle_refl|]. split; [constructor | by left].
  - rewrite score_of_value. cbn [Math_max lift2].
    destruct (IH (Qmax a (score_value m))) as (hi & -> & Hle & Hall & Hatt).
    exists hi. split; [reflexivity|].
    pose proof (Q.le_max_l a (score_value m)). pose proof (Q.le_max_r a (score_value m)).
    split; [lra|]. split; [constructor; [lra | exact Hall]|].
    destruct Hatt as [->|(m' & Hm' & ->)].
    + unfold Qmax, GenericMinMax.gmax.
      destruct (Qcompare a (score_value m)); [by left | right | by left].
      exists m. split; [by left | reflexivity].
    + right. exists m'. split; [by right | reflexivity].
Qed.

Lemma fold_min_some (rest : list MatchDoc) (a : Q) :
  exists lo,
    fold_left Math_min (map score_of rest) (Some a) = Some lo
    /\ lo <= a /\ Forall (fun m => lo <= score_value m) rest
    /\ (lo = a \/ exists m, m ∈ rest /\ lo = score_value m).
Proof.
  revert a. induction rest as [|m rest IH]; intros a; cbn [map fold_left].
  - exists a. split; [reflexivity|]. split; [apply Qle_refl|]. split; [constructor | by left].
  - rewrite score_of_value. cbn [Math_min lift2].
    destruct (IH (Qmin a (score_value m))) as (lo & -> & Hle & Hall & Hatt).
    exists lo. split; [reflexivity|].
    pose proof (Q.le_min_l a (score_value m)). pose proof (Q.le_min_r a (score_value m)).
    split; [lra|]. split; [constructor; [lra | exact Hall]|].
    destruct Hatt as [->|(m' & Hm' & ->)].
    + unfold Qmin, GenericMinMax.gmin.
      destruct (Qcompare a (score_value m)); [by left | by left | right].
      exists m. split; [by left | reflexivity].
    + right. exists m'. split; [by right | reflexivity].
Qed.

(** X23: for a non-empty list of matches the statistics hook reports as
    highest and lowest score the score of one of the matches, with every
    match in between, a missing score (or a [NaN]) counting as 0; for an
    empty list it reports zeros and "insufficient_data". *)
Theorem stats_bounds_are_attained (matches : list MatchDoc) :
  (matches = [] ->
     usePerformanceStats matches = mkStats 0 (int 0) (int 0) (int 0) "insufficient_data")
  /\ (matches <> [] ->
      exists lo hi,
        lowestScore (usePerformanceStats matches) = Some (score_value lo)
        /\ highestScore (usePerformanceStats matches) = Some (score_value hi)
        /\ lo ∈ matches /\ hi ∈ matches
        /\ Forall (fun m => score_value lo <= score_value m
                            /\ score_value m <= score_value hi) matches).
Proof.
  split; [intros ->; reflexivity|].
  destruct matches as [|first rest]; [congruence|]. intros _.
  unfold usePerformanceStats. cbn [lowestScore highestScore map].
  unfold Math_max_of, Math_min_of. rewrite score_of_value.
  destruct (fold_max_some rest (score_value first)) as (hi & -> & Hh1 & Hh2 & Hh3).
  destruct (fold_min_some rest (score_value first)) as (lo & -> & Hl1 & Hl2 & Hl3).
  assert (Elo : exists m, m ∈ first :: rest /\ lo = score_value m).
  { destruct Hl3 as [->|(m & Hm & ->)]; [exists first | exists m]; split;
      first [by left | by right | reflexivity]. }
  assert (Ehi : exists m, m ∈ first :: rest /\ hi = score_value m).
  { destruct Hh3 as [->|(m & Hm & ->)]; [exists first | exists m]; split;
      first [by left | by right | reflexivity]. }
  destruct Elo as (mlo & Hmlo & ->). destruct Ehi as (mhi & Hmhi & ->).
  exists mlo, mhi. split; [reflexivity|]. split; [reflexivity|].
  split; [exact Hmlo|]. split; [exact Hmhi|].
  constructor; [split; assumption|].
  apply Forall_forall. intros m Hm.
  rewrite Forall_forall in Hh2, Hl2. split; [by apply Hl2 | by apply Hh2].
Qed.

End StatsExtras.
(** * More about the realtime service *)

Section RealtimeExtras.
Import RealtimeService CrossComponentSync.

Lemma unsubscribe_registered (id : string) (fns : list nat) (st : State) :
  subscriptions st !! id = Some fns ->
  unsubscribe id st
  = {| subscriptions := delete id (subscriptions st);
       watches := watches st ∖ list_to_set fns;
       next_watch := next_watch st |}.
Proof.
  intros H. unfold unsubscribe. rewrite H.
  destruct (foldl_unsubscribeFn_keeps st fns) as [-> ->].
  rewrite foldl_unsubscribeFn_watches. reflexivity.
Qed.

(** Registering fresh watches under a free identifier and unsubscribing it
    again gives back the subscriptions and the watches. *)
Lemma register_then_unsubscribe (id : string) (fns : list nat) (st : State) (n : nat) :
  subscriptions st !! id = None ->
  (forall h, h ∈ fns -> h ∉ watches st) ->
  unsubscribe id
    (set_subscription id fns
       {| subscriptions := subscriptions st;
          watches := list_to_set fns ∪ watches st;
          next_watch := n |})
  = {| subscriptions := subscriptions st; watches := watches st; next_watch := n |}.
Proof.
  intros Hfree Hnew.
  rewrite (unsubscribe_registered id fns);
    [|cbn [set_subscription subscriptions]; apply lookup_insert_eq].
  cbn [set_subscription subscriptions watches next_watch].
  f_equal.
  - by apply delete_insert_id.
  - apply set_eq. intros h. rewrite elem_of_difference, elem_of_union, elem_of_list_to_set.
    split; [intros [[?|?] ?]; done|]. intros Hh. split; [by right|].
    intros Hin. by apply (Hnew h).
Qed.

Lemma strict_superset (X Y : gset nat) (n : nat) :
  n ∉ X -> X ⊆ Y -> n ∈ Y -> X ⊂ Y.
Proof. intros Hn Hsub Hin. split; [done|]. intros Hback. apply Hn, Hback, Hin. Qed.

Ltac by_membership :=
  lazymatch goal with
  | |- _ ⊆ _ => apply elem_of_subseteq; intros ? ?
  | |- _ = _ => apply set_eq; intros ?
  | |- _ => intros
  end;
  repeat first [rewrite elem_of_difference | rewrite elem_of_union
               | rewrite elem_of_singleton];
  intuition (subst; solve [tauto | lia | congruence]).

Lemma fresh_watch (st : State) :
  handles_allocated st -> forall k, (next_watch st + k)%nat ∉ watches st.
Proof. intros [Hw _] k Hin. apply Hw in Hin. lia. Qed.

Lemma isSubscriptionActive_true (id : string) (st : State) :
  isSubscriptionActive id st = true <-> is_Some (subscriptions st !! id).
Proof. unfold isSubscriptionActive. apply bool_decide_eq_true. Qed.

Lemma elem_of_registered_watches (h : nat) (st : State) :
  h ∈ registered_watches st
  <-> exists id fns, subscriptions st !! id = Some fns /\ h ∈ fns.
Proof.
  unfold registered_watches. rewrite elem_of_union_list. split.
  - intros (X & HX & Hh).
    change (X ∈ (fun kv : string * list nat => list_to_set (C:=gset nat) kv.2)
                  <$> map_to_list (subscriptions st)) in HX.
    apply list_elem_of_fmap in HX as ([id fns] & -> & Hin).
    apply elem_of_map_to_list in Hin. exists id, fns.
    split; [done|]. by apply elem_of_list_to_set in Hh.
  - intros (id & fns & Hl & Hh). exists (list_to_set (C:=gset nat) fns).
    split; [|by apply elem_of_list_to_set].
    change (list_to_set (C:=gset nat) fns ∈ (fun kv : string * list nat => list_to_set (C:=gset nat) kv.2)
                  <$> map_to_list (subscriptions st)).
    apply list_elem_of_fmap. exists (id, fns). split; [done|].
    by apply elem_of_map_to_list.
Qed.

Lemma unsubscribe_watches (id : string) (st : State) (h : nat) :
  h ∈ watches (unsubscribe id st)
  <-> h ∈ watches st /\ forall fns, subscriptions st !! id = Some fns -> h ∉ fns.
Proof.
  destruct (subscriptions st !! id) as [fns|] eqn:E.
  - rewrite (unsubscribe_registered id fns st E). cbn [watches].
    rewrite elem_of_difference, elem_of_list_to_set. split.
    + intros [Hw Hn]. split; [done|]. intros fns' [= <-]. done.
    + intros [Hw Hn]. split; [done|]. by apply Hn.
  - rewrite (unsubscribe_absent id st E). split; [|by intros [? _]].
    intros Hw. split; [done|]. intros fns [=].
Qed.

Lemma foldl_unsubscribe_watches (ids : list string) (st : State) (h : nat) :
  NoDup ids ->
  h ∈ watches (foldl (fun s i => unsubscribe i s) st ids)
  <-> h ∈ watches st
      /\ forall id fns, id ∈ ids -> subscriptions st !! id = Some fns -> h ∉ fns.
Proof.
  intros Hnd. revert st. induction Hnd as [|i ids Hi Hnd IH]; intros st; cbn [foldl].
  - split; [|by intros [? _]]. intros Hw. split; [done|].
    intros id fns Hin. by apply elem_of_nil in Hin.
  - rewrite IH, unsubscribe_watches, unsubscribe_subscriptions. split.
    + intros [[Hw Hfirst] Hrest]. split; [done|].
      intros id fns Hin Hl. apply elem_of_cons in Hin as [->|Hin].
      * by apply Hfirst.
      * apply (Hrest id fns Hin). rewrite lookup_delete_ne; [done|].
        intros ->. done.
    + intros [Hw Hall]. split; [split; [done|]|].
      * intros fns Hl. apply (Hall i fns); [apply elem_of_cons; by left | done].
      * intros id fns Hin Hl. apply (Hall id fns); [apply elem_of_cons; by right|].
        apply lookup_delete_Some in Hl as [_ Hl]. done.
Qed.

(** [unsubscribeAll] releases the watches of the registered subscriptions
    and no other. *)
Lemma unsubscribeAll_watches (st : State) :
  watches (unsubscribeAll st) = watches st ∖ registered_watches st.
Proof.
  apply set_eq. intros h. unfold unsubscribeAll. cbn [watches].
  rewrite foldl_unsubscribe_watches; [|apply (NoDup_fst_map_to_list (subscriptions st))].
  rewrite elem_of_difference, elem_of_registered_watches. split.
  - intros [Hw Hall]. split; [done|]. intros (id & fns & Hl & Hh).
    apply (Hall id fns); [|done|done].
    apply list_elem_of_fmap. exists (id, fns). split; [done|].
    by apply elem_of_map_to_list.
  - intros [Hw Hnone]. split; [done|]. intros id fns _ Hl Hh.
    apply Hnone. by exists id, fns.
Qed.

Lemma unsubscribeAll_next_watch (st : State) :
  next_watch (unsubscribeAll st) = next_watch st.
Proof.
  unfold unsubscribeAll. cbn [next_watch].
  generalize (map fst (map_to_list (subscriptions st))). intros ids. revert st.
  induction ids as [|i ids IH]; intros st; [reflexivity|]. cbn [foldl].
  rewrite IH. unfold unsubscribe. destruct (subscriptions st !! i) as [fns|]; [|reflexivity].
  cbn [next_watch]. by destruct (foldl_unsubscribeFn_keeps st fns) as [_ ->].
Qed.

Lemma registered_allocated (st : State) (h : nat) :
  handles_allocated st -> h ∈ registered_watches st -> (h < next_watch st)%nat.
Proof.
  intros [_ Hs] Hin. apply elem_of_registered_watches in Hin as (id & fns & Hl & Hh).
  by apply (Hs id fns h).
Qed.

(** X24: each of the three subscribe functions registers one more active
    subscription under the identifier it returns, provided that identifier
    is free, and starts watches; unsubscribing that identifier gives back
    the subscriptions and the watches there were before. *)
Theorem subscribe_then_unsubscribe_restores
    (subscribe : Z -> string -> State -> string * State)
    (now : Z) (key : string) (st : State) :
  subscribe = subscribeToPlayerUpdates \/ subscribe = subscribeToCoachUpdates
    \/ subscribe = subscribeToMatchUpdates ->
  handles_allocated st ->
  isSubscriptionActive (subscribe now key st).1 st = false ->
  isSubscriptionActive (subscribe now key st).1 (subscribe now key st).2 = true
  /\ getActiveSubscriptionCount (subscribe now key st).2
     = S (getActiveSubscriptionCount st)
  /\ watches st ⊂ watches (subscribe now key st).2
  /\ subscriptions (unsubscribe (subscribe now key st).1 (subscribe now key st).2)
     = subscriptions st
  /\ watches (unsubscribe (subscribe now key st).1 (subscribe now key st).2)
     = watches st.
Proof.
  intros Hsub Hst Hfree. apply isSubscriptionActive_false in Hfree.
  pose proof (fresh_watch st Hst 0) as H0. pose proof (fresh_watch st Hst 1) as H1.
  rewrite Nat.add_0_r in H0. rewrite Nat.add_1_r in H1.
  destruct Hsub as [-> | [-> | ->]].
  - cbn [subscribeToPlayerUpdates onSnapshot fst snd] in *.
    set (id := ("player-" +:+ key +:+ "-" +:+ pretty now)%string) in *.
    split; [apply isSubscriptionActive_true; cbn; rewrite lookup_insert_eq; eauto|].
    split; [unfold getActiveSubscriptionCount; cbn; by rewrite map_size_insert_None|].
    split; [cbn; apply (strict_superset _ _ (next_watch st) H0); by_membership|].
    pose proof (register_then_unsubscribe id [next_watch st; S (next_watch st)] st
                  (S (S (next_watch st))) Hfree) as R.
    assert (W : list_to_set [next_watch st; S (next_watch st)] ∪ watches st
                = {[S (next_watch st)]} ∪ ({[next_watch st]} ∪ watches st) :> gset nat)
      by (apply set_eq; intros h; cbn [list_to_set];
          rewrite !elem_of_union, !elem_of_singleton, elem_of_empty; tauto).
    rewrite W in R. unfold set_subscription in R |- *.
    cbn [subscriptions watches next_watch] in R |- *.
    rewrite R; [split; reflexivity|].
    intros h Hh. repeat (apply elem_of_cons in Hh as [->|Hh]; [done|]).
    by apply elem_of_nil in Hh.
  - cbn [subscribeToCoachUpdates onSnapshot fst snd] in *.
    set (id := ("coach-" +:+ key +:+ "-" +:+ pretty now)%string) in *.
    split; [apply isSubscriptionActive_true; cbn; rewrite lookup_insert_eq; eauto|].
    split; [unfold getActiveSubscriptionCount; cbn; by rewrite map_size_insert_None|].
    split; [cbn; apply (strict_superset _ _ (next_watch st) H0); by_membership|].
    pose proof (register_then_unsubscribe id [next_watch st; S (next_watch st)] st
                  (S (S (next_watch st))) Hfree) as R.
    assert (W : list_to_set [next_watch st; S (next_watch st)] ∪ watches st
                = {[S (next_watch st)]} ∪ ({[next_watch st]} ∪ watches st) :> gset nat)
      by (apply set_eq; intros h; cbn [list_to_set];
          rewrite !elem_of_union, !elem_of_singleton, elem_of_empty; tauto).
    rewrite W in R. unfold set_subscription in R |- *.
    cbn [subscriptions watches next_watch] in R |- *.
    rewrite R; [split; reflexivity|].
    intros h Hh. repeat (apply elem_of_cons in Hh as [->|Hh]; [done|]).
    by apply elem_of_nil in Hh.
  - cbn [subscribeToMatchUpdates onSnapshot fst snd] in *.
    set (id := ("match-" +:+ key +:+ "-" +:+ pretty now)%string) in *.
    split; [apply isSubscriptionActive_true; cbn; rewrite lookup_insert_eq; eauto|].
    split; [unfold getActiveSubscriptionCount; cbn; by rewrite map_size_insert_None|].
    split; [cbn; apply (strict_superset _ _ (next_watch st) H0); by_membership|].
    pose proof (register_then_unsubscribe id [next_watch st] st
                  (S (next_watch st)) Hfree) as R.
    assert (W : list_to_set [next_watch st] ∪ watches st
                = {[next_watch st]} ∪ watches st :> gset nat)
      by (apply set_eq; intros h; cbn [list_to_set];
          rewrite !elem_of_union, !elem_of_singleton, elem_of_empty; tauto).
    rewrite W in R. unfold set_subscription in R |- *.
    cbn [subscriptions watches next_watch] in R |- *.
    rewrite R; [split; reflexivity|].
    intros h Hh. repeat (apply elem_of_cons in Hh as [->|Hh]; [done|]).
    by apply elem_of_nil in Hh.
Qed.

Lemma constructor_allocated : handles_allocated constructor.
Proof.
  split.
  - intros h Hh. by apply elem_of_empty in Hh.
  - intros id fns h Hl. cbn in Hl. by rewrite lookup_empty in Hl.
Defined.

Lemma subscribe_then_unsubscribe_restores_witness :
  isSubscriptionActive (subscribeToCoachUpdates 1000 "coach-1" constructor).1
    (subscribeToCoachUpdates 1000 "coach-1" constructor).2 = true
  /\ getActiveSubscriptionCount (subscribeToCoachUpdates 1000 "coach-1" constructor).2
     = S (getActiveSubscriptionCount constructor)
  /\ watches constructor ⊂ watches (subscribeToCoachUpdates 1000 "coach-1" constructor).2
  /\ subscriptions
       (unsubscribe (subscribeToCoachUpdates 1000 "coach-1" constructor).1
          (subscribeToCoachUpdates 1000 "coach-1" constructor).2)
     = subscriptions constructor
  /\ watches
       (unsubscribe (subscribeToCoachUpdates 1000 "coach-1" constructor).1
          (subscribeToCoachUpdates 1000 "coach-1" constructor).2)
     = watches constructor.
Proof.
  apply (subscribe_then_unsubscribe_restores subscribeToCoachUpdates 1000 "coach-1"
           constructor).
  - right. left. reflexivity.
  - exact constructor_allocated.
  - reflexivity.
Defined.

Lemma subscribe_allocated (now : Z) (playerId : string) (st : State) :
  handles_allocated st ->
  handles_allocated (subscribeToPlayerUpdates now playerId st).2.
Proof.
  intros [Hw Hs]. cbn [subscribeToPlayerUpdates onSnapshot snd]. split.
  - cbn. intros h Hh. apply elem_of_union in Hh as [Hh|Hh].
    + apply elem_of_singleton in Hh. lia.
    + apply elem_of_union in Hh as [Hh|Hh].
      * apply elem_of_singleton in Hh. lia.
      * apply Hw in Hh. lia.
  - cbn. intros id fns h Hl Hh. apply lookup_insert_Some in Hl as [[_ <-]|[_ Hl]].
    + repeat (apply elem_of_cons in Hh as [->|Hh]; [lia|]). by apply elem_of_nil in Hh.
    + specialize (Hs id fns h Hl Hh). lia.
Qed.

(** X25: the identifier of a subscription is made of the player and the
    clock reading, so a second subscription for the same player at the same
    reading takes the place of the first in the table: the number of active
    subscriptions stays the same, and the two watches of the first
    subscription stay in use after [unsubscribe] of the identifier and
    after [unsubscribeAll]. *)
Theorem same_reading_subscription_leaks_watches (now : Z) (playerId : string) (st : State) :
  handles_allocated st ->
  let first := subscribeToPlayerUpdates now playerId st in
  let second := subscribeToPlayerUpdates now playerId first.2 in
  second.1 = first.1
  /\ getActiveSubscriptionCount second.2 = getActiveSubscriptionCount first.2
  /\ subscriptions second.2 !! second.1
     = Some [S (S (next_watch st)); S (S (S (next_watch st)))]
  /\ (forall h, h = next_watch st \/ h = S (next_watch st) ->
        h ∈ watches (unsubscribe second.1 second.2)
        /\ h ∈ watches (unsubscribeAll second.2)
        /\ h ∉ registered_watches second.2).
Proof.
  intros Hst first second.
  assert (Hreg : forall h, h = next_watch st \/ h = S (next_watch st) ->
                   h ∉ registered_watches second.2).
  { intros h Hh Hin. apply elem_of_registered_watches in Hin as (id & fns & Hl & Hin).
    subst first second. cbn in Hl.
    apply lookup_insert_Some in Hl as [[_ <-]|[N Hl]].
    - repeat (apply elem_of_cons in Hin as [->|Hin]; [lia|]). by apply elem_of_nil in Hin.
    - apply lookup_insert_Some in Hl as [[E _]|[_ Hl]]; [by apply N in E|].
      destruct Hst as [_ Hs]. specialize (Hs id fns h Hl Hin). lia. }
  assert (Hin : forall h, h = next_watch st \/ h = S (next_watch st) ->
                  h ∈ watches second.2).
  { intros h Hh. subst first second. cbn. by_membership. }
  split; [reflexivity|].
  split.
  { unfold getActiveSubscriptionCount. subst first second. cbn.
    apply map_size_insert_Some. rewrite lookup_insert_eq. eauto. }
  split; [subst first second; cbn; apply lookup_insert_eq|].
  intros h Hh. split; [|split; [|by apply Hreg]].
  - apply unsubscribe_watches. split; [by apply Hin|].
    intros fns Hl Hfn. apply (Hreg h Hh). apply elem_of_registered_watches.
    by exists second.1, fns.
  - rewrite unsubscribeAll_watches. apply elem_of_difference.
    split; [by apply Hin | by apply Hreg].
Qed.

Lemma same_reading_subscription_leaks_watches_witness :
  let first := subscribeToPlayerUpdates 1000 "player-1" constructor in
  let second := subscribeToPlayerUpdates 1000 "player-1" first.2 in
  second.1 = first.1
  /\ getActiveSubscriptionCount second.2 = getActiveSubscriptionCount first.2
  /\ subscriptions second.2 !! second.1
     = Some [S (S (next_watch constructor)); S (S (S (next_watch constructor)))]
  /\ (forall h, h = next_watch constructor \/ h = S (next_watch constructor) ->
        h ∈ watches (unsubscribe second.1 second.2)
        /\ h ∈ watches (unsubscribeAll second.2)
        /\ h ∉ registered_watches second.2).
Proof.
  apply (same_reading_subscription_leaks_watches 1000 "player-1" constructor).
  exact constructor_allocated.
Defined.

(** X26: [unsubscribeAll] leaves no subscription active and releases the
    watches held by the registered subscriptions, and only those: a watch
    that no registered subscription holds stays in use. *)
Theorem unsubscribeAll_releases_registered_watches (st : State) :
  getActiveSubscriptionCount (unsubscribeAll st) = 0%nat
  /\ watches (unsubscribeAll st) = watches st ∖ registered_watches st
  /\ registered_watches (unsubscribeAll st) = ∅
  /\ next_watch (unsubscribeAll st) = next_watch st.
Proof.
  split; [reflexivity|]. split; [apply unsubscribeAll_watches|].
  split; [|apply unsubscribeAll_next_watch].
  apply set_eq. intros h. rewrite elem_of_registered_watches. split.
  - intros (id & fns & Hl & _). rewrite unsubscribeAll_subscriptions, lookup_empty in Hl.
    discriminate Hl.
  - intros Hh. by apply elem_of_empty in Hh.
Qed.

(** X27: the two watches of a cross-component synchronisation are not
    entered in the table of subscriptions: setting it up leaves the table
    as it was, [unsubscribeAll] does not release them, so that a registered
    callback is still notified afterwards, and only [destroy] releases
    them, after which no callback is notified, not even one added later. *)
Theorem cross_component_sync_outlives_unsubscribeAll
    (now : Z) (playerId coachId : string) (st : State) (callback : nat) :
  handles_allocated st ->
  let sync := (setupCrossComponentSync now playerId coachId st).1 in
  let st' := (setupCrossComponentSync now playerId coachId st).2 in
  subscriptions st' = subscriptions st
  /\ notified (addCallback callback sync) (unsubscribeAll st') (matchListener sync)
     = [callback]
  /\ notified (addCallback callback sync) (unsubscribeAll st') (playerListener sync)
     = [callback]
  /\ watches (destroy sync st').2 = watches st
  /\ forall h,
       notified (addCallback callback (destroy (addCallback callback sync) st').1)
         (destroy (addCallback callback sync) st').2 h = [].
Proof.
  intros Hst sync st'.
  pose proof (fresh_watch st Hst 0) as H0. pose proof (fresh_watch st Hst 1) as H1.
  rewrite Nat.add_0_r in H0. rewrite Nat.add_1_r in H1.
  assert (Hreg : forall h, (next_watch st <= h)%nat -> h ∉ registered_watches st').
  { intros h Hh Hin. apply elem_of_registered_watches in Hin as (id & fns & Hl & Hin).
    destruct Hst as [_ Hs]. specialize (Hs id fns h Hl Hin). lia. }
  split; [reflexivity|].
  assert (Hserved : forall h, h = next_watch st \/ h = S (next_watch st) ->
                      bool_decide (h ∈ watches (unsubscribeAll st')) = true).
  { intros h Hh. apply bool_decide_eq_true. rewrite unsubscribeAll_watches.
    apply elem_of_difference. split.
    - subst st'. cbn. by_membership.
    - apply Hreg. lia. }
  split.
  { unfold notified. rewrite Hserved; [|left; reflexivity].
    subst sync. cbn. by rewrite Nat.eqb_refl. }
  split.
  { unfold notified. rewrite Hserved; [|right; reflexivity].
    subst sync. cbn. rewrite Nat.eqb_refl. by rewrite orb_true_r. }
  split.
  { subst sync st'. cbn. by_membership. }
  intros h. unfold notified.
  destruct (bool_decide (h ∈ watches (destroy (addCallback callback sync) st').2)) eqn:E;
    [|reflexivity].
  apply bool_decide_eq_true in E. subst sync st'. cbn in E.
  rewrite !elem_of_difference, !elem_of_singleton in E. destruct E as [[_ N1] N2].
  cbn. apply Nat.eqb_neq in N1, N2. rewrite N1, N2. reflexivity.
Qed.

Lemma cross_component_sync_outlives_unsubscribeAll_witness :
  let sync := (setupCrossComponentSync 1000 "player-1" "coach-1" constructor).1 in
  let st' := (setupCrossComponentSync 1000 "player-1" "coach-1" constructor).2 in
  subscriptions st' = subscriptions constructor
  /\ notified (addCallback 7 sync) (unsubscribeAll st') (matchListener sync) = [7%nat]
  /\ notified (addCallback 7 sync) (unsubscribeAll st') (playerListener sync) = [7%nat]
  /\ watches (destroy sync st').2 = watches constructor
  /\ forall h,
       notified (addCallback 7 (destroy (addCallback 7 sync) st').1)
         (destroy (addCallback 7 sync) st').2 h = [].
Proof.
  apply (cross_component_sync_outlives_unsubscribeAll 1000 "player-1" "coach-1"
           constructor 7).
  exact constructor_allocated.
Defined.

Lemma remove_first_absent (c : nat) (l : list nat) : c ∉ l -> remove_first c l = l.
Proof.
  induction l as [|x l IH]; intros H; [reflexivity|]. cbn [remove_first].
  destruct (Nat.eqb_spec x c) as [->|N].
  - exfalso. apply H. apply elem_of_cons. by left.
  - f_equal. apply IH. intros Hin. apply H. apply elem_of_cons. by right.
Qed.

Lemma remove_first_app (c : nat) (before after : list nat) :
  c ∉ before -> remove_first c (before ++ c :: after) = before ++ after.
Proof.
  induction before as [|x l IH]; intros H; cbn [remove_first app].
  - by rewrite Nat.eqb_refl.
  - destruct (Nat.eqb_spec x c) as [->|N].
    + exfalso. apply H. apply elem_of_cons. by left.
    + f_equal. apply IH. intros Hin. apply H. apply elem_of_cons. by right.
Qed.

(** X28: [removeCallback] takes out the first registration of the
    callback and keeps the other callbacks in their order: when the
    callback is registered again and removed once, the earlier registration
    goes and the later one stays; removing a callback that is no longer
    registered changes nothing. *)
Theorem removeCallback_takes_first_registration
    (callback : nat) (sync : Sync) (before after : list nat) :
  callbacks sync = before ++ callback :: after ->
  callback ∉ before ->
  callbacks (removeCallback callback sync) = before ++ after
  /\ callbacks (removeCallback callback (addCallback callback sync))
     = before ++ after ++ [callback]
  /\ (callback ∉ after ->
      removeCallback callback (removeCallback callback sync)
      = removeCallback callback sync).
Proof.
  intros Hc Hb. unfold removeCallback, addCallback.
  cbn [callbacks syncId matchListener playerListener]. rewrite Hc.
  split; [by apply remove_first_app|]. split.
  - rewrite <- app_assoc. cbn [app]. rewrite remove_first_app; [|done].
    reflexivity.
  - intros Ha. f_equal. rewrite remove_first_app; [|done].
    apply remove_first_absent. intros Hin. apply elem_of_app in Hin as [Hin|Hin]; done.
Qed.

Lemma removeCallback_takes_first_registration_witness :
  let sync :=
    addCallback 2 (addCallback 7 (addCallback 1
      (setupCrossComponentSync 1000 "player-1" "coach-1" constructor).1)) in
  callbacks (removeCallback 7 sync) = [1%nat] ++ [2%nat]
  /\ callbacks (removeCallback 7 (addCallback 7 sync)) = [1%nat] ++ [2%nat] ++ [7%nat]
  /\ (7%nat ∉ [2%nat] ->
      removeCallback 7 (removeCallback 7 sync) = removeCallback 7 sync).
Proof.
  intros sync.
  apply (removeCallback_takes_first_registration 7 sync [1%nat] [2%nat]).
  - reflexivity.
  - intros H. apply elem_of_cons in H as [H|H]; [discriminate H | by apply elem_of_nil in H].
Defined.

End RealtimeExtras.
(** * Trends across the components *)

Section TrendExtras.
Import Js SuggestionEngine MatchDataModel MatchService MatchReports PerformanceStats.


Lemma slice_second_three {A} (l : list A) : slice l 3 (Some 6%Z) = take 3 (drop 3 l).
Proof.
  unfold slice, slice_index. cbn [Z.ltb Z.compare].
  change (Z.to_nat 3) with 3%nat. change (Z.to_nat 6) with 6%nat.
  destruct (Nat.le_gt_cases 6 (length l)).
  - rewrite !Nat.min_r by lia. reflexivity.
  - destruct (Nat.le_gt_cases 3 (length l)).
    + rewrite (Nat.min_l (length l) 6), (Nat.min_r (length l) 3) by lia.
      rewrite !take_ge; [reflexivity | |]; rewrite length_drop; lia.
    + rewrite !Nat.min_l by lia. rewrite Nat.sub_diag.
      rewrite (drop_ge l 3) by lia. reflexivity.
Qed.


Lemma slice_map {A B} (f : A -> B) (l : list A) (start : Z) (stop : option Z) :
  slice (map f l) start stop = map f (slice l start stop).
Proof.
  unfold slice. rewrite length_map.
  change (map f) with (fmap (M:=list) f). by rewrite fmap_take, fmap_drop.
Qed.






Lemma sum_of_scores (l : list MatchDoc) : sum_of l = sum_scores (map score_of l).
Proof.
  unfold sum_of, sum_scores. generalize (int 0).
  induction l as [|m l IH]; intros a; [reflexivity|]. cbn [fold_left map]. apply IH.
Qed.

Lemma all_scored_scores (ms : list (string * MatchDoc)) :
  all_scored ms -> valid_scores ms = map score_of (map snd ms).
Proof.
  unfold all_scored, valid_scores.
  induction 1 as [|m ms (q & Hq) _ IH]; [reflexivity|].
  cbn [omap list_omap map]. rewrite Hq, IH. unfold score_of. cbn [snd]. rewrite Hq.
  reflexivity.
Qed.

(** X30: when every match has a score, the statistics hook of the
    dashboard and the performance summary of the service classify the same
    newest-first matches the same way from four matches on; with fewer
    matches the hook reports "insufficient_data" where the service reports
    "stable". *)
Theorem hook_and_summary_agree_on_trend (ms : list (string * MatchDoc)) :
  all_scored ms ->
  recentTrend (usePerformanceStats (map snd ms))
  = (if (length ms <? 4)%nat then "insufficient_data"%string
     else summary_trend (valid_scores ms))
  /\ ((length ms < 4)%nat -> summary_trend (valid_scores ms) = "stable"%string).
Proof.
  intros Hs. rewrite (all_scored_scores ms Hs).
  unfold usePerformanceStats, summary_trend. cbn [recentTrend]. cbv zeta.
  rewrite !sum_of_scores, <- !slice_map, !length_map.
  set (scores := map score_of (map snd ms)).
  assert (Lo : length (slice scores 3 (Some 6%Z)) = Nat.min 3 (length ms - 3)).
  { rewrite slice_second_three, length_take, length_drop. unfold scores.
    by rewrite !length_map. }
  assert (Lm : length (slice (map snd ms) 3 (Some 6%Z))
               = length (slice scores 3 (Some 6%Z))).
  { unfold scores. by rewrite (slice_map score_of), length_map. }
  assert (Lr : length (slice (map snd ms) 0 (Some 3%Z))
               = length (slice scores 0 (Some 3%Z))).
  { unfold scores. by rewrite (slice_map score_of), length_map. }
  rewrite Lm, Lr.
  destruct (Nat.le_gt_cases 4 (length ms)) as [H|H].
  - replace (length ms <? 4)%nat with false by (symmetry; apply Nat.ltb_ge; lia).
    replace (3 <=? length ms)%nat with true by (symmetry; apply Nat.leb_le; lia).
    replace (4 <=? length ms)%nat with true by (symmetry; apply Nat.leb_le; lia).
    replace (0 <? length (slice scores 3 (Some 6%Z)))%nat with true
      by (symmetry; apply Nat.ltb_lt; lia).
    replace (length (slice scores 3 (Some 6%Z)) =? 0)%nat with false
      by (symmetry; apply Nat.eqb_neq; lia).
    split; [reflexivity | lia].
  - replace (length ms <? 4)%nat with true by (symmetry; apply Nat.ltb_lt; lia).
    replace (4 <=? length ms)%nat with false by (symmetry; apply Nat.leb_gt; lia).
    replace (length (slice scores 3 (Some 6%Z)) =? 0)%nat with true
      by (symmetry; apply Nat.eqb_eq; lia).
    split; [|reflexivity]. by destruct (3 <=? length ms)%nat.
Qed.

Lemma hook_and_summary_agree_on_trend_witness :
  let ms := [("m4"%string, Fixtures.match_of "player-1" 400 (Some (num 85)));
             ("m3"%string, Fixtures.match_of "player-1" 300 (Some (num 70)));
             ("m2"%string, Fixtures.match_of "player-1" 200 (Some (num 65)));
             ("m1"%string, Fixtures.match_of "player-1" 100 (Some (num 60)))] in
  recentTrend (usePerformanceStats (map snd ms))
  = (if (length ms <? 4)%nat then "insufficient_data"%string
     else summary_trend (valid_scores ms))
  /\ ((length ms < 4)%nat -> summary_trend (valid_scores ms) = "stable"%string).
Proof.
  intros ms. apply (hook_and_summary_agree_on_trend ms).
  repeat constructor; eexists; reflexivity.
Defined.

End TrendExtras.
